(** * File2JSON: type detection, handler dispatch, archive recursion and the
    conversion orchestrator, embedded from [converter_tool].

    Python values are modelled as the code has them: [str] as a sequence of
    code points, dictionaries that are written out as JSON as insertion-ordered
    association lists, look-up tables as finite maps, floats as binary64
    numbers.  Exceptions are explicit results; the scratch directory and the
    output directory are explicit state.  Everything the program obtains from
    a library it does not define (content sniffing, parsers, archive readers,
    the clock, digests) is a field of the record [Runtime]; the theorems hold
    for every runtime.  Exceptions range over instances of [Exception]:
    interpreter signals such as [KeyboardInterrupt] are outside the model, and
    so are the [logger] calls, which leave control flow and results alone. *)

From Stdlib Require Import ZArith NArith Ascii String List Lia Bool Floats Uint63.
From stdpp Require Import base option list strings gmap.

Set Warnings "-register-all".

Local Open Scope N_scope.

(** ** Python strings and bytes *)

Abbreviation pystr := (list N).
Abbreviation bytes := (list N).

(** A source literal as a Python string. *)
Definition u (s : string) : pystr :=
  (λ a, N_of_ascii a) <$> list_ascii_of_string s.

Definition DOT : N := 46.
Definition SLASH : N := 47.
Definition LF : N := 10.
Definition CR : N := 13.

Definition is_ascii_digit (c : N) : bool := (48 <=? c) && (c <=? 57).
Definition is_ascii_upper (c : N) : bool := (65 <=? c) && (c <=? 90).
Definition is_ascii_lower (c : N) : bool := (97 <=? c) && (c <=? 122).
Definition is_ascii_word (c : N) : bool :=
  is_ascii_digit c || is_ascii_upper c || is_ascii_lower c || (c =? 95).

Definition str_eqb (a b : pystr) : bool := bool_decide (a = b).

(** [s.split(sep)] for a one-character separator: never empty. *)
Fixpoint split_on (sep : N) (s : pystr) : list pystr :=
  match s with
  | [] => [[]]
  | c :: s' =>
      if c =? sep then [] :: split_on sep s'
      else match split_on sep s' with
           | [] => [[c]]
           | w :: ws => (c :: w) :: ws
           end
  end.

(** [s.rfind(c)]: index of the last occurrence. *)
Fixpoint rfind (c : N) (s : pystr) : option nat :=
  match s with
  | [] => None
  | x :: s' =>
      match rfind c s' with
      | Some i => Some (S i)
      | None => if x =? c then Some 0%nat else None
      end
  end.

(** [s.lstrip(c)] for a one-character set. *)
Fixpoint lstrip (c : N) (s : pystr) : pystr :=
  match s with
  | [] => []
  | x :: s' => if x =? c then lstrip c s' else s
  end.

(** [needle in s]. *)
Fixpoint contains (needle s : pystr) : bool :=
  match s with
  | [] => bool_decide (needle = [])
  | _ :: s' => bool_decide (take (length needle) s = needle) || contains needle s'
  end.

(** [str.isspace] on one code point. *)
Definition is_space (c : N) : bool :=
  ((9 <=? c) && (c <=? 13)) || ((28 <=? c) && (c <=? 32)) || (c =? 133) || (c =? 160)
  || (c =? 5760) || ((8192 <=? c) && (c <=? 8202)) || (c =? 8232) || (c =? 8233)
  || (c =? 8239) || (c =? 8287) || (c =? 12288).

Fixpoint lstrip_space (s : pystr) : pystr :=
  match s with
  | [] => []
  | x :: s' => if is_space x then lstrip_space s' else s
  end.

(** [s.strip()]. *)
Definition strip (s : pystr) : pystr :=
  reverse (lstrip_space (reverse (lstrip_space s))).

(** Decimal digits of a natural number, most significant first. *)
Fixpoint digits_fuel (fuel : nat) (n : N) (acc : pystr) : pystr :=
  match fuel with
  | O => acc
  | S fuel' =>
      let acc' := (48 + n mod 10) :: acc in
      if n <? 10 then acc' else digits_fuel fuel' (n / 10) acc'
  end.

Definition str_of_N (n : N) : pystr := digits_fuel (S (N.to_nat (N.log2 n))) n [].

(** [str(n).zfill(w)], and [str(z)] for an integer. *)
Definition zfill (w : nat) (n : N) : pystr :=
  let d := str_of_N n in replicate (w - length d) 48 ++ d.

Definition str_of_Z (z : Z) : pystr :=
  if (z <? 0)%Z then 45 :: str_of_N (Z.to_N (- z)) else str_of_N (Z.to_N z).

(** Octal digits, for [oct]. *)
Fixpoint octal_fuel (fuel : nat) (n : N) (acc : pystr) : pystr :=
  match fuel with
  | O => acc
  | S fuel' =>
      let acc' := (48 + n mod 8) :: acc in
      if n <? 8 then acc' else octal_fuel fuel' (n / 8) acc'
  end.

Definition oct (z : Z) : pystr :=
  let body n := u "0o" ++ octal_fuel (S (N.to_nat (N.log2 n))) n [] in
  if (z <? 0)%Z then 45 :: body (Z.to_N (- z)) else body (Z.to_N z).

(** ** Exceptions *)

Inductive exc_class :=
| Exception | ImportError | AttributeError | ValueError | UnicodeDecodeError
| JSONDecodeError | SyntaxError | ParseError | OSError | FileNotFoundError
| ArithmeticError | OverflowError | LookupError | KeyError | RuntimeError
| RecursionError | NotImplementedError | CsvError | BadZipFile | TarError
| ReadError.

Global Instance exc_class_eq_dec : EqDecision exc_class.
Proof. solve_decision. Defined.

(** The direct base class; [Exception] is the root of the model. *)
Definition base_class (c : exc_class) : option exc_class :=
  match c with
  | Exception => None
  | UnicodeDecodeError | JSONDecodeError => Some ValueError
  | ParseError => Some SyntaxError
  | FileNotFoundError => Some OSError
  | OverflowError => Some ArithmeticError
  | KeyError => Some LookupError
  | RecursionError | NotImplementedError => Some RuntimeError
  | ReadError => Some TarError
  | _ => Some Exception
  end.

Fixpoint issubclass_fuel (fuel : nat) (c d : exc_class) : bool :=
  bool_decide (c = d) ||
  match fuel with
  | O => false
  | S fuel' =>
      match base_class c with
      | Some b => issubclass_fuel fuel' b d
      | None => false
      end
  end.

Definition issubclass (c d : exc_class) : bool := issubclass_fuel 3 c d.

(** An exception instance: its class and [str(e)]. *)
Record exc := mkExc { exc_type : exc_class; exc_str : pystr }.

Definition isinstance (e : exc) (c : exc_class) : bool := issubclass (exc_type e) c.

Inductive result (A : Type) :=
| Return (a : A)
| Raise (e : exc).
Arguments Return {A} a.
Arguments Raise {A} e.


(** ** JSON-serialisable values *)

Inductive Json :=
| JNone
| JBool (b : bool)
| JInt (z : Z)
| JFloat (f : float)
| JStr (s : pystr)
| JList (l : list Json)
| JDict (d : list (option pystr * Json)).

(** A dictionary key: a string, or [None] (what [csv.DictReader] uses as its
    [restkey]). *)
Abbreviation pykey := (option pystr).
Abbreviation pydict := (list (option pystr * Json)).

Definition k (s : string) : pykey := Some (u s).

Definition key_eqb (a b : pykey) : bool := bool_decide (a = b).

(** [d.get(key)]. *)
Fixpoint dict_get (key : pykey) (d : pydict) : option Json :=
  match d with
  | [] => None
  | (k', v) :: d' => if key_eqb k' key then Some v else dict_get key d'
  end.

(** [d[key] = v]: an existing key keeps its place. *)
Fixpoint dict_set (key : pykey) (v : Json) (d : pydict) : pydict :=
  match d with
  | [] => [(key, v)]
  | (k', v') :: d' =>
      if key_eqb k' key then (k', v) :: d' else (k', v') :: dict_set key v d'
  end.

(** [d.update(other)]. *)
Definition dict_update (d other : pydict) : pydict :=
  fold_left (λ acc kv, dict_set kv.1 kv.2 acc) other d.

(** [dict(pairs)]. *)
Definition dict_of (pairs : pydict) : pydict := dict_update [] pairs.

(** [key in j] for a value that is a dictionary. *)
Definition has_key (key : pykey) (j : Json) : bool :=
  match j with
  | JDict d => bool_decide (is_Some (dict_get key d))
  | _ => false
  end.

(** [j[key]] for a value that is a dictionary. *)
Definition item (key : pykey) (j : Json) : option Json :=
  match j with
  | JDict d => dict_get key d
  | _ => None
  end.

(** Truthiness of the floats and strings the program tests. *)
Definition truthy_float (x : float) : bool := negb (PrimFloat.eqb x 0%float).
Definition truthy_str (s : pystr) : bool := negb (bool_decide (s = [])).

(** ** Dates *)

(** A [datetime]: naive when [utcoffset] is [None]; the offset is in seconds. *)
Record datetime := mkDatetime {
  year : Z; month : Z; day : Z; hour : Z; minute : Z; second : Z;
  microsecond : Z; utcoffset : option Z }.

Definition two (z : Z) : pystr := zfill 2 (Z.to_N z).

(** [dt.isoformat()]. *)
Definition isoformat (d : datetime) : pystr :=
  zfill 4 (Z.to_N (year d)) ++ u "-" ++ two (month d) ++ u "-" ++ two (day d)
  ++ u "T" ++ two (hour d) ++ u ":" ++ two (minute d) ++ u ":" ++ two (second d)
  ++ (if (microsecond d =? 0)%Z then [] else DOT :: zfill 6 (Z.to_N (microsecond d)))
  ++ match utcoffset d with
     | None => []
     | Some off =>
         let a := Z.abs off in
         (if (off <? 0)%Z then u "-" else u "+")
         ++ two (a / 3600) ++ u ":" ++ two (a mod 3600 / 60)
         ++ (if (a mod 60 =? 0)%Z then [] else u ":" ++ two (a mod 60))
     end.

(** ** Files and the file system *)

(** A regular file: where it is, what it holds, when it was last modified
    ([st_mtime]). [st_size] is the length of the contents. *)
Record File := mkFile { path : pystr; content : bytes; st_mtime : float }.

Definition st_size (f : File) : Z := Z.of_nat (length (content f)).

(** The part of the file system the program writes: the scratch files made by
    [tempfile.NamedTemporaryFile(delete=False)], keyed by the ticket that stands
    for the random part of their name, and the JSON documents in the output
    directory, keyed by path. *)
Record FS := mkFS {
  scratch : gmap nat File;
  tickets : nat;
  outputs : gmap pystr Json }.

(** Computations over a state that may raise: the state survives an
    exception. [M] is over the file system; a [Block] also carries a
    dictionary that the block assigns to, so that what was assigned before
    an exception is still there after it. *)
Definition ST (S A : Type) : Type := S → result A * S.

Abbreviation M := (ST FS).
Abbreviation Block := (ST (list (option pystr * Json) * FS)).

Global Instance ST_ret {S} : MRet (ST S) := λ A a s, (Return a, s).

Global Instance ST_bind {S} : MBind (ST S) := λ A B f m s,
  match m s with
  | (Return a, s') => f a s'
  | (Raise e, s') => (Raise e, s')
  end.

Definition raise {S A} (e : exc) : ST S A := λ s, (Raise e, s).
Definition lift {S A} (r : result A) : ST S A := λ s, (r, s).

(** [try: m  except Exception as e: h e]. *)
Definition try_except {S A} (m : ST S A) (h : exc → ST S A) : ST S A :=
  λ s, match m s with
       | (Return a, s') => (Return a, s')
       | (Raise e, s') => h e s'
       end.

(** [try: m  finally: fin]: [fin] runs on both exits, and an exception of
    [fin] replaces the outcome of [m]. *)
Definition try_finally {S A} (m : ST S A) (fin : ST S unit) : ST S A :=
  λ s, match m s with
       | (r, s') =>
           match fin s' with
           | (Return _, s'') => (r, s'')
           | (Raise e, s'') => (Raise e, s'')
           end
       end.

(** A [for] loop that appends one value per element. *)
Fixpoint for_each {S A B} (body : A → ST S B) (l : list A) : ST S (list B) :=
  match l with
  | [] => mret []
  | a :: l' => b ← body a; bs ← for_each body l'; mret (b :: bs)
  end.

(** Inside a block: a computation on the file system, and [d[key] = v]. *)
Definition on_fs {A} (m : M A) : Block A := λ ds,
  match m ds.2 with
  | (r, s') => (r, (ds.1, s'))
  end.

Definition set_item (key : option pystr) (v : Json) : Block unit := λ ds,
  (Return (), (dict_set key v ds.1, ds.2)).

(** A block run on a dictionary: the dictionary afterwards. *)
Definition with_local (d : list (option pystr * Json)) (b : Block unit)
  : M (list (option pystr * Json)) := λ s,
  match b (d, s) with
  | (Return _, (d', s')) => (Return d', s')
  | (Raise e, (_, s')) => (Raise e, s')
  end.

(** ** What the libraries provide *)

(** An XML element as [xml.etree.ElementTree] hands it over. *)
Inductive Element :=
| mkElement (tag : pystr) (attrib : list (pystr * pystr)) (text : option pystr)
    (children : list Element) (tail : option pystr).

(** A record of the central directory of a ZIP archive, with what
    [ZipFile.read] yields for it. *)
Record ZipInfo := mkZipInfo {
  zi_filename : pystr;
  file_size : Z;
  compress_size : Z;
  zi_read : result bytes }.

(** A member of a TAR archive, with what [TarFile.extractfile] followed by
    [read] yields for it: [None] for a member without data (a device, a
    FIFO), an exception for one that cannot be extracted (a link whose target
    is not in the archive, damaged data). *)
Record TarInfo := mkTarInfo {
  ti_name : pystr;
  ti_size : Z;
  ti_isdir : bool;
  ti_mode : Z;
  ti_mtime : Z;
  ti_extractfile : result (option bytes) }.

Inductive converter_class :=
| EvtxConverter | PcapConverter | CsvConverter | JsonConverter | XmlConverter
| TextConverter | PdfConverter | DocxConverter | ArchiveConverter | BinaryConverter.

Global Instance converter_class_eq_dec : EqDecision converter_class.
Proof. solve_decision. Defined.

Record Runtime := mkRuntime {
  (** [magic.Magic(mime=True).from_file]; [ImportError] when not installed *)
  magic_from_file : File → result pystr;
  (** [filetype.guess]: the kind's [mime] and [extension], if any *)
  filetype_guess : File → result (option (pystr * pystr));
  (** [str.lower], [\d] and [\w] beyond ASCII *)
  uni_lower : N → pystr;
  uni_digit : N → bool;
  uni_word : N → bool;
  (** one pass of SHA-256, SHA-1 and MD5 over the file, as hex digests *)
  hexdigests : File → result (pystr * pystr * pystr);
  (** [datetime.fromtimestamp] (local time), [datetime.utcnow], [os.getcwd],
      and the modification time a file written now receives *)
  fromtimestamp : float → result datetime;
  utcnow : datetime;
  cwd : pystr;
  time_now : float;
  (** [json.load] and [ET.parse] on the file's bytes *)
  json_load : bytes → result Json;
  et_parse : bytes → result Element;
  (** text-mode decoding with [errors='replace'] *)
  decode_replace : bytes → pystr;
  (** [csv.Sniffer().sniff(sample).delimiter], and the records of
      [csv.reader] for a delimiter *)
  csv_sniff : pystr → result pystr;
  csv_reader : pystr → pystr → result (list (list pystr));
  (** [datetime.fromisoformat] and [float] *)
  fromisoformat : pystr → result datetime;
  float_of_str : pystr → result float;
  b64encode : bytes → pystr;
  (** [zipfile.ZipFile(path)] and [tarfile.open(path, mode)]; the flag says
      whether the mode is ['r:gz'] *)
  zip_open : File → result (list ZipInfo);
  tar_open : bool → File → result (list TarInfo);
  (** creating a scratch file with a suffix, and writing bytes to it *)
  tmp_create : pystr → result unit;
  tmp_write : bytes → result unit;
  (** the [_extract_data] of the handlers that only drive a parsing library
      (event logs, packet captures, PDF, DOCX), with [max_packets] if given *)
  external_extract : converter_class → File → option Z → result Json;
  (** writing a JSON document to a path: the error, if it fails *)
  json_dump_error : pystr → Json → option exc;
  (** the order in which the worker pool completes the submitted files *)
  completion_order : list File → list File }.

(** ** pathlib *)

Module Path.

(** [Path(p).name]: the final component; empty and [.] components do not
    count. *)
Definition name (p : pystr) : pystr :=
  default [] (last (filter (λ w, w ≠ [] ∧ w ≠ [DOT]) (split_on SLASH p))).

(** [PurePath.suffix]:
    [i = name.rfind('.'); name[i:] if 0 < i < len(name) - 1 else ''] *)
Definition suffix_of_name (n : pystr) : pystr :=
  match rfind DOT n with
  | Some i => if bool_decide (0 < i < length n - 1)%nat then drop i n else []
  | None => []
  end.

Definition suffix (p : pystr) : pystr := suffix_of_name (name p).

(** [PurePath.stem]. *)
Definition stem (p : pystr) : pystr :=
  let n := name p in
  match rfind DOT n with
  | Some i => if bool_decide (0 < i < length n - 1)%nat then take i n else n
  | None => n
  end.

(** [PurePath.suffixes]:
    [[] if name.endswith('.') else
     ['.' + s for s in name.lstrip('.').split('.')[1:]]] *)
Definition suffixes_of_name (n : pystr) : list pystr :=
  if bool_decide (last n = Some DOT) then []
  else (λ w, DOT :: w) <$> tail (split_on DOT (lstrip DOT n)).

Definition suffixes (p : pystr) : list pystr := suffixes_of_name (name p).

(** [str(p.absolute())]. *)
Definition absolute (cwd p : pystr) : pystr :=
  match p with
  | c :: _ => if c =? SLASH then p else cwd ++ SLASH :: p
  | [] => cwd
  end.

(** [dir / name]. *)
Definition join (dir n : pystr) : pystr := dir ++ SLASH :: n.

End Path.

(** [l[-2:]] *)
Definition last_two {A} (l : list A) : list A := drop (length l - 2) l.

(** ** utils.py *)

Section Utils.
Context (rt : Runtime).

(** [s.lower()] *)
Definition lower (s : pystr) : pystr :=
  s ≫= (λ c, if c <? 128 then [if is_ascii_upper c then c + 32 else c] else uni_lower rt c).

Definition mime_to_type : gmap pystr pystr :=
  list_to_map [
    (u "application/x-evtx", u "evtx");
    (u "application/vnd.tcpdump.pcap", u "pcap");
    (u "application/vnd.tcpdump.pcapng", u "pcapng");
    (u "application/pdf", u "pdf");
    (u "application/vnd.openxmlformats-officedocument.wordprocessingml.document", u "docx");
    (u "application/zip", u "zip");
    (u "application/gzip", u "gzip");
    (u "application/x-tar", u "tar");
    (u "text/csv", u "csv");
    (u "application/json", u "json");
    (u "application/xml", u "xml");
    (u "text/xml", u "xml");
    (u "text/plain", u "txt") ].

Definition ext_to_type : gmap pystr pystr :=
  list_to_map [ (u ".evtx", u "evtx"); (u ".pcap", u "pcap"); (u ".pcapng", u "pcapng") ].

Definition extension_map : gmap pystr pystr :=
  list_to_map [
    (u ".evtx", u "evtx"); (u ".pcap", u "pcap"); (u ".pcapng", u "pcapng");
    (u ".csv", u "csv"); (u ".json", u "json"); (u ".xml", u "xml");
    (u ".log", u "txt"); (u ".txt", u "txt"); (u ".pdf", u "pdf");
    (u ".docx", u "docx"); (u ".zip", u "zip"); (u ".tar", u "tar");
    (u ".gz", u "gzip"); (u ".tgz", u "tar") ].

(** The first step of [detect_file_type]: python-magic.  Both [except]
    clauses only log, so every failure falls through. *)
Definition detect_by_magic (f : File) : option (pystr * pystr) :=
  match magic_from_file rt f with
  | Return mimetype =>
      match mime_to_type !! mimetype with
      | Some detected => if truthy_str detected then Some (detected, mimetype) else None
      | None => None
      end
  | Raise _ => None
  end.

(** The second step: the filetype library. *)
Definition detect_by_filetype (f : File) : option (pystr * pystr) :=
  match filetype_guess rt f with
  | Return (Some (mimetype, extension)) =>
      match ext_to_type !! (DOT :: extension) with
      | Some detected => if truthy_str detected then Some (detected, mimetype) else None
      | None => None
      end
  | Return None => None
  | Raise _ => None
  end.

(** The third step, on the file's path alone. *)
Definition detect_by_extension (p : pystr) : pystr * pystr :=
  let extension := lower (Path.suffix p) in
  if bool_decide (last_two (Path.suffixes p) = [u ".tar"; u ".gz"])
  then (u "tar", u "application/x-gzip")
  else (default (u "binary") (extension_map !! extension), u "application/octet-stream").

Definition detect_file_type (f : File) : pystr * pystr :=
  match detect_by_magic f with
  | Some r => r
  | None =>
      match detect_by_filetype f with
      | Some r => r
      | None => detect_by_extension (path f)
      end
  end.

(** [calculate_hashes]: a failure while reading yields empty digests. *)
Definition calculate_hashes (f : File) : pydict :=
  match hexdigests rt f with
  | Return (sha256, sha1, md5) =>
      [(k "sha256", JStr sha256); (k "sha1", JStr sha1); (k "md5", JStr md5)]
  | Raise _ =>
      [(k "sha256", JStr []); (k "sha1", JStr []); (k "md5", JStr [])]
  end.

Definition extract_metadata (f : File) (include_hashes : bool) : pydict :=
  let metadata :=
    [(k "size", JInt (st_size f)); (k "mtime", JFloat (st_mtime f)); (k "mtime_iso", JNone)] in
  if include_hashes then dict_update metadata (calculate_hashes f)
  else dict_update metadata [(k "sha256", JStr []); (k "sha1", JStr []); (k "md5", JStr [])].

End Utils.

(** ** registry.py *)

Definition CONVERTER_REGISTRY : gmap pystr converter_class :=
  list_to_map [
    (u "evtx", EvtxConverter); (u "pcap", PcapConverter); (u "pcapng", PcapConverter);
    (u "csv", CsvConverter); (u "json", JsonConverter); (u "xml", XmlConverter);
    (u "txt", TextConverter); (u "pdf", PdfConverter); (u "docx", DocxConverter);
    (u "zip", ArchiveConverter); (u "tar", ArchiveConverter); (u "gzip", ArchiveConverter);
    (u "binary", BinaryConverter) ].

Definition get_converter (file_type : pystr) : converter_class :=
  default BinaryConverter (CONVERTER_REGISTRY !! file_type).

(** A handler instance.  Only [ArchiveConverter.__init__] sets
    [recursion_depth]; for the other classes the attribute does not exist. *)
Record Converter := mkConverter {
  cls : converter_class;
  include_base64 : bool;
  base64_limit : Z;
  recursion_depth : option Z }.

(** [converter_class(include_base64=.., base64_limit=..)] *)
Definition construct (c : converter_class) (b64 : bool) (limit : Z) : Converter :=
  {| cls := c; include_base64 := b64; base64_limit := limit;
     recursion_depth := if bool_decide (c = ArchiveConverter) then Some 3%Z else None |}.

(** [hasattr(c, 'recursion_depth')] and [c.recursion_depth = d] *)
Definition hasattr_recursion_depth (c : Converter) : bool :=
  bool_decide (is_Some (recursion_depth c)).

Definition set_recursion_depth (c : Converter) (d : Z) : Converter :=
  {| cls := cls c; include_base64 := include_base64 c; base64_limit := base64_limit c;
     recursion_depth := Some d |}.

(** [self.recursion_depth] *)
Definition get_recursion_depth (c : Converter) : result Z :=
  match recursion_depth c with
  | Some d => Return d
  | None => Raise (mkExc AttributeError (u "object has no attribute 'recursion_depth'"))
  end.

(** ** converters/json_converter.py *)

Module json_converter.
Section Methods.
Context (rt : Runtime).

(** [except json.JSONDecodeError] turns a syntax error into a [ValueError];
    [except Exception] re-raises whatever else reading the file raised. *)
Definition _extract_data (f : File) : result Json :=
  match json_load rt (content f) with
  | Return data => Return data
  | Raise e =>
      if isinstance e JSONDecodeError
      then Raise (mkExc ValueError (u "Invalid JSON: " ++ exc_str e))
      else Raise e
  end.

End Methods.
End json_converter.

(** ** converters/xml_converter.py *)

Module xml_converter.

(** [x.strip() if x and x.strip() else None] *)
Definition stripped (x : option pystr) : option pystr :=
  match x with
  | Some s => if truthy_str s && truthy_str (strip s) then Some (strip s) else None
  | None => None
  end.

Definition json_of_option (x : option pystr) : Json :=
  match x with Some s => JStr s | None => JNone end.

Fixpoint _element_to_dict (element : Element) : Json :=
  match element with
  | mkElement tag attrib text children tail =>
      let result :=
        [(k "tag", JStr tag);
         (k "attributes", JDict (dict_of ((λ kv, (Some kv.1, JStr kv.2)) <$> attrib)));
         (k "text", json_of_option (stripped text))] in
      let children' := map _element_to_dict children in
      let result :=
        match children' with
        | [] => result
        | _ => dict_set (k "children") (JList children') result
        end in
      match stripped tail with
      | Some t => JDict (dict_set (k "tail") (JStr t) result)
      | None => JDict result
      end
  end.

Section Methods.
Context (rt : Runtime).

Definition _extract_data (f : File) : result Json :=
  match et_parse rt (content f) with
  | Return root => Return (_element_to_dict root)
  | Raise e =>
      if isinstance e ParseError
      then Raise (mkExc ValueError (u "Invalid XML: " ++ exc_str e))
      else Raise e
  end.

End Methods.
End xml_converter.

(** ** Reading a file in text mode *)

(** Universal newlines: [\r\n] and [\r] are read as [\n]. *)
Fixpoint universal_newlines (s : pystr) : pystr :=
  match s with
  | [] => []
  | c :: s' =>
      if c =? CR then
        LF :: match s' with
              | [] => []
              | d :: s'' => if d =? LF then universal_newlines s'' else universal_newlines s'
              end
      else c :: universal_newlines s'
  end.

(** The lines of a text, each with its terminator. [cur] is the line being
    read, reversed. *)
Fixpoint lines_from (cur : pystr) (s : pystr) : list pystr :=
  match s with
  | [] => match cur with [] => [] | _ => [reverse cur] end
  | c :: s' =>
      if c =? LF then reverse (c :: cur) :: lines_from [] s'
      else lines_from (c :: cur) s'
  end.

Definition readlines (s : pystr) : list pystr := lines_from [] s.

(** [s.lstrip(chars)] and [s.rstrip('\n\r')] *)
Fixpoint lstrip_chars (cs : list N) (s : pystr) : pystr :=
  match s with
  | [] => []
  | x :: s' => if bool_decide (x ∈ cs) then lstrip_chars cs s' else s
  end.

Definition rstrip_newlines (s : pystr) : pystr :=
  reverse (lstrip_chars [LF; CR] (reverse s)).

Section TextMode.
Context (rt : Runtime).

(** [open(path, 'r', encoding='utf-8', errors='replace').read()] *)
Definition read_text (f : File) : pystr := universal_newlines (decode_replace rt (content f)).

End TextMode.

(** ** converters/csv_converter.py *)

Module csv_converter.

(** [zip(fieldnames, row)] as a dictionary, then the rest key or the rest
    values of [csv.DictReader.__next__]. *)
Definition row_dict (fieldnames row : list pystr) : pydict :=
  let d := dict_of ((λ kv, (Some kv.1, JStr kv.2)) <$> zip fieldnames row) in
  let lf := length fieldnames in
  let lr := length row in
  if bool_decide (lf < lr)%nat then dict_set None (JList (JStr <$> drop lf row)) d
  else if bool_decide (lr < lf)%nat
       then fold_left (λ acc key, dict_set (Some key) JNone acc) (drop lr fieldnames) d
       else d.

(** [csv.DictReader] over the records of [csv.reader]: the first record is
    the field names; blank records among the rest are skipped. *)
Definition fieldnames (records : list (list pystr)) : list pystr :=
  match records with
  | [] => []
  | header :: _ => header
  end.

Definition dict_rows (records : list (list pystr)) : list pydict :=
  match records with
  | [] => []
  | header :: rest => row_dict header <$> filter (λ row, row ≠ []) rest
  end.

Section Methods.
Context (rt : Runtime).

Definition _extract_data (f : File) : result Json :=
  let text := read_text rt f in
  let sample := take 1024 text in
  match csv_sniff rt sample with
  | Raise e => Raise e
  | Return delimiter =>
      match csv_reader rt delimiter text with
      | Raise e => Raise e
      | Return records =>
          let column_names := fieldnames records in
          let rows := dict_rows records in
          Return (JDict [
            (k "column_names", JList (JStr <$> column_names));
            (k "row_count", JInt (Z.of_nat (length rows)));
            (k "rows", JList (JDict <$> rows)) ])
      end
  end.

End Methods.
End csv_converter.

(** ** converters/text_converter.py *)

Module text_converter.
Section Methods.
Context (rt : Runtime).

(** The classes [\d] and [\w] of a [str] pattern. *)
Definition re_digit (c : N) : bool := if c <? 128 then is_ascii_digit c else uni_digit rt c.
Definition re_word (c : N) : bool := if c <? 128 then is_ascii_word c else uni_word rt c.

(** A matcher consumes a prefix: the matched text and what is left. *)
Definition matcher := pystr → option (pystr * pystr).

Definition lit (c : N) : matcher := λ s,
  match s with
  | x :: s' => if x =? c then Some ([x], s') else None
  | [] => None
  end.

Definition one_of (cs : list N) : matcher := λ s,
  match s with
  | x :: s' => if bool_decide (x ∈ cs) then Some ([x], s') else None
  | [] => None
  end.

(** [\d{n}] *)
Fixpoint digits (n : nat) : matcher := λ s,
  match n with
  | O => Some ([], s)
  | S n' =>
      match s with
      | c :: s' =>
          if re_digit c
          then match digits n' s' with
               | Some (d, r) => Some (c :: d, r)
               | None => None
               end
          else None
      | [] => None
      end
  end.

(** The longest run of digits at the front. *)
Fixpoint digit_run (s : pystr) : pystr * pystr :=
  match s with
  | c :: s' => if re_digit c then let '(d, r) := digit_run s' in (c :: d, r) else ([], s)
  | [] => ([], [])
  end.

Definition then_ (p q : matcher) : matcher := λ s,
  match p s with
  | Some (a, r) => match q r with Some (b, r') => Some (a ++ b, r') | None => None end
  | None => None
  end.

Definition sequence (ps : list matcher) : matcher :=
  fold_right then_ (λ s, Some ([], s)) ps.

Definition or_ (p q : matcher) : matcher := λ s,
  match p s with Some x => Some x | None => q s end.

(** A greedy optional group with nothing after it that could fail. *)
Definition optional (p : matcher) : matcher := λ s,
  match p s with Some x => Some x | None => Some ([], s) end.

(** [\.\d+], greedy *)
Definition fraction : matcher := λ s,
  match s with
  | c :: s' =>
      if c =? DOT then
        match digit_run s' with
        | ([], _) => None
        | (d, r) => Some (c :: d, r)
        end
      else None
  | [] => None
  end.

(** [ISO8601_PATTERN]:
    [\d{4}-\d{2}-\d{2}[T ]\d{2}:\d{2}:\d{2}(?:\.\d+)?(?:Z|[+-]\d{2}:\d{2})?] *)
Definition iso_at : matcher :=
  sequence [
    digits 4; lit 45; digits 2; lit 45; digits 2; one_of [84; 32];
    digits 2; lit 58; digits 2; lit 58; digits 2;
    optional fraction;
    optional (or_ (lit 90) (sequence [one_of [43; 45]; digits 2; lit 58; digits 2])) ].

(** [ISO8601_PATTERN.search(text)]: the match at the leftmost position that
    has one. *)
Fixpoint iso_search (s : pystr) : option pystr :=
  match iso_at s with
  | Some (m, _) => Some m
  | None => match s with [] => None | _ :: s' => iso_search s' end
  end.

(** [\b] between two neighbours, either of which may be missing. *)
Definition word_at (c : option N) : bool :=
  match c with Some x => re_word x | None => false end.

Definition boundary (before after : option N) : bool := xorb (word_at before) (word_at after).

(** The [(?:\.\d+)?\b] tail after the ten digits: the fraction gives digits
    back one at a time until [\b] holds, and last the group is left out.
    [d] is the run of digits after the dot and [r] what follows it. *)
Fixpoint fraction_backtrack (n : nat) (d r : pystr) : option pystr :=
  match n with
  | O => None
  | S n' =>
      if boundary (last (take n d)) (head (drop n d ++ r))
      then Some (DOT :: take n d)
      else fraction_backtrack n' d r
  end.

Definition epoch_tail (ten rest : pystr) : option pystr :=
  let without := if boundary (last ten) (head rest) then Some ten else None in
  match rest with
  | c :: s' =>
      if c =? DOT then
        let '(d, r) := digit_run s' in
        match fraction_backtrack (length d) d r with
        | Some frac => Some (ten ++ frac)
        | None => without
        end
      else without
  | [] => without
  end.

(** [EPOCH_PATTERN]: [\b\d{10}(?:\.\d+)?\b], tried where [before] precedes. *)
Definition epoch_at (before : option N) (s : pystr) : option pystr :=
  if boundary before (head s) then
    match digits 10 s with
    | Some (ten, rest) => epoch_tail ten rest
    | None => None
    end
  else None.

Fixpoint epoch_search_from (before : option N) (s : pystr) : option pystr :=
  match epoch_at before s with
  | Some m => Some m
  | None => match s with [] => None | c :: s' => epoch_search_from (Some c) s' end
  end.

Definition epoch_search (s : pystr) : option pystr := epoch_search_from None s.

(** [s.replace('Z', '+00:00')] *)
Definition replace_Z (s : pystr) : pystr :=
  s ≫= (λ c, if c =? 90 then u "+00:00" else [c]).

Definition timestamp_dict (dt : datetime) (raw : pystr) (format : string) : pydict :=
  [(k "value", JStr (isoformat dt)); (k "raw", JStr raw); (k "format", JStr (u format))].

(** [datetime.fromisoformat(ts_str.replace('Z', '+00:00'))] when the match
    has a [T], [datetime.fromisoformat(ts_str)] otherwise. *)
Definition parse_iso (ts_str : pystr) : result datetime :=
  if bool_decide (84 ∈ ts_str) then fromisoformat rt (replace_Z ts_str)
  else fromisoformat rt ts_str.

(** [datetime.fromtimestamp(float(raw))] *)
Definition parse_epoch (raw : pystr) : result datetime :=
  match float_of_str rt raw with
  | Return epoch_float => fromtimestamp rt epoch_float
  | Raise e => Raise e
  end.

(** The second half of [_extract_timestamp]:
    [except (ValueError, OSError): pass]. *)
Definition epoch_timestamp (text : pystr) : result (option pydict) :=
  match epoch_search text with
  | Some raw =>
      match parse_epoch raw with
      | Return dt => Return (Some (timestamp_dict dt raw "epoch"))
      | Raise e =>
          if isinstance e ValueError || isinstance e OSError then Return None else Raise e
      end
  | None => Return None
  end.

(** The first half: [except Exception: pass] lets a match that does not
    parse fall through to the epoch pattern. *)
Definition _extract_timestamp (text : pystr) : result (option pydict) :=
  match iso_search text with
  | Some ts_str =>
      match parse_iso ts_str with
      | Return dt => Return (Some (timestamp_dict dt ts_str "iso8601"))
      | Raise _ => epoch_timestamp text
      end
  | None => epoch_timestamp text
  end.

(** The body of the loop over [enumerate(f, start=1)]. *)
Definition line_object (line_num : nat) (line_text : pystr) : result Json :=
  let line_obj :=
    [(k "line_number", JInt (Z.of_nat line_num)); (k "text", JStr (rstrip_newlines line_text))] in
  match _extract_timestamp line_text with
  | Raise e => Raise e
  | Return (Some ((_ :: _) as timestamp)) =>
      Return (JDict (dict_set (k "timestamp_format") (default JNone (dict_get (k "format") timestamp))
                      (dict_set (k "timestamp") (JDict timestamp) line_obj)))
  | Return _ => Return (JDict line_obj)
  end.

Fixpoint line_objects (line_num : nat) (ls : list pystr) : result (list Json) :=
  match ls with
  | [] => Return []
  | l :: ls' =>
      match line_object line_num l with
      | Raise e => Raise e
      | Return o =>
          match line_objects (S line_num) ls' with
          | Raise e => Raise e
          | Return os => Return (o :: os)
          end
      end
  end.

Definition _extract_data (f : File) : result Json :=
  match line_objects 1 (readlines (read_text rt f)) with
  | Raise e => Raise e
  | Return lines =>
      Return (JDict [(k "line_count", JInt (Z.of_nat (length lines))); (k "lines", JList lines)])
  end.

End Methods.
End text_converter.

(** ** converters/binary_converter.py *)

Module binary_converter.
Section Methods.
Context (rt : Runtime).

Definition _extract_data (self : Converter) (f : File) : result Json :=
  let data :=
    [(k "binary_type", JStr (u "unknown")); (k "size", JInt (st_size f));
     (k "has_preview", JBool false)] in
  if include_base64 self && (st_size f <=? base64_limit self)%Z
  then Return (JDict (dict_set (k "has_preview") (JBool true)
                       (dict_set (k "base64_preview") (JStr (b64encode rt (content f))) data)))
  else Return (JDict data).

End Methods.
End binary_converter.

(** ** converters/archive_converter.py *)

Module archive_converter.

(** [ZipFile.namelist] and [ZipFile.getinfo]: a name that occurs more than
    once stands for its last record. *)
Definition namelist (infos : list ZipInfo) : list pystr := zi_filename <$> infos.

Definition getinfo (infos : list ZipInfo) (name : pystr) : result ZipInfo :=
  match last (filter (λ i, zi_filename i = name) infos) with
  | Some i => Return i
  | None => Raise (mkExc KeyError (u "There is no item named " ++ name ++ u " in the archive"))
  end.

(** The name of a scratch file: the ticket stands for the random part. *)
Definition scratch_path (ticket : nat) (suffix : pystr) : pystr :=
  u "/tmp/tmp" ++ str_of_N (N.of_nat ticket) ++ suffix.

(** [tmp_path.unlink()] *)
Definition unlink (ticket : nat) : M unit := λ s,
  match scratch s !! ticket with
  | Some _ => (Return (), mkFS (delete ticket (scratch s)) (tickets s) (outputs s))
  | None => (Raise (mkExc FileNotFoundError (u "No such file or directory")), s)
  end.

Section Methods.
Context (rt : Runtime).

(** The recursive call [converter_instance.convert(tmp_path)]:
    [base_converter.convert] ties the knot. *)
Context (convert : Converter → File → M Json).

(** [with tempfile.NamedTemporaryFile(delete=False, suffix=suffix) as tmp:]
    with a body that writes [data] (if it yields any) and takes [tmp.name].
    The file exists from the moment it is created: an exception in the body
    closes it and leaves it in place. *)
Definition named_temporary_file (suffix : pystr) (data : result (option bytes))
  : M (nat * File) := λ s,
  match tmp_create rt suffix with
  | Raise e => (Raise e, s)
  | Return _ =>
      let t := tickets s in
      let empty := mkFile (scratch_path t suffix) [] (time_now rt) in
      let created := mkFS (<[t := empty]> (scratch s)) (S t) (outputs s) in
      match data with
      | Raise e => (Raise e, created)
      | Return None => (Return (t, empty), created)
      | Return (Some b) =>
          match tmp_write rt b with
          | Raise e => (Raise e, created)
          | Return _ =>
              let written := mkFile (scratch_path t suffix) b (time_now rt) in
              (Return (t, written), mkFS (<[t := written]> (scratch s)) (S t) (outputs s))
          end
      end
  end.

(** The handler for an entry of detected type [detected_type], made by an
    archive handler whose budget is [depth]. *)
Definition entry_converter (self : Converter) (depth : Z) (detected_type : pystr) : Converter :=
  let converter_instance :=
    construct (get_converter detected_type) (include_base64 self) (base64_limit self) in
  if hasattr_recursion_depth converter_instance
  then set_recursion_depth converter_instance (depth - 1)
  else converter_instance.

(** The body of the inner [try]: detect the scratch file's type and, unless
    it is binary, convert it and attach the result's [data] to [file_obj]. *)
Definition convert_scratch (self : Converter) (depth : Z) (tmp : File) : Block unit :=
  let '(detected_type, _) := detect_file_type rt tmp in
  if negb (str_eqb detected_type (u "binary")) && (0 <? depth)%Z then
    converted ← on_fs (convert (entry_converter self depth detected_type) tmp);
    match item (k "data") converted with
    | Some data => set_item (k "converted_content") data
    | None => raise (mkExc KeyError (u "'data'"))
    end
  else mret ().

(** [try: ...  except Exception: (log)  finally: tmp_path.unlink()] *)
Definition try_convert_scratch (self : Converter) (depth : Z) (ticket : nat) (tmp : File)
  : Block unit :=
  try_finally
    (try_except (convert_scratch self depth tmp) (λ _, mret ()))
    (on_fs (unlink ticket)).

(** The body of the loop of [_extract_zip] for one name of the list. *)
Definition zip_entry (self : Converter) (infos : list ZipInfo) (file_name : pystr) : M Json :=
  file_info ← lift (getinfo infos file_name);
  let is_directory := bool_decide (last file_name = Some SLASH) in
  let file_obj :=
    [(k "filename", JStr file_name);
     (k "size", JInt (file_size file_info));
     (k "compressed_size", JInt (compress_size file_info));
     (k "is_directory", JBool is_directory)] in
  if is_directory then mret (JDict file_obj)
  else
    depth ← lift (get_recursion_depth self);
    if (0 <? depth)%Z then
      file_obj' ← with_local file_obj
        (try_except
           (content ← lift (zi_read file_info);
            tmp ← on_fs (named_temporary_file (Path.suffix file_name) (Return (Some content)));
            try_convert_scratch self depth tmp.1 tmp.2)
           (λ _, mret ()));
      mret (JDict file_obj')
    else mret (JDict file_obj).

Definition listing (archive_type : string) (files : list Json) : Json :=
  JDict [(k "archive_type", JStr (u archive_type));
         (k "file_count", JInt (Z.of_nat (length files)));
         (k "files", JList files)].

Definition _extract_zip (self : Converter) (file_path : File) : M Json :=
  files ← try_except
    (infos ← lift (zip_open rt file_path);
     for_each (zip_entry self infos) (namelist infos))
    (λ e, raise e);
  mret (listing "zip" files).

(** The body of the loop of [_extract_tar] for one member. *)
Definition tar_entry (self : Converter) (member : TarInfo) : M Json :=
  let file_obj :=
    [(k "filename", JStr (ti_name member));
     (k "size", JInt (ti_size member));
     (k "is_directory", JBool (ti_isdir member));
     (k "mode", JStr (oct (ti_mode member)));
     (k "mtime", JInt (ti_mtime member))] in
  if ti_isdir member then mret (JDict file_obj)
  else
    depth ← lift (get_recursion_depth self);
    if (0 <? depth)%Z then
      file_obj' ← with_local file_obj
        (try_except
           (tmp ← on_fs (named_temporary_file (Path.suffix (ti_name member))
                           (ti_extractfile member));
            try_convert_scratch self depth tmp.1 tmp.2)
           (λ _, mret ()));
      mret (JDict file_obj')
    else mret (JDict file_obj).

(** ['r:gz' if file_path.suffix == '.gz' or '.tar.gz' in str(file_path) else 'r'] *)
Definition gz_mode (p : pystr) : bool :=
  str_eqb (Path.suffix p) (u ".gz") || contains (u ".tar.gz") p.

Definition _extract_tar (self : Converter) (file_path : File) : M Json :=
  files ← try_except
    (members ← lift (tar_open rt (gz_mode (path file_path)) file_path);
     for_each (tar_entry self) members)
    (λ e, raise e);
  mret (listing "tar" files).

Definition _extract_data (self : Converter) (file_path : File) : M Json :=
  let '(detected_type, _) := detect_file_type rt file_path in
  if str_eqb detected_type (u "zip") then _extract_zip self file_path
  else if str_eqb detected_type (u "tar") || str_eqb detected_type (u "gzip")
       then _extract_tar self file_path
       else raise (mkExc ValueError (u "Unsupported archive type: " ++ detected_type)).

End Methods.
End archive_converter.

(** ** base_converter.py *)

Module base_converter.
Section Methods.
Context (rt : Runtime).

(** [self._extract_data(file_path, **kwargs)], by the class of [self]; the
    only keyword the program passes is [max_packets]. *)
Definition _extract_data (nested : Converter → File → M Json)
    (self : Converter) (file_path : File) (max_packets : option Z) : M Json :=
  match cls self with
  | CsvConverter => lift (csv_converter._extract_data rt file_path)
  | JsonConverter => lift (json_converter._extract_data rt file_path)
  | XmlConverter => lift (xml_converter._extract_data rt file_path)
  | TextConverter => lift (text_converter._extract_data rt file_path)
  | BinaryConverter => lift (binary_converter._extract_data rt self file_path)
  | ArchiveConverter => archive_converter._extract_data rt nested self file_path
  | c => lift (external_extract rt c file_path max_packets)
  end.

(** The template method, with the conversion of archive entries as a
    parameter. *)
Definition convert_with (nested : Converter → File → M Json)
    (self : Converter) (file_path : File) (max_packets : option Z) : M Json :=
  let '(detected_type, mimetype) := detect_file_type rt file_path in
  try_except
    (let metadata := extract_metadata rt file_path true in
     metadata ←
       match dict_get (k "mtime") metadata with
       | Some (JFloat mtime) =>
           if truthy_float mtime then
             dt ← lift (fromtimestamp rt mtime);
             mret (dict_set (k "mtime_iso") (JStr (isoformat dt)) metadata)
           else mret metadata
       | _ => mret metadata
       end;
     data ← _extract_data nested self file_path max_packets;
     mret (JDict [
       (k "source_filename", JStr (Path.name (path file_path)));
       (k "source_path", JStr (Path.absolute (cwd rt) (path file_path)));
       (k "detected_type", JStr detected_type);
       (k "mimetype", JStr mimetype);
       (k "converted_at", JStr (isoformat (utcnow rt) ++ u "Z"));
       (k "metadata", JDict metadata);
       (k "data", data) ]))
    (λ e, raise e).

(** [convert] for handlers whose budget is at most [n]: a handler with
    budget zero or less converts no entry, so the innermost level never
    calls its parameter. *)
Fixpoint convert_at (n : nat) (self : Converter) (file_path : File) (max_packets : option Z)
  : M Json :=
  match n with
  | O => convert_with (λ _ _, raise (mkExc RecursionError (u "budget exhausted")))
           self file_path max_packets
  | S n' => convert_with (λ c f, convert_at n' c f None) self file_path max_packets
  end.

Definition levels (self : Converter) : nat :=
  match recursion_depth self with
  | Some d => Z.to_nat d
  | None => O
  end.

Definition convert (self : Converter) (file_path : File) (max_packets : option Z) : M Json :=
  convert_at (levels self) self file_path max_packets.

(** [save_json]: the document is at the path afterwards, unless writing
    fails. *)
Definition save_json (output_path : pystr) (data : Json) : M unit := λ s,
  match json_dump_error rt output_path data with
  | Some e => (Raise e, s)
  | None => (Return (), mkFS (scratch s) (tickets s) (<[output_path := data]> (outputs s)))
  end.

End Methods.
End base_converter.

(** ** processor.py *)

Module processor.

Record FileProcessor := mkFileProcessor {
  output_dir : pystr;
  overwrite : bool;
  formats_filter : option (list pystr);
  workers : Z;
  max_packets : Z;
  p_include_base64 : bool;
  converted_files : list Json;
  failed_files : list Json }.

(** [FileProcessor(output_dir, ...)]: both collections start empty. *)
Definition init (output_dir : pystr) (overwrite : bool) (formats_filter : option (list pystr))
    (workers max_packets : Z) (include_base64 : bool) : FileProcessor :=
  mkFileProcessor output_dir overwrite formats_filter workers max_packets include_base64 [] [].

Definition with_converted (self : FileProcessor) (r : Json) : FileProcessor :=
  mkFileProcessor (output_dir self) (overwrite self) (formats_filter self) (workers self)
    (max_packets self) (p_include_base64 self) (converted_files self ++ [r]) (failed_files self).

Definition with_failed (self : FileProcessor) (r : Json) : FileProcessor :=
  mkFileProcessor (output_dir self) (overwrite self) (formats_filter self) (workers self)
    (max_packets self) (p_include_base64 self) (converted_files self) (failed_files self ++ [r]).

(** What [input_path] is: a regular file, a directory with everything
    [rglob('*')] finds in it, or neither. *)
Inductive dir_entry :=
| RegularFile (f : File)
| OtherEntry (p : pystr).

Inductive InputPath :=
| InputFile (f : File)
| InputDir (found : list dir_entry)
| InputOther (p : pystr).

Definition regular_files (found : list dir_entry) : list File :=
  found ≫= (λ e, match e with RegularFile f => [f] | OtherEntry _ => [] end).

(** Truthiness of a value. *)
Definition truthy (j : Json) : bool :=
  match j with
  | JNone => false
  | JBool b => b
  | JInt z => negb (z =? 0)%Z
  | JFloat x => truthy_float x
  | JStr s => truthy_str s
  | JList l => negb (bool_decide (l = []))
  | JDict d => match d with [] => false | _ => true end
  end.

Definition path_exists (p : pystr) : M bool := λ s,
  (Return (bool_decide (is_Some (outputs s !! p))), s).

Fixpoint fold_m {A B} (f : B → A → M B) (l : list A) (b : B) : M B :=
  match l with
  | [] => mret b
  | a :: l' => b' ← f b a; fold_m f l' b'
  end.

Section Methods.
Context (rt : Runtime).

(** [formats_filter and detected_type not in formats_filter] *)
Definition filtered_out (self : FileProcessor) (detected_type : pystr) : bool :=
  match formats_filter self with
  | Some ((_ :: _) as fs) => negb (bool_decide (detected_type ∈ fs))
  | _ => false
  end.

Definition _process_single_file (self : FileProcessor) (file_path : File) : M (option Json) :=
  try_except
    (let '(detected_type, mimetype) := detect_file_type rt file_path in
     if filtered_out self detected_type then mret None
     else
       let converter :=
         construct (get_converter detected_type) (p_include_base64 self) (1024 * 1024) in
       let converter :=
         if bool_decide (detected_type ∈ [u "zip"; u "tar"; u "gzip"])
            && hasattr_recursion_depth converter
         then set_recursion_depth converter 3 else converter in
       let kwargs :=
         if bool_decide (detected_type ∈ [u "pcap"; u "pcapng"])
         then Some (max_packets self) else None in
       converted_data ← base_converter.convert rt converter file_path kwargs;
       let output_filename := Path.stem (path file_path) ++ u ".json" in
       let output_path := Path.join (output_dir self) output_filename in
       present ← path_exists output_path;
       if present && negb (overwrite self) then mret None
       else
         base_converter.save_json rt output_path converted_data;;
         mret (Some converted_data))
    (λ _, mret None).

(** The body of the loop over [as_completed]: [future.result()] hands over
    what [_process_single_file] returned, or raises what it raised. *)
Definition collect (self : FileProcessor) (file_path : File) : M FileProcessor :=
  try_except
    (result ← _process_single_file self file_path;
     match result with
     | Some r => if truthy r then mret (with_converted self r) else mret self
     | None => mret self
     end)
    (λ e, mret (with_failed self
             (JDict [(k "file", JStr (path file_path)); (k "error", JStr (exc_str e))]))).

Definition counts (self : FileProcessor) : Json :=
  JDict [(k "successful", JInt (Z.of_nat (length (converted_files self))));
         (k "failed", JInt (Z.of_nat (length (failed_files self))))].

(** [process]: every worker runs one file to completion; the files are
    taken in the order in which they complete. *)
Definition process (self : FileProcessor) (input_path : InputPath)
  : M (Json * FileProcessor) :=
  match input_path with
  | InputOther p =>
      raise (mkExc ValueError (u "Input path is neither file nor directory: " ++ p))
  | _ =>
      let files_to_process :=
        match input_path with
        | InputFile f => [f]
        | InputDir found => regular_files found
        | InputOther _ => []
        end in
      match files_to_process with
      | [] => mret (JDict [(k "successful", JInt 0); (k "failed", JInt 0)], self)
      | _ =>
          self' ← fold_m collect (completion_order rt files_to_process) self;
          mret (counts self', self')
      end
  end.

(** The files that [process] submits to the pool. *)
Definition files_to_process (input_path : InputPath) : list File :=
  match input_path with
  | InputFile f => [f]
  | InputDir found => regular_files found
  | InputOther _ => []
  end.

(** [with ThreadPoolExecutor(max_workers=self.workers) as executor]: the
    constructor raises [ValueError] unless the count is positive. *)
Definition thread_pool_executor (max_workers : Z) : result unit :=
  if (max_workers <=? 0)%Z
  then Raise (mkExc ValueError (u "max_workers must be greater than 0"))
  else Return ().

(** [process] together with the making of the pool, which [process] above
    takes for granted: the pool is made once there are files to submit. *)
Definition process_in_pool (self : FileProcessor) (input_path : InputPath)
  : M (Json * FileProcessor) :=
  match input_path, files_to_process input_path with
  | InputOther _, _ => process self input_path
  | _, [] => process self input_path
  | _, _ => lift (thread_pool_executor (workers self));; process self input_path
  end.

(** [create_master_json]: the key [failed_files] is there only when the
    list is not empty. *)
Definition master_data (self : FileProcessor) : Json :=
  let master_data :=
    [(k "total_files", JInt (Z.of_nat (length (converted_files self))));
     (k "converted_files", JList (converted_files self))] in
  match failed_files self with
  | [] => JDict master_data
  | _ => JDict (dict_set (k "failed_files") (JList (failed_files self)) master_data)
  end.

Definition create_master_json (self : FileProcessor) (output_path : pystr) : M unit := λ s,
  match json_dump_error rt output_path (master_data self) with
  | Some e => (Raise e, s)
  | None =>
      (Return (),
       mkFS (scratch s) (tickets s) (<[output_path := master_data self]> (outputs s)))
  end.

End Methods.

(** [a or b] for an optional integer [a]. *)
Definition int_or (a : option Z) (b : Z) : Z :=
  match a with
  | Some x => if (x =? 0)%Z then b else x
  | None => b
  end.

(** [workers or os.cpu_count() or 1], what [__init__] stores as
    [self.workers]. *)
Definition default_workers (workers cpu_count : option Z) : Z :=
  int_or workers (int_or cpu_count 1).

End processor.

(** ** cli.py *)

Module cli.

(** The [argparse.Namespace] of [parse_args]. *)
Record Namespace := mkNamespace {
  input : pystr;
  output_dir : pystr;
  combine : bool;
  overwrite : bool;
  silent : bool;
  verbose : bool;
  formats : option pystr;
  workers : option Z;
  max_packets : Z;
  include_base64 : bool }.

(** What [main] finds on the machine: what [args.input] is, if it exists;
    the error of [output_dir.mkdir(parents=True, exist_ok=True)], if it
    fails; [os.cpu_count()]. *)
Record Host := mkHost {
  input_path : option processor.InputPath;
  mkdir_error : option exc;
  cpu_count : option Z }.

Section Methods.
Context (rt : Runtime).

(** [[f.strip().lower() for f in args.formats.split(',')]] when
    [args.formats] is given and not empty. *)
Definition formats_filter (args : Namespace) : option (list pystr) :=
  match formats args with
  | Some ((_ :: _) as given) => Some ((λ f, lower rt (strip f)) <$> split_on 44 given)
  | _ => None
  end.

(** [main]: the exit status.  The directory is made outside the [try], so
    its error leaves [main] as an exception. *)
Definition main (args : Namespace) (host : Host) : M Z :=
  match input_path host with
  | None => mret 1%Z
  | Some input_path =>
      match mkdir_error host with
      | Some e => raise e
      | None =>
          let processor :=
            processor.init (output_dir args) (overwrite args) (formats_filter args)
              (processor.default_workers (workers args) (cpu_count host))
              (max_packets args) (include_base64 args) in
          try_except
            (run ← processor.process_in_pool rt processor input_path;
             let '(results, processor) := run in
             (if combine args
              then processor.create_master_json rt processor
                     (Path.join (output_dir args) (u "master.json"))
              else mret ());;
             match item (k "failed") results with
             | Some (JInt failed) => mret (if (failed =? 0)%Z then 0 else 1)%Z
             | Some _ => mret 1%Z
             | None => raise (mkExc KeyError (u "'failed'"))
             end)
            (λ _, mret 1%Z)
      end
  end.

End Methods.
End cli.

(** ** converters/docx_converter.py *)

Module docx_converter.

(** A paragraph of [doc.paragraphs]: its text and the name of its style, if
    it has a style. *)
Record Paragraph := mkParagraph { para_text : pystr; style_name : option pystr }.

(** The loop over [enumerate(doc.paragraphs, start=1)]: a paragraph whose
    stripped text is empty is left out, and still counted. *)
Fixpoint paragraph_objects (para_num : nat) (paragraphs : list Paragraph) : list Json :=
  match paragraphs with
  | [] => []
  | paragraph :: rest =>
      let text := strip (para_text paragraph) in
      if truthy_str text then
        JDict [(k "paragraph_number", JInt (Z.of_nat para_num));
               (k "text", JStr text);
               (k "style", xml_converter.json_of_option (style_name paragraph))]
        :: paragraph_objects (S para_num) rest
      else paragraph_objects (S para_num) rest
  end.

(** [importable] says whether [from docx import Document] succeeds;
    [document] is what [Document(path).paragraphs] gives. *)
Definition _extract_data (importable : bool) (document : result (list Paragraph))
  : result Json :=
  if negb importable then
    Raise (mkExc ImportError
             (u "python-docx is required for .docx files. Install with: pip install python-docx"))
  else
    match document with
    | Raise e => Raise e
    | Return doc =>
        let paragraphs := paragraph_objects 1 doc in
        Return (JDict [(k "paragraph_count", JInt (Z.of_nat (length paragraphs)));
                       (k "paragraphs", JList paragraphs)])
    end.

End docx_converter.

(** ** converters/evtx.py *)

Module evtx.

Definition EVENT_NS : pystr := u "{http://schemas.microsoft.com/win/2004/08/events/event}".

Definition tag_of (e : Element) : pystr := match e with mkElement t _ _ _ _ => t end.
Definition attrib_of (e : Element) : list (pystr * pystr) :=
  match e with mkElement _ a _ _ _ => a end.
Definition text_of (e : Element) : option pystr := match e with mkElement _ _ x _ _ => x end.

(** [element.get(key)] *)
Definition get (key : pystr) (e : Element) : option pystr :=
  snd <$> head (filter (λ kv, kv.1 = key) (attrib_of e)).

(** Everything beneath an element, in document order: what [.//] ranges
    over. *)
Fixpoint descendants (e : Element) : list Element :=
  match e with
  | mkElement _ _ _ children _ => flat_map (λ c, c :: descendants c) children
  end.

(** [root.findall('.//' + tag)] and [root.find('.//' + tag)] *)
Definition findall (tag : pystr) (root : Element) : list Element :=
  filter (λ e, tag_of e = tag) (descendants root).

Definition find (tag : pystr) (root : Element) : option Element := head (findall tag root).

(** The loop over the [Data] elements: [if name: data_dict[name] = value] *)
Definition data_dict (root : Element) : pydict :=
  fold_left
    (λ d data_elem,
       match get (u "Name") data_elem with
       | Some ((_ :: _) as name) =>
           dict_set (Some name) (xml_converter.json_of_option (text_of data_elem)) d
       | _ => d
       end)
    (findall (EVENT_NS ++ u "Data") root) [].

(** The body of the inner [try], once the record's XML is parsed. *)
Definition record_obj (event : pystr) (root : Element) : Json :=
  let event_id :=
    match find (EVENT_NS ++ u "EventID") root with
    | Some elem => xml_converter.json_of_option (text_of elem)
    | None => JNone
    end in
  let time_created :=
    match find (EVENT_NS ++ u "TimeCreated") root with
    | Some elem => xml_converter.json_of_option (get (u "SystemTime") elem)
    | None => JNone
    end in
  let event_record_id :=
    match find (EVENT_NS ++ u "EventRecordID") root with
    | Some elem => xml_converter.json_of_option (text_of elem)
    | None => JNone
    end in
  JDict [(k "EventID", event_id);
         (k "TimeCreated", time_created);
         (k "EventRecordID", event_record_id);
         (k "data", JDict (data_dict root));
         (k "xml", JStr event)].

(** The loop over the records: [views] holds, per record, what
    [evtx_record_xml_view] gives; a record whose view or whose parse raises is
    skipped ([continue]). *)
Fixpoint record_objects (fromstring : pystr → result Element) (views : list (result pystr))
  : list Json :=
  match views with
  | [] => []
  | view :: rest =>
      match view with
      | Return event =>
          match fromstring event with
          | Return root => record_obj event root :: record_objects fromstring rest
          | Raise _ => record_objects fromstring rest
          end
      | Raise _ => record_objects fromstring rest
      end
  end.

(** [importable]: whether [import Evtx.Evtx] succeeds; [opened]: the records
    of the file, or what opening or reading it raised. *)
Definition _extract_data (importable : bool) (fromstring : pystr → result Element)
    (opened : result (list (result pystr))) : result Json :=
  if negb importable then
    Raise (mkExc ImportError
             (u "python-evtx is required for .evtx files. Install with: pip install python-evtx"))
  else
    match opened with
    | Raise e => Raise e
    | Return views =>
        let records := record_objects fromstring views in
        Return (JDict [(k "record_count", JInt (Z.of_nat (length records)));
                       (k "records", JList records)])
    end.

End evtx.

(** ** converters/pcap.py *)

Module pcap.

(** What iterating over a capture does next: it hands over a packet, for
    which building [packet_obj] returns or raises, or the reader fails. *)
Inductive Step :=
| Yield (packet_obj : result pydict)
| Fail (e : exc).

(** [for i, packet in enumerate(cap)] with [if i >= max_packets: break]; a
    packet whose [packet_obj] raises is skipped ([continue]). *)
Fixpoint read_packets (i : nat) (max_packets : Z) (cap : list Step) : result (list pydict) :=
  match cap with
  | [] => Return []
  | Fail e :: _ => Raise e
  | Yield packet_obj :: rest =>
      if (max_packets <=? Z.of_nat i)%Z then Return []
      else
        match read_packets (S i) max_packets rest with
        | Raise e => Raise e
        | Return packets =>
            Return (match packet_obj with
                    | Return o => o :: packets
                    | Raise _ => packets
                    end)
        end
  end.

(** A capture library, if it can be imported: what opening the file gives,
    and what closing the capture gives. *)
Record Library := mkLibrary {
  capture : result (list Step);
  close : result unit }.

(** [_extract_with_pyshark] and [_extract_with_scapy] *)
Definition extract_with (method : string) (lib : option Library) (max_packets : Z)
  : result Json :=
  match lib with
  | None => Raise (mkExc ImportError (u "No module named '" ++ u method ++ u "'"))
  | Some lib =>
      match capture lib with
      | Raise e => Raise e
      | Return cap =>
          match read_packets 0 max_packets cap with
          | Raise e => Raise e
          | Return packets =>
              match close lib with
              | Raise e => Raise e
              | Return _ =>
                  Return (JDict [(k "packet_count", JInt (Z.of_nat (length packets)));
                                 (k "packets", JList (JDict <$> packets));
                                 (k "extraction_method", JStr (u method))])
              end
          end
      end
  end.

(** [_extract_data]: whatever pyshark raises leads to scapy; of what scapy
    raises, [ImportError] is replaced by the installation hint. *)
Definition _extract_data (pyshark scapy : option Library) (max_packets : Z) : result Json :=
  match extract_with "pyshark" pyshark max_packets with
  | Return data => Return data
  | Raise _ =>
      match extract_with "scapy" scapy max_packets with
      | Return data => Return data
      | Raise e =>
          if isinstance e ImportError then
            Raise (mkExc ImportError
                     (u "Either pyshark or scapy is required for .pcap files. Install with: pip install pyshark (requires tshark) or pip install scapy"))
          else Raise e
      end
  end.

End pcap.

(** ** converters/pdf_converter.py *)

Module pdf_converter.

(** The loop over [enumerate(..., start=1)] of both extraction methods:
    one dictionary per page, with the page's text stripped. *)
Fixpoint page_objects (page_num : nat) (texts : list pystr) : list Json :=
  match texts with
  | [] => []
  | text :: rest =>
      JDict [(k "page_number", JInt (Z.of_nat page_num)); (k "text", JStr (strip text))]
      :: page_objects (S page_num) rest
  end.

(** [page_text]: the texts of the elements of a page layout that are text
    containers ([Some]), one after the other. *)
Definition page_text (page_layout : list (option pystr)) : pystr :=
  concat (omap id page_layout).

(** pdfminer.six, if it can be imported: what [extract_pages] yields, and
    what [extract_text] gives. *)
Record Pdfminer := mkPdfminer {
  extract_pages : result (list (list (option pystr)));
  extract_text : result pystr }.

Definition pages_result (page_count : nat) (pages : list Json) (method : string) : Json :=
  JDict [(k "page_count", JInt (Z.of_nat page_count));
         (k "pages", JList pages);
         (k "extraction_method", JStr (u method))].

Definition _extract_with_pdfminer (lib : option Pdfminer) : result Json :=
  match lib with
  | None => Raise (mkExc ImportError (u "No module named 'pdfminer'"))
  | Some lib =>
      match extract_pages lib with
      | Raise e => Raise e
      | Return layouts =>
          let pages := page_objects 1 (page_text <$> layouts) in
          match extract_text lib with
          | Raise e => Raise e
          | Return _ => Return (pages_result (length pages) pages "pdfminer.six")
          end
      end
  end.

(** PyPDF2, if it can be imported: the texts of [pdf_reader.pages]. *)
Definition _extract_with_pypdf2 (lib : option (result (list pystr))) : result Json :=
  match lib with
  | None => Raise (mkExc ImportError (u "No module named 'PyPDF2'"))
  | Some (Raise e) => Raise e
  | Some (Return texts) =>
      let page_count := length texts in
      Return (pages_result page_count (page_objects 1 texts) "PyPDF2")
  end.

(** [_extract_data]: only an [ImportError] of pdfminer leads to PyPDF2. *)
Definition _extract_data (pdfminer : option Pdfminer) (pypdf2 : option (result (list pystr)))
  : result Json :=
  match _extract_with_pdfminer pdfminer with
  | Return data => Return data
  | Raise e =>
      if isinstance e ImportError then
        match _extract_with_pypdf2 pypdf2 with
        | Return data => Return data
        | Raise e' =>
            if isinstance e' ImportError then
              Raise (mkExc ImportError
                       (u "Either pdfminer.six or PyPDF2 is required for .pdf files. Install with: pip install pdfminer.six or pip install PyPDF2"))
            else Raise e'
        end
      else Raise e
  end.

End pdf_converter.

(** ** Vocabulary of the statements *)

(** The closed set of tags. *)
Definition registered_tags : list pystr :=
  [u "evtx"; u "pcap"; u "pcapng"; u "csv"; u "json"; u "xml"; u "txt"; u "pdf";
   u "docx"; u "zip"; u "tar"; u "gzip"; u "binary"].



(** ** Vocabulary for archive entries *)

Section EntryVocabulary.
Context (rt : Runtime) (convert : Converter → File → M Json).

(** The scratch file with ticket [t] that holds the bytes [b] of an entry
    whose name has the suffix [suffix]. *)
Definition scratch_file (t : nat) (suffix : pystr) (b : bytes) : File :=
  mkFile (archive_converter.scratch_path t suffix) b (time_now rt).

(** The tag that type detection gives the scratch file of an entry, and the
    conversion that the archive handler [self] with budget [depth] runs on
    it. *)
Definition entry_tag (t : nat) (suffix : pystr) (b : bytes) : pystr :=
  (detect_file_type rt (scratch_file t suffix b)).1.

Definition entry_conversion (self : Converter) (depth : Z) (t : nat) (suffix : pystr)
    (b : bytes) : M Json :=
  convert (archive_converter.entry_converter self depth (entry_tag t suffix b))
    (scratch_file t suffix b).


(** The conversion of the entry returns a result whose [data] is [v]. *)
Definition conversion_returns (self : Converter) (depth : Z) (suffix : pystr) (b : bytes)
    (v : Json) : Prop :=
  ∀ t s, ∃ env s', entry_conversion self depth t suffix b s = (Return env, s')
                   ∧ item (k "data") env = Some v.

End EntryVocabulary.

Section EntryOutcome.
Context (rt : Runtime) (convert : Converter → File → M Json).

(** What ends up in the scratch file: the bytes read, or nothing for a tar
    member without data. *)
Definition yields (data : result (option bytes)) (b : bytes) : Prop :=
  data = Return (Some b) ∨ (data = Return None ∧ b = []).

(** What [ZipFile.read] gives, as the data of the entry. *)
Definition zip_data (info : ZipInfo) : result (option bytes) :=
  match zi_read info with
  | Return b => Return (Some b)
  | Raise e => Raise e
  end.

(** The dictionary [obj] of an entry is [file_obj] as built from the
    archive's directory, or [file_obj] with the [data] of a conversion of the
    entry's scratch file, one that returned, as [converted_content]. *)
Definition entry_outcome (self : Converter) (depth : Z) (suffix : pystr)
    (data : result (option bytes)) (file_obj obj : list (option pystr * Json)) : Prop :=
  obj = file_obj
  ∨ ∃ b v t s env s',
      yields data b ∧ (0 < depth)%Z ∧ entry_tag rt t suffix b ≠ u "binary"
      ∧ entry_conversion rt convert self depth t suffix b s = (Return env, s')
      ∧ item (k "data") env = Some v
      ∧ obj = dict_set (k "converted_content") v file_obj.

(** The scratch file of the entry can be made and filled. *)
Definition scratch_writable (suffix : pystr) (data : result (option bytes)) : Prop :=
  tmp_create rt suffix = Return ()
  ∧ ∀ b, data = Return (Some b) → tmp_write rt b = Return ().

End EntryOutcome.

Section EntryBlocks.
Context (rt : Runtime) (convert : Converter → File → M Json).

(** The block of an entry that makes the scratch file and converts it. *)
Definition scratch_block (self : Converter) (depth : Z) (suffix : pystr)
    (data : result (option bytes)) : Block unit :=
  try_except
    (tmp ← on_fs (archive_converter.named_temporary_file rt suffix data);
     archive_converter.try_convert_scratch rt convert self depth tmp.1 tmp.2)
    (λ _, mret ()).

(** The dictionaries that the loops build from the archive's directory. *)
Definition zip_file_obj (info : ZipInfo) (name : pystr) : list (option pystr * Json) :=
  [(k "filename", JStr name);
   (k "size", JInt (file_size info));
   (k "compressed_size", JInt (compress_size info));
   (k "is_directory", JBool (bool_decide (last name = Some SLASH)))].

Definition tar_file_obj (member : TarInfo) : list (option pystr * Json) :=
  [(k "filename", JStr (ti_name member));
   (k "size", JInt (ti_size member));
   (k "is_directory", JBool (ti_isdir member));
   (k "mode", JStr (oct (ti_mode member)));
   (k "mtime", JInt (ti_mtime member))].

(** Where the [converted_content] of an entry's dictionary comes from: the
    budget is positive, the scratch file is not detected as binary, and the
    value is the [data] of a conversion of the scratch file that returned. *)
Definition content_origin (self : Converter) (depth : Z) (suffix : pystr)
    (data : result (option bytes)) (obj : list (option pystr * Json)) : Prop :=
  ∀ v, dict_get (k "converted_content") obj = Some v →
    (0 < depth)%Z
    ∧ ∃ b t s env s',
        yields data b
        ∧ entry_tag rt t suffix b ≠ u "binary"
        ∧ entry_conversion rt convert self depth t suffix b s = (Return env, s')
        ∧ item (k "data") env = Some v.


(** What the listing says about the budget: nothing is attached at a budget
    of zero or less, and what is attached has the origin above. *)
Definition entry_gated (self : Converter) (depth : Z) (name : pystr)
    (data : result (option bytes)) (file : Json) : Prop :=
  ∃ obj, file = JDict obj
    ∧ ((depth ≤ 0)%Z → dict_get (k "converted_content") obj = None)
    ∧ content_origin self depth (Path.suffix name) data obj.

End EntryBlocks.

(** Two ways to convert entries agree on the handlers that the archive
    handler [self] makes. *)
Definition agree_on_entries (self : Converter) (c1 c2 : Converter → File → M Json) : Prop :=
  ∀ depth tag f s, recursion_depth self = Some depth → (0 < depth)%Z →
    c1 (archive_converter.entry_converter self depth tag) f s = c2 (archive_converter.entry_converter self depth tag) f s.


(** ** Vocabulary for the file system and the orchestrator *)

(** A computation leaves the part [proj] of the state as it found it,
    whether it returns or raises. *)
Definition keeps {S A O} (proj : S → O) (m : ST S A) : Prop :=
  ∀ s, proj (m s).2 = proj s.

(** The output directory, seen from inside a block. *)
Definition block_outputs (ds : list (option pystr * Json) * FS) : gmap pystr Json :=
  outputs ds.2.

(** Where the worker writes the document of a file:
    [output_dir / (file_path.stem + ".json")]. *)
Definition output_path (self : processor.FileProcessor) (f : File) : pystr :=
  Path.join (processor.output_dir self) (Path.stem (path f) ++ u ".json").

(** The settings of a processor, as opposed to its two collections. *)
Definition same_settings (a b : processor.FileProcessor) : Prop :=
  processor.output_dir a = processor.output_dir b
  ∧ processor.overwrite a = processor.overwrite b
  ∧ processor.formats_filter a = processor.formats_filter b
  ∧ processor.workers a = processor.workers b
  ∧ processor.max_packets a = processor.max_packets b
  ∧ processor.p_include_base64 a = processor.p_include_base64 b.

(** Every document of [before] is still in [after], unchanged. *)
Definition outputs_kept (before after : FS) : Prop :=
  ∀ p j, outputs before !! p = Some j → outputs after !! p = Some j.

(** [output_dir / "master.json"] *)
Definition master_path (args : cli.Namespace) : pystr :=
  Path.join (cli.output_dir args) (u "master.json").

(** ** Vocabulary for texts *)

(** A text that is not empty and has no white space at either end. *)
Definition trimmed (t : pystr) : Prop :=
  (∃ c, head t = Some c ∧ is_space c = false) ∧ (∃ c, last t = Some c ∧ is_space c = false).

(** The dictionary of the paragraph at position [i] of a document, counted
    from 0. *)
Definition paragraph_at (i : nat) (p : docx_converter.Paragraph) : Json :=
  JDict [(k "paragraph_number", JInt (Z.of_nat (S i)));
         (k "text", JStr (strip (docx_converter.para_text p)));
         (k "style", xml_converter.json_of_option (docx_converter.style_name p))].

(** ** A concrete runtime for the examples

    The statements below hold for every [Runtime].  To evaluate the program
    on concrete inputs, [demo] fixes one: an installation without the two
    content-sniffing libraries and without the parsing libraries of the
    external handlers (each import raises [ImportError]), UTC as the local
    time zone, a writable scratch directory.  Its parsers cover the inputs
    of the examples: JSON without string escapes, XML without attributes,
    unquoted CSV, UTF-8 of at most two bytes per character, ISO dates of the
    shape the pattern matches, whole epoch seconds.  Digests and base64 are
    placeholders.  The archives are given as a table from contents to
    directory. *)

Module demo.

Definition import_error (name : string) : exc :=
  mkExc ImportError (u "No module named '" ++ u name ++ u "'").

(** *** Text *)

Fixpoint take_while (p : N → bool) (s : pystr) : pystr :=
  match s with
  | c :: s' => if p c then c :: take_while p s' else []
  | [] => []
  end.

Fixpoint drop_while (p : N → bool) (s : pystr) : pystr :=
  match s with
  | c :: s' => if p c then drop_while p s' else s
  | [] => []
  end.

Fixpoint decode (b : bytes) : pystr :=
  match b with
  | [] => []
  | c :: b' =>
      if c <? 128 then c :: decode b'
      else match b' with
           | d :: b'' =>
               if (194 <=? c) && (c <=? 223) && (128 <=? d) && (d <=? 191)
               then ((c - 192) * 64 + (d - 128)) :: decode b''
               else 65533 :: decode b'
           | [] => [65533]
           end
  end.

Definition is_word (c : N) : bool :=
  (c =? 170) || (c =? 181) || (c =? 186)
  || ((192 <=? c) && (c <=? 255) && negb (c =? 215) && negb (c =? 247)).

(** *** Dates *)

Definition is_leap (y : Z) : bool :=
  ((y mod 4 =? 0) && negb (y mod 100 =? 0) || (y mod 400 =? 0))%Z.

Definition days_in_month (y m : Z) : Z :=
  if (m =? 2)%Z then (if is_leap y then 29 else 28)%Z
  else if bool_decide (m ∈ [4; 6; 9; 11]%Z) then 30%Z else 31%Z.

(** The civil date of a day count since 1970-01-01. *)
Definition civil_from_days (days : Z) : Z * Z * Z :=
  let z := (days + 719468)%Z in
  let era := (z / 146097)%Z in
  let doe := (z - era * 146097)%Z in
  let yoe := ((doe - doe / 1460 + doe / 36524 - doe / 146096) / 365)%Z in
  let doy := (doe - (365 * yoe + yoe / 4 - yoe / 100))%Z in
  let mp := ((5 * doy + 2) / 153)%Z in
  let d := (doy - (153 * mp + 2) / 5 + 1)%Z in
  let m := (if (mp <? 10)%Z then mp + 3 else mp - 9)%Z in
  let y := (yoe + era * 400 + (if (m <=? 2)%Z then 1 else 0))%Z in
  (y, m, d).

(** Whole seconds of a float that is not negative. *)
Definition seconds_of_float (x : float) : option Z :=
  match Prim2SF x with
  | S754_zero _ => Some 0%Z
  | S754_finite false m e =>
      Some (if (0 <=? e)%Z then Z.pos m * 2 ^ e else Z.pos m / 2 ^ (- e))%Z
  | _ => None
  end.

Definition py_fromtimestamp (x : float) : result datetime :=
  match seconds_of_float x with
  | Some secs =>
      let '(y, m, d) := civil_from_days (secs / 86400) in
      let r := (secs mod 86400)%Z in
      if (y <=? 9999)%Z
      then Return (mkDatetime y m d (r / 3600) (r mod 3600 / 60) (r mod 60) 0 None)
      else Raise (mkExc ValueError (u "year " ++ str_of_Z y ++ u " is out of range"))
  | None => Raise (mkExc OSError (u "[Errno 22] Invalid argument"))
  end.

Definition value_of_digits (d : pystr) : Z :=
  fold_left (λ acc c, acc * 10 + Z.of_N (c - 48))%Z d 0%Z.

Definition all_ascii_digits (d : pystr) : bool := forallb is_ascii_digit d.

(** [float] of a run of digits, with an optional fraction that is dropped. *)
Definition py_float_of_str (s : pystr) : result float :=
  let whole := hd [] (split_on DOT s) in
  if all_ascii_digits whole && negb (bool_decide (whole = []))
  then Return (PrimFloat.of_uint63 (Uint63.of_Z (value_of_digits whole)))
  else Raise (mkExc ValueError (u "could not convert string to float"))%N.

Definition field (i n : nat) (s : pystr) : pystr := take n (drop i s).

(** The offset in seconds of the text after the seconds and the fraction. *)
Definition parse_offset (s : pystr) : result (option Z) :=
  match s with
  | [] => Return None
  | [90] => Return (Some 0%Z)
  | sign :: rest =>
      if bool_decide (sign ∈ [43; 45]) && bool_decide (length rest = 5%nat)
         && all_ascii_digits (field 0 2 rest ++ field 3 2 rest)
         && bool_decide (rest !! 2%nat = Some 58)
      then
        let off := (value_of_digits (field 0 2 rest) * 3600
                    + value_of_digits (field 3 2 rest) * 60)%Z in
        if (off <? 86400)%Z
        then Return (Some (if sign =? 45 then (- off)%Z else off))
        else Raise (mkExc ValueError (u "offset must be a timedelta strictly between -timedelta(hours=24) and timedelta(hours=24)"))
      else Raise (mkExc ValueError (u "Invalid isoformat string"))
  end.

Definition invalid (msg : string) : result datetime := Raise (mkExc ValueError (u msg)).

(** [datetime.fromisoformat] on [YYYY-MM-DD?HH:MM:SS[.f+][Z|+HH:MM]]. *)
Definition py_fromisoformat (s : pystr) : result datetime :=
  let y := field 0 4 s in let mo := field 5 2 s in let d := field 8 2 s in
  let h := field 11 2 s in let mi := field 14 2 s in let se := field 17 2 s in
  if negb (bool_decide (19 ≤ length s)%nat
           && all_ascii_digits (y ++ mo ++ d ++ h ++ mi ++ se)
           && bool_decide (s !! 4%nat = Some 45 ∧ s !! 7%nat = Some 45
                           ∧ s !! 13%nat = Some 58 ∧ s !! 16%nat = Some 58))
  then invalid "Invalid isoformat string"
  else
    let rest := drop 19 s in
    let '(frac, tz) :=
      match rest with
      | c :: r => if c =? DOT
                  then (take_while is_ascii_digit r,
                        drop_while is_ascii_digit r)
                  else ([], rest)
      | [] => ([], [])
      end in
    let yv := value_of_digits y in let mv := value_of_digits mo in
    let dv := value_of_digits d in
    if (yv <? 1)%Z then invalid "year 0 is out of range"
    else if negb ((1 <=? mv) && (mv <=? 12))%Z then invalid "month must be in 1..12"
    else if negb ((1 <=? dv) && (dv <=? days_in_month yv mv))%Z
         then invalid "day is out of range for month"
    else if negb (value_of_digits h <? 24)%Z then invalid "hour must be in 0..23"
    else if negb (value_of_digits mi <? 60)%Z then invalid "minute must be in 0..59"
    else if negb (value_of_digits se <? 60)%Z then invalid "second must be in 0..59"
    else
      match parse_offset tz with
      | Raise e => Raise e
      | Return off =>
          Return (mkDatetime yv mv dv (value_of_digits h) (value_of_digits mi)
                    (value_of_digits se)
                    (value_of_digits (take 6 (frac ++ replicate 6 48))) off)
      end.

(** *** JSON *)

Fixpoint skip_ws (s : pystr) : pystr :=
  match s with
  | c :: s' => if bool_decide (c ∈ [32; 9; 10; 13]) then skip_ws s' else s
  | [] => []
  end.

Definition starts_with (p s : pystr) : option pystr :=
  if bool_decide (take (length p) s = p) then Some (drop (length p) s) else None.

(** A value at the front of [s], and what follows it. *)
Fixpoint parse_value (fuel : nat) (s : pystr) : option (Json * pystr) :=
  match fuel with
  | O => None
  | S fuel' =>
      match skip_ws s with
      | [] => None
      | c :: r =>
          if c =? 34 then
            match split_on 34 r with
            | str :: _ :: _ => Some (JStr str, drop (S (length str)) r)
            | _ => None
            end
          else if c =? 91 then
            match skip_ws r with
            | d :: r' => if d =? 93 then Some (JList [], r') else parse_items fuel' r
            | [] => None
            end
          else if c =? 123 then
            match skip_ws r with
            | d :: r' => if d =? 125 then Some (JDict [], r') else parse_members fuel' r
            | [] => None
            end
          else if is_ascii_digit c || (c =? 45) then
            let ds := take_while is_ascii_digit r in
            let after := drop (length ds) r in
            if (c =? 45) && bool_decide (ds = []) then None
            else Some (JInt (if c =? 45 then (- value_of_digits ds)%Z
                             else value_of_digits (c :: ds)), after)
          else
            match starts_with (u "null") (c :: r), starts_with (u "true") (c :: r),
                  starts_with (u "false") (c :: r) with
            | Some r', _, _ => Some (JNone, r')
            | _, Some r', _ => Some (JBool true, r')
            | _, _, Some r' => Some (JBool false, r')
            | _, _, _ => None
            end
      end
  end
with parse_items (fuel : nat) (s : pystr) : option (Json * pystr) :=
  match fuel with
  | O => None
  | S fuel' =>
      match parse_value fuel' s with
      | Some (v, r) =>
          match skip_ws r with
          | c :: r' =>
              if c =? 93 then Some (JList [v], r')
              else if c =? 44 then
                match parse_items fuel' r' with
                | Some (JList vs, r'') => Some (JList (v :: vs), r'')
                | _ => None
                end
              else None
          | [] => None
          end
      | None => None
      end
  end
with parse_members (fuel : nat) (s : pystr) : option (Json * pystr) :=
  match fuel with
  | O => None
  | S fuel' =>
      match parse_value fuel' s with
      | Some (JStr key, r) =>
          match skip_ws r with
          | c :: r0 =>
              if c =? 58 then
                match parse_value fuel' r0 with
                | Some (v, r1) =>
                    match skip_ws r1 with
                    | d :: r2 =>
                        if d =? 125 then Some (JDict [(Some key, v)], r2)
                        else if d =? 44 then
                          match parse_members fuel' r2 with
                          | Some (JDict kvs, r3) =>
                              Some (JDict (dict_update [(Some key, v)] kvs), r3)
                          | _ => None
                          end
                        else None
                    | [] => None
                    end
                | None => None
                end
              else None
          | [] => None
          end
      | _ => None
      end
  end.

Definition py_json_load (b : bytes) : result Json :=
  if existsb (λ c, 128 <=? c) b && existsb (λ c, 65533 =? c) (decode b)
  then Raise (mkExc UnicodeDecodeError (u "'utf-8' codec can't decode byte"))
  else
    match parse_value (S (length b)) (decode b) with
    | Some (v, r) =>
        match skip_ws r with
        | [] => Return v
        | _ => Raise (mkExc JSONDecodeError (u "Extra data"))
        end
    | None => Raise (mkExc JSONDecodeError (u "Expecting value"))
    end.

(** *** XML: elements without attributes *)

Definition is_name_char (c : N) : bool := is_ascii_word c || (c =? 45) || (128 <=? c).

Definition text_of (s : pystr) : option pystr :=
  match s with [] => None | _ => Some s end.

(** The content of an element up to its end tag: the text before the first
    child, the children, and what follows the end tag. *)
Fixpoint parse_content (fuel : nat) (name : pystr) (s : pystr)
  : option (option pystr * list Element * pystr) :=
  match fuel with
  | O => None
  | S fuel' =>
      let txt := take_while (λ x, negb (x =? 60)) s in
      match drop (length txt) s with
      | _ :: c :: r =>
          if c =? 47 then
            match starts_with (name ++ [62]) r with
            | Some r' => Some (text_of txt, [], r')
            | None => None
            end
          else
            match parse_element fuel' (60 :: c :: r) with
            | Some (mkElement t a x ch _, r') =>
                match parse_content fuel' name r' with
                | Some (tail, siblings, r'') =>
                    Some (text_of txt, mkElement t a x ch tail :: siblings, r'')
                | None => None
                end
            | None => None
            end
      | _ => None
      end
  end
with parse_element (fuel : nat) (s : pystr) : option (Element * pystr) :=
  match fuel with
  | O => None
  | S fuel' =>
      match s with
      | c :: r =>
          if c =? 60 then
            let name := take_while is_name_char r in
            match name, drop (length name) r with
            | _ :: _, d :: r' =>
                if d =? 62 then
                  match parse_content fuel' name r' with
                  | Some (txt, ch, r'') => Some (mkElement name [] txt ch None, r'')
                  | None => None
                  end
                else if d =? 47 then
                  match r' with
                  | e :: r'' => if e =? 62 then Some (mkElement name [] None [] None, r'')
                                else None
                  | [] => None
                  end
                else None
            | _, _ => None
            end
          else None
      | [] => None
      end
  end.

Definition py_et_parse (b : bytes) : result Element :=
  match parse_element (S (length b)) (skip_ws (decode b)) with
  | Some (e, r) =>
      match skip_ws r with
      | [] => Return e
      | _ => Raise (mkExc ParseError (u "junk after document element"))
      end
  | None => Raise (mkExc ParseError (u "not well-formed (invalid token)"))
  end.

(** *** CSV *)

Definition count_of (c : N) (line : pystr) : nat := length (filter (λ x, x = c) line).

(** The sniffer looks for a delimiter among the 7-bit characters only: a
    character is a candidate when it occurs, equally often, in every
    non-empty line of the sample.  Among several candidates it prefers
    [,], tab, [;], space, [:], in that order. *)
Definition py_csv_sniff (sample : pystr) : result pystr :=
  let lines := filter (λ l, l ≠ []) (split_on LF sample) in
  let candidate c :=
    match lines with
    | [] => false
    | l :: ls => bool_decide (0 < count_of c l)%nat
                 && forallb (λ l', bool_decide (count_of c l' = count_of c l)) ls
    end in
  let candidates := filter (λ c, candidate c = true) (N.of_nat <$> seq 0 127) in
  match filter (λ c, c ∈ candidates) [44; 9; 59; 32; 58], last candidates with
  | c :: _, _ => Return [c]
  | [], Some c => Return [c]
  | [], None => Raise (mkExc CsvError (u "Could not determine delimiter"))
  end.

(** The records of a text without quotes: a blank line is an empty record. *)
Definition py_csv_reader (delimiter text : pystr) : result (list (list pystr)) :=
  let lines := split_on LF text in
  let lines := match last lines with Some [] => removelast lines | _ => lines end in
  Return ((λ l, match l, delimiter with
                | [], _ => []
                | _, [d] => split_on d l
                | _, _ => [l]
                end) <$> lines).

(** *** Archives, by table *)

Definition lookup_archive {A} (table : list (bytes * A)) (b : bytes) : option A :=
  snd <$> head (filter (λ kv, kv.1 = b) table).

Definition runtime (zips : list (bytes * list ZipInfo)) (tars : list (bytes * list TarInfo))
  : Runtime :=
  {| magic_from_file := λ _, Raise (import_error "magic");
     filetype_guess := λ _, Raise (import_error "filetype");
     uni_lower := λ c, [c];
     uni_digit := λ _, false;
     uni_word := is_word;
     hexdigests := λ _, Return (replicate 64 48, replicate 40 48, replicate 32 48);
     fromtimestamp := py_fromtimestamp;
     utcnow := mkDatetime 2024 1 1 0 0 0 0 None;
     cwd := u "/work";
     time_now := PrimFloat.of_uint63 1700000000%uint63;
     json_load := py_json_load;
     et_parse := py_et_parse;
     decode_replace := decode;
     csv_sniff := py_csv_sniff;
     csv_reader := py_csv_reader;
     fromisoformat := py_fromisoformat;
     float_of_str := py_float_of_str;
     b64encode := λ _, [];
     zip_open := λ f,
       match lookup_archive zips (content f) with
       | Some infos => Return infos
       | None => Raise (mkExc BadZipFile (u "File is not a zip file"))
       end;
     tar_open := λ _ f,
       match lookup_archive tars (content f) with
       | Some members => Return members
       | None => Raise (mkExc ReadError (u "file could not be opened successfully"))
       end;
     tmp_create := λ _, Return ();
     tmp_write := λ _, Return ();
     external_extract := λ _ _ _, Raise (import_error "parsing library");
     json_dump_error := λ _ _, None;
     completion_order := λ files, files |}.

End demo.

(** ** Inputs of the examples *)

Module example.

(** 2023-11-14T22:13:20Z as a modification time. *)
Definition mtime : float := PrimFloat.of_uint63 1700000000%uint63.

(** Nothing in the scratch directory, nothing in the output directory. *)
Definition empty_fs : FS := mkFS ∅ 0 ∅.

(** An installation without archives. *)
Definition rt : Runtime := demo.runtime [] [].

(** [{] and [{"a": 1}] *)
Definition bad_json_bytes : bytes := [123].
Definition good_json_bytes : bytes := [123; 34; 97; 34; 58; 32; 49; 125].

Definition bad_json : File := mkFile (u "/in/bad.json") bad_json_bytes mtime.
Definition good_json : File := mkFile (u "/in/good.json") good_json_bytes mtime.

(** [<a><b></a>] *)
Definition bad_xml : File := mkFile (u "/in/bad.xml") (u "<a><b></a>") mtime.

(** A file last modified at the epoch. *)
Definition epoch_json : File := mkFile (u "/in/epoch.json") good_json_bytes 0%float.

(** A directory that holds one regular file, and a new processor. *)
Definition one_bad_file : processor.InputPath :=
  processor.InputDir [processor.RegularFile bad_json].

Definition new_processor : processor.FileProcessor :=
  processor.init (u "/out") false None 4 1000 false.

Definition json_handler : Converter := construct JsonConverter false (1024 * 1024).
Definition xml_handler : Converter := construct XmlConverter false (1024 * 1024).



(** A file called [.tar.gz], and one called [logs.tar.gz]. *)
Definition dot_tar_gz : File := mkFile (u "/data/.tar.gz") [] mtime.
Definition logs_tar_gz : File := mkFile (u "/data/logs.tar.gz") [] mtime.

(** A ZIP archive with a JSON entry that parses and one that does not. *)
Definition zip_bytes : bytes := u "PK (zip)".

Definition zip_infos : list ZipInfo :=
  [mkZipInfo (u "good.json") 8 8 (Return good_json_bytes);
   mkZipInfo (u "bad.json") 1 1 (Return bad_json_bytes)].

Definition zip_file : File := mkFile (u "/in/a.zip") zip_bytes mtime.

(** A TAR archive whose first member is a symbolic link to a name that is
    not in the archive: [extractfile] raises [KeyError] for it. *)
Definition dangling_link : TarInfo :=
  mkTarInfo (u "link.json") 0 false 511 1700000000
    (Raise (mkExc KeyError (u "linkname 'missing.json' not found"))).

Definition tar_bytes : bytes := u "ustar (tar)".

Definition tar_members : list TarInfo :=
  [dangling_link; mkTarInfo (u "good.json") 8 false 420 1700000000 (Return (Some good_json_bytes))].

Definition tar_file : File := mkFile (u "/in/a.tar") tar_bytes mtime.

(** An installation that can open the two archives. *)
Definition rt_archives : Runtime :=
  demo.runtime [(zip_bytes, zip_infos)] [(tar_bytes, tar_members)].

(** [ArchiveConverter()]: budget 3; and one whose budget is used up. *)
Definition archive_handler : Converter := construct ArchiveConverter false (1024 * 1024).
Definition exhausted_handler : Converter := set_recursion_depth archive_handler 0.

(** [convert] of the entries, as the archive handler calls it. *)
Definition nested (c : Converter) (f : File) : M Json :=
  base_converter.convert rt_archives c f None.


(** An installation on which the contents of files cannot be read for
    hashing. *)
Definition rt_unreadable : Runtime :=
  {| magic_from_file := magic_from_file rt;
     filetype_guess := filetype_guess rt;
     uni_lower := uni_lower rt;
     uni_digit := uni_digit rt;
     uni_word := uni_word rt;
     hexdigests := λ _, Raise (mkExc OSError (u "[Errno 5] Input/output error"));
     fromtimestamp := fromtimestamp rt;
     utcnow := utcnow rt;
     cwd := cwd rt;
     time_now := time_now rt;
     json_load := json_load rt;
     et_parse := et_parse rt;
     decode_replace := decode_replace rt;
     csv_sniff := csv_sniff rt;
     csv_reader := csv_reader rt;
     fromisoformat := fromisoformat rt;
     float_of_str := float_of_str rt;
     b64encode := b64encode rt;
     zip_open := zip_open rt;
     tar_open := tar_open rt;
     tmp_create := tmp_create rt;
     tmp_write := tmp_write rt;
     external_extract := external_extract rt;
     json_dump_error := json_dump_error rt;
     completion_order := completion_order rt |}.

(** [good.xml], next to [good.json]: [<a/>]. *)
Definition good_xml : File := mkFile (u "/in/good.xml") (u "<a/>") mtime.

(** An output directory in which [good.json] already exists. *)
Definition old_document : Json := JStr (u "from an earlier run").

Definition fs_with_output : FS :=
  mkFS ∅ 0 {[ u "/out/good.json" := old_document ]}.

(** A processor whose formats filter is misspelt. *)
Definition jsn_processor : processor.FileProcessor :=
  processor.init (u "/out") false (Some [u "jsn"]) 4 1000 false.

(** [--input /in --output-dir /out --combine] on a machine with four
    processors, where [/in] is the directory with [bad.json], and where it is
    the file [good.json]. *)
Definition combine_args : cli.Namespace :=
  cli.mkNamespace (u "/in") (u "/out") true false false false None None 10000 false.

Definition host_good : cli.Host :=
  cli.mkHost (Some (processor.InputFile good_json)) None (Some 4%Z).

(** A line of thirteen digits: a time in milliseconds. *)
Definition millis_line : pystr := u "1700000000000".

(** A capture of which scapy reads a packet, a packet that cannot be
    parsed, a third packet, and then fails; pyshark is not installed. *)
Definition packet (summary : string) : pydict :=
  [(k "timestamp", JInt 1700000000); (k "length", JInt 60); (k "summary", JStr (u summary))].

Definition scapy : pcap.Library :=
  pcap.mkLibrary
    (Return [pcap.Yield (Return (packet "first"));
             pcap.Yield (Raise (mkExc AttributeError (u "dstport")));
             pcap.Yield (Return (packet "third"));
             pcap.Fail (mkExc OSError (u "truncated capture"))])
    (Return ()).

End example.

(** * Properties *)

(** ** Splitting and suffixes *)

Lemma split_on_nonempty sep s : split_on sep s ≠ [].
Proof.
  destruct s as [|c s]; simpl; [done|].
  destruct (c =? sep)%N; [done|]. by destruct (split_on sep s).
Qed.

(** Splitting at a separator splits the pieces. *)
Lemma split_on_app_sep sep a b :
  split_on sep (a ++ sep :: b) = split_on sep a ++ split_on sep b.
Proof.
  induction a as [|c a IH]; simpl.
  - by rewrite N.eqb_refl.
  - destruct (c =? sep)%N; rewrite IH; [done|].
    pose proof (split_on_nonempty sep a) as Hne.
    by destruct (split_on sep a).
Qed.

Lemma split_on_no_sep sep s : sep ∉ s → split_on sep s = [s].
Proof.
  induction s as [|c s IH]; intros Hs; simpl; [done|].
  destruct (N.eqb_spec c sep) as [->|Hne].
  - exfalso. apply Hs. left.
  - rewrite IH; [done|]. intros Hin. apply Hs. by right.
Qed.

Lemma lstrip_app_keep c s t :
  (∃ x, x ∈ s ∧ x ≠ c) → lstrip c (s ++ t) = lstrip c s ++ t.
Proof.
  induction s as [|x s IH]; intros [y [Hy Hne]].
  - by apply elem_of_nil in Hy.
  - simpl. destruct (N.eqb_spec x c) as [->|Hx]; [|done].
    apply IH. exists y. split; [|done].
    apply elem_of_cons in Hy as [->|Hy]; [done|done].
Qed.

Lemma lstrip_nonempty c s : (∃ x, x ∈ s ∧ x ≠ c) → lstrip c s ≠ [].
Proof.
  induction s as [|x s IH]; intros [y [Hy Hne]].
  - by apply elem_of_nil in Hy.
  - simpl. destruct (N.eqb_spec x c) as [->|Hx]; [|done].
    apply IH. exists y. split; [|done].
    apply elem_of_cons in Hy as [->|Hy]; [done|done].
Qed.

Lemma last_two_app {A} (l : list A) x y : last_two (l ++ [x; y]) = [x; y].
Proof.
  unfold last_two. rewrite length_app. simpl.
  replace (length l + 2 - 2)%nat with (length l) by lia.
  by rewrite drop_app_length.
Qed.

(** A name that is a stem with some character other than a dot, followed by
    [.tar.gz], has [.tar] and [.gz] as its last two suffixes. *)
Lemma suffixes_tar_gz (stem : pystr) :
  (∃ x, x ∈ stem ∧ x ≠ DOT) →
  last_two (Path.suffixes_of_name (stem ++ u ".tar.gz")) = [u ".tar"; u ".gz"].
Proof.
  intros Hstem. unfold Path.suffixes_of_name.
  assert (Hlast : last (stem ++ u ".tar.gz") = Some 122%N).
  { change (u ".tar.gz") with ([46; 116; 97; 114; 46; 103]%N ++ [122%N]).
    by rewrite app_assoc, last_snoc. }
  rewrite Hlast, bool_decide_eq_false_2 by (by intros [= ?]).
  rewrite lstrip_app_keep by done.
  change (u ".tar.gz") with (DOT :: u "tar" ++ DOT :: u "gz").
  rewrite !split_on_app_sep.
  pose proof (lstrip_nonempty DOT stem Hstem) as Hne.
  pose proof (split_on_nonempty DOT (lstrip DOT stem)) as Hsp.
  destruct (split_on DOT (lstrip DOT stem)) as [|w ws]; [done|].
  simpl tail. rewrite fmap_app.
  change (split_on DOT (u "tar")) with [u "tar"].
  change (split_on DOT (u "gz")) with [u "gz"].
  simpl. apply (last_two_app _ (u ".tar") (u ".gz")).
Qed.

(** ** The registry *)


Lemma registry_dom (tag : pystr) :
  is_Some (CONVERTER_REGISTRY !! tag) ↔ tag ∈ registered_tags.
Proof.
  unfold CONVERTER_REGISTRY, registered_tags.
  rewrite <- elem_of_dom, dom_list_to_map_L, elem_of_list_to_set. simpl. done.
Qed.

(** C8. Registry resolution is a total, pure look-up: [get_converter] is
    the registry's entry for a registered tag, and the Binary handler for
    every tag that is not registered, which covers every tag outside the
    closed set of thirteen. *)
Theorem get_converter_total (tag : pystr) :
  (get_converter tag = default BinaryConverter (CONVERTER_REGISTRY !! tag))
  ∧ (tag ∉ registered_tags → CONVERTER_REGISTRY !! tag = None ∧ get_converter tag = BinaryConverter)
  ∧ (∀ c, CONVERTER_REGISTRY !! tag = Some c → get_converter tag = c)
  ∧ (tag ∈ registered_tags → is_Some (CONVERTER_REGISTRY !! tag))
  ∧ get_converter (u "evtx") = EvtxConverter
  ∧ get_converter (u "pcap") = PcapConverter
  ∧ get_converter (u "pcapng") = PcapConverter
  ∧ get_converter (u "csv") = CsvConverter
  ∧ get_converter (u "json") = JsonConverter
  ∧ get_converter (u "xml") = XmlConverter
  ∧ get_converter (u "txt") = TextConverter
  ∧ get_converter (u "pdf") = PdfConverter
  ∧ get_converter (u "docx") = DocxConverter
  ∧ get_converter (u "zip") = ArchiveConverter
  ∧ get_converter (u "tar") = ArchiveConverter
  ∧ get_converter (u "gzip") = ArchiveConverter
  ∧ get_converter (u "binary") = BinaryConverter.
Proof.
  split; [done|]. split.
  { intros Hnot. assert (Hnone : CONVERTER_REGISTRY !! tag = None).
    { apply eq_None_not_Some. by rewrite registry_dom. }
    split; [done|]. unfold get_converter. by rewrite Hnone. }
  split. { intros c Hc. unfold get_converter. by rewrite Hc. }
  split. { apply registry_dom. }
  repeat split; vm_compute; reflexivity.
Qed.

(** ** Type detection by extension *)

Lemma detect_fallback rt (f : File) :
  detect_by_magic rt f = None → detect_by_filetype rt f = None →
  detect_file_type rt f = detect_by_extension rt (path f).
Proof. intros Hm Hf. unfold detect_file_type. by rewrite Hm, Hf. Qed.

(** C9, as amended. When detection reaches the extension step, a file whose
    last two suffixes are [.tar] and [.gz] -- every name made of a stem with
    a character other than a dot, followed by [.tar.gz] -- resolves to [tar]
    with mimetype [application/x-gzip]; every other file resolves through the
    table on its lowercased suffix, and to [binary] with
    [application/octet-stream] when the suffix is not in the table. *)
Theorem detect_by_extension_spec rt (f : File) (stem : pystr) :
  detect_by_magic rt f = None → detect_by_filetype rt f = None →
  (last_two (Path.suffixes (path f)) = [u ".tar"; u ".gz"] →
     detect_file_type rt f = (u "tar", u "application/x-gzip"))
  ∧ (Path.name (path f) = stem ++ u ".tar.gz" → (∃ x, x ∈ stem ∧ x ≠ DOT) →
     detect_file_type rt f = (u "tar", u "application/x-gzip"))
  ∧ (last_two (Path.suffixes (path f)) ≠ [u ".tar"; u ".gz"] →
     detect_file_type rt f =
       (default (u "binary") (extension_map !! lower rt (Path.suffix (path f))),
        u "application/octet-stream"))
  ∧ (last_two (Path.suffixes (path f)) ≠ [u ".tar"; u ".gz"] →
     extension_map !! lower rt (Path.suffix (path f)) = None →
     detect_file_type rt f = (u "binary", u "application/octet-stream")).
Proof.
  intros Hm Hf. rewrite (detect_fallback rt f Hm Hf). unfold detect_by_extension.
  split; [|split; [|split]].
  - intros H. by rewrite bool_decide_eq_true_2.
  - intros Hname Hstem. rewrite bool_decide_eq_true_2; [done|].
    unfold Path.suffixes. rewrite Hname. by apply suffixes_tar_gz.
  - intros H. by rewrite bool_decide_eq_false_2.
  - intros H Hnone. by rewrite bool_decide_eq_false_2, Hnone.
Qed.

(** ** The conversion template and [mtime_iso] *)

Ltac unfold_monad :=
  unfold mbind, ST_bind, mret, ST_ret, lift, raise, try_except, try_finally in *.

Lemma metadata_mtime rt (f : File) :
  dict_get (k "mtime") (extract_metadata rt f true) = Some (JFloat (st_mtime f))
  ∧ dict_get (k "mtime_iso") (extract_metadata rt f true) = Some JNone.
Proof.
  unfold extract_metadata, calculate_hashes.
  destruct (hexdigests rt f) as [[[a b] c]|e]; split; reflexivity.
Qed.

Lemma dict_get_set_eq key v d : dict_get key (dict_set key v d) = Some v.
Proof.
  induction d as [|[k' v'] d IH]; simpl.
  - unfold key_eqb. by rewrite bool_decide_eq_true_2.
  - destruct (key_eqb k' key) eqn:E; simpl; by rewrite E.
Qed.

Lemma dict_get_set_ne key key' v d :
  key ≠ key' → dict_get key' (dict_set key v d) = dict_get key' d.
Proof.
  intros Hne. induction d as [|[k' v'] d IH]; simpl.
  - unfold key_eqb. by rewrite bool_decide_eq_false_2.
  - destruct (key_eqb k' key) eqn:E; simpl.
    + unfold key_eqb in *. apply bool_decide_eq_true in E. subst k'.
      by rewrite bool_decide_eq_false_2.
    + by rewrite IH.
Qed.

(** The envelope that [convert_with] assembles, whatever converts the
    entries of an archive. *)
Lemma convert_with_metadata rt nested self f kw s env s' :
  base_converter.convert_with rt nested self f kw s = (Return env, s') →
  ∃ metadata,
    item (k "metadata") env = Some (JDict metadata)
    ∧ dict_get (k "mtime") metadata = Some (JFloat (st_mtime f))
    ∧ (if truthy_float (st_mtime f)
       then ∃ dt, fromtimestamp rt (st_mtime f) = Return dt
                  ∧ dict_get (k "mtime_iso") metadata = Some (JStr (isoformat dt))
       else dict_get (k "mtime_iso") metadata = Some JNone).
Proof.
  unfold base_converter.convert_with.
  destruct (detect_file_type rt f) as [detected_type mimetype].
  destruct (metadata_mtime rt f) as [Hm Hiso].
  unfold_monad. rewrite Hm.
  destruct (truthy_float (st_mtime f)) eqn:Ht.
  - destruct (fromtimestamp rt (st_mtime f)) as [dt|e] eqn:Hts; [|done].
    destruct (base_converter._extract_data rt nested self f kw s) as [[data|e] s1]; [|done].
    intros [= <- <-]. eexists. split; [reflexivity|]. split.
    + by rewrite dict_get_set_ne.
    + exists dt. split; [done|]. apply dict_get_set_eq.
  - destruct (base_converter._extract_data rt nested self f kw s) as [[data|e] s1]; [|done].
    intros [= <- <-]. eexists. split; [reflexivity|]. by split.
Qed.

(** C10. In every result that [convert] produces, [mtime_iso] is the ISO
    8601 rendering of [mtime] when [mtime] is truthy and stays null
    otherwise; a modification time of exactly zero leaves it null, although
    [mtime] itself is there. *)
Theorem convert_mtime_iso rt self f kw s env s' :
  base_converter.convert rt self f kw s = (Return env, s') →
  ∃ metadata,
    item (k "metadata") env = Some (JDict metadata)
    ∧ dict_get (k "mtime") metadata = Some (JFloat (st_mtime f))
    ∧ (if truthy_float (st_mtime f)
       then ∃ dt, fromtimestamp rt (st_mtime f) = Return dt
                  ∧ dict_get (k "mtime_iso") metadata = Some (JStr (isoformat dt))
       else dict_get (k "mtime_iso") metadata = Some JNone)
    ∧ (st_mtime f = 0%float → dict_get (k "mtime_iso") metadata = Some JNone).
Proof.
  unfold base_converter.convert. intros H.
  assert (∃ nested, base_converter.convert_with rt nested self f kw s = (Return env, s'))
    as [nested Hw].
  { destruct (base_converter.levels self); simpl in H; eauto. }
  destruct (convert_with_metadata _ _ _ _ _ _ _ _ Hw) as (metadata & H1 & H2 & H3).
  exists metadata. repeat split; try done.
  intros H0. rewrite H0 in H3. exact H3.
Qed.

(** ** Invalid JSON and XML *)




(** ** A CSV file with a header only *)



(** ** Timestamps in text lines *)

Section Timestamps.
Context (rt : Runtime).
Import text_converter.





End Timestamps.


(** ** Archive entries *)

Section ArchiveEntries.
Context (rt : Runtime) (convert : Converter → File → M Json).
Import archive_converter.


Lemma unlink_removes t s : scratch (unlink t s).2 !! t = None.
Proof.
  unfold unlink. destruct (scratch s !! t) eqn:E; simpl; [|done].
  apply lookup_delete_eq.
Qed.

Lemma finally_unlink {A} (m : Block A) t ds r d1 s1 :
  m ds = (r, (d1, s1)) →
  ∃ r' s', try_finally m (on_fs (unlink t)) ds = (r', (d1, s'))
           ∧ scratch s' !! t = None.
Proof.
  intros Hm. unfold try_finally, on_fs. rewrite Hm. simpl.
  pose proof (unlink_removes t s1) as Hu.
  destruct (unlink t s1) as [[[]|e] s2]; simpl in *; eauto.
Qed.

Lemma str_eqb_false_iff (a b : pystr) : str_eqb a b = false ↔ a ≠ b.
Proof. unfold str_eqb. apply bool_decide_eq_false. Qed.

Lemma inner_try_spec self depth t suffix b d s :
  ∃ d1 s1,
    try_except (convert_scratch rt convert self depth (scratch_file rt t suffix b))
      (λ _, mret ()) (d, s) = (Return (), (d1, s1))
    ∧ (d1 = d
       ∨ ∃ v env s', (0 < depth)%Z ∧ entry_tag rt t suffix b ≠ u "binary"
           ∧ entry_conversion rt convert self depth t suffix b s = (Return env, s')
           ∧ item (k "data") env = Some v
           ∧ d1 = dict_set (k "converted_content") v d)
    ∧ (∀ v env s', (0 < depth)%Z → entry_tag rt t suffix b ≠ u "binary" →
         entry_conversion rt convert self depth t suffix b s = (Return env, s') →
         item (k "data") env = Some v →
         d1 = dict_set (k "converted_content") v d).
Proof.
  unfold convert_scratch, entry_conversion, entry_tag.
  destruct (detect_file_type rt (scratch_file rt t suffix b)) as [tag mime] eqn:Hdet.
  simpl fst.
  destruct (str_eqb tag (u "binary")) eqn:Htag; simpl negb; simpl andb.
  { unfold_monad. exists d, s. split; [done|]. split; [by left|].
    intros v env s' _ Hne. exfalso. apply Hne. unfold str_eqb in Htag.
    by apply bool_decide_eq_true in Htag. }
  apply str_eqb_false_iff in Htag.
  destruct (0 <? depth)%Z eqn:Hd.
  2:{ unfold_monad. exists d, s. split; [done|]. split; [by left|].
      intros v env s' Hpos. apply Z.ltb_ge in Hd. lia. }
  apply Z.ltb_lt in Hd.
  unfold_monad. unfold on_fs, set_item. simpl.
  destruct (convert (entry_converter self depth tag) (scratch_file rt t suffix b) s)
    as [[env|e] s'] eqn:Hc; simpl.
  2:{ exists d, s'. split; [done|]. split; [by left|]. intros v env s'' _ _ [=]. }
  destruct (item (k "data") env) as [v|] eqn:Hi; simpl.
  - exists (dict_set (k "converted_content") v d), s'. split; [done|]. split.
    + right. exists v, env, s'. done.
    + intros v' env' s'' _ _ [= <- <-]. rewrite Hi. by intros [= <-].
  - exists d, s'. split; [done|]. split; [by left|].
    intros v' env' s'' _ _ [= <- <-]. by rewrite Hi.
Qed.

Lemma try_convert_scratch_spec self depth t suffix b d s :
  ∃ r d1 s1,
    try_convert_scratch rt convert self depth t (scratch_file rt t suffix b) (d, s)
      = (r, (d1, s1))
    ∧ scratch s1 !! t = None
    ∧ (d1 = d
       ∨ ∃ v env s', (0 < depth)%Z ∧ entry_tag rt t suffix b ≠ u "binary"
           ∧ entry_conversion rt convert self depth t suffix b s = (Return env, s')
           ∧ item (k "data") env = Some v
           ∧ d1 = dict_set (k "converted_content") v d)
    ∧ (∀ v env s', (0 < depth)%Z → entry_tag rt t suffix b ≠ u "binary" →
         entry_conversion rt convert self depth t suffix b s = (Return env, s') →
         item (k "data") env = Some v →
         d1 = dict_set (k "converted_content") v d).
Proof.
  destruct (inner_try_spec self depth t suffix b d s) as (d1 & s1 & Hin & Hor & Hpos).
  destruct (finally_unlink _ t _ _ _ _ Hin) as (r' & s' & Hfin & Hgone).
  exists r', d1, s'. unfold try_convert_scratch. by rewrite Hfin.
Qed.



Lemma scratch_block_spec self depth suffix data d s :
  ∃ d1 s1,
    with_local d (scratch_block rt convert self depth suffix data) s = (Return d1, s1)
    ∧ entry_outcome rt convert self depth suffix data d d1
    ∧ (∀ b v, yields data b → scratch_writable rt suffix data → (0 < depth)%Z →
         (∀ t, entry_tag rt t suffix b ≠ u "binary") →
         conversion_returns rt convert self depth suffix b v →
         d1 = dict_set (k "converted_content") v d)
    ∧ (∀ b, yields data b → scratch_writable rt suffix data →
         scratch s1 !! tickets s = None).
Proof.
  unfold with_local, scratch_block, named_temporary_file.
  unfold try_except at 1. unfold mbind, ST_bind, on_fs at 1. simpl.
  destruct (tmp_create rt suffix) as [[]|e] eqn:Hcreate; simpl.
  2:{ exists d, s. split; [done|]. split; [by left|]. split.
      - intros b v _ [Hc _]. congruence.
      - intros b _ [Hc _]. congruence. }
  destruct data as [[b|]|e] eqn:Hdata; simpl.
  - destruct (tmp_write rt b) as [[]|e] eqn:Hwrite; simpl.
    2:{ eexists d, _. split; [done|]. split; [by left|]. split.
        - intros b' v _ [_ Hw]. specialize (Hw b eq_refl). congruence.
        - intros b' _ [_ Hw]. specialize (Hw b eq_refl). congruence. }
    match goal with |- context [try_convert_scratch _ _ _ _ ?t ?f (d, ?s0)] =>
      destruct (try_convert_scratch_spec self depth t suffix b d s0)
        as (r & d1 & s1 & Hrun & Hgone & Hor & Hpos) end.
    unfold scratch_file in Hrun. rewrite Hrun.
    exists d1, s1. split; [by destruct r|]. split; [|split].
    + destruct Hor as [->|(v & env & s' & ? & ? & ? & ? & ->)]; [by left|].
      right. exists b, v, (tickets s). do 3 eexists. split; [by left|]. done.
    + intros b' v [[= <-]|[? _]] _ Hd Htag Hret; [|done].
      destruct (Hret (tickets s)
        (mkFS (<[tickets s := scratch_file rt (tickets s) suffix b]> (scratch s))
              (S (tickets s)) (outputs s))) as (env & s' & Hc & Hi).
      eapply Hpos; eauto.
    + done.
  - match goal with |- context [try_convert_scratch _ _ _ _ ?t ?f (d, ?s0)] =>
      destruct (try_convert_scratch_spec self depth t suffix [] d s0)
        as (r & d1 & s1 & Hrun & Hgone & Hor & Hpos) end.
    unfold scratch_file in Hrun. rewrite Hrun.
    exists d1, s1. split; [by destruct r|]. split; [|split].
    + destruct Hor as [->|(v & env & s' & ? & ? & ? & ? & ->)]; [by left|].
      right. exists [], v, (tickets s). do 3 eexists. split; [by right|]. done.
    + intros b' v [[=]|[_ ->]] _ Hd Htag Hret.
      destruct (Hret (tickets s)
        (mkFS (<[tickets s := scratch_file rt (tickets s) suffix []]> (scratch s))
              (S (tickets s)) (outputs s))) as (env & s' & Hc & Hi).
      eapply Hpos; eauto.
    + done.
  - eexists d, _. split; [done|]. split; [by left|]. split.
    + intros b v [[=]|[[=] _]].
    + intros b [[=]|[[=] _]].
Qed.


Lemma getinfo_namelist infos name :
  name ∈ namelist infos →
  ∃ info, getinfo infos name = Return info ∧ zi_filename info = name ∧ info ∈ infos.
Proof.
  intros Hin. unfold getinfo.
  apply list_elem_of_fmap in Hin as (i & -> & Hi).
  assert (i ∈ filter (λ j, zi_filename j = zi_filename i) infos) as Hf.
  { by apply list_elem_of_filter. }
  destruct (last (filter (λ j, zi_filename j = zi_filename i) infos)) as [j|] eqn:Hl.
  - exists j. split; [done|]. apply last_Some_elem_of in Hl.
    by apply list_elem_of_filter in Hl as [? ?].
  - apply last_None in Hl. rewrite Hl in Hf. by apply elem_of_nil in Hf.
Qed.

Lemma zip_entry_spec self depth infos name info s :
  recursion_depth self = Some depth →
  getinfo infos name = Return info →
  ∃ obj s',
    zip_entry rt convert self infos name s = (Return (JDict obj), s')
    ∧ entry_outcome rt convert self depth (Path.suffix name) (zip_data info)
        (zip_file_obj info name) obj
    ∧ (last name = Some SLASH → obj = zip_file_obj info name)
    ∧ (∀ b v, last name ≠ Some SLASH → zi_read info = Return b →
         scratch_writable rt (Path.suffix name) (zip_data info) → (0 < depth)%Z →
         (∀ t, entry_tag rt t (Path.suffix name) b ≠ u "binary") →
         conversion_returns rt convert self depth (Path.suffix name) b v →
         obj = dict_set (k "converted_content") v (zip_file_obj info name))
    ∧ (∀ b, last name ≠ Some SLASH → zi_read info = Return b → (0 < depth)%Z →
         scratch_writable rt (Path.suffix name) (zip_data info) →
         scratch s' !! tickets s = None).
Proof.
  intros Hdepth Hinfo. unfold zip_entry. unfold mbind at 1, ST_bind at 1, lift at 1.
  rewrite Hinfo. fold (zip_file_obj info name).
  destruct (bool_decide (last name = Some SLASH)) eqn:Hdir.
  { apply bool_decide_eq_true in Hdir. exists (zip_file_obj info name), s.
    split; [done|]. split; [by left|]. split; [done|]. split; intros; done. }
  apply bool_decide_eq_false in Hdir.
  unfold get_recursion_depth. rewrite Hdepth.
  unfold mbind at 1, ST_bind at 1, lift at 1.
  destruct (0 <? depth)%Z eqn:Hpos.
  2:{ exists (zip_file_obj info name), s. split; [done|]. split; [by left|].
      split; [done|]. apply Z.ltb_ge in Hpos. split; intros; lia. }
  destruct (zi_read info) as [b|e] eqn:Hread.
  - destruct (scratch_block_spec self depth (Path.suffix name)
               (Return (Some b)) (zip_file_obj info name) s)
      as (d1 & s1 & Hrun & Hout & Hret & Hgone).
    exists d1, s1. split; [|split; [|split; [|split]]].
    + unfold mbind at 1, ST_bind at 1.
      assert (with_local (zip_file_obj info name)
        (try_except
           (content ← lift (Return b);
            tmp ← on_fs (named_temporary_file rt (Path.suffix name) (Return (Some content)));
            try_convert_scratch rt convert self depth tmp.1 tmp.2)
           (λ _ : exc, mret ())) s = (Return d1, s1)) as ->; [|done].
      exact Hrun.
    + unfold zip_data. by rewrite Hread.
    + done.
    + intros b' v _ [= <-] Hw Hd Htag Hconv. unfold zip_data in Hw. rewrite Hread in Hw.
      eapply Hret; eauto. by left.
    + intros b' _ [= <-] _ Hw. unfold zip_data in Hw. rewrite Hread in Hw.
      eapply Hgone; eauto. by left.
  - exists (zip_file_obj info name), s. split; [done|]. split; [by left|].
    split; [done|]. split; [intros b v _ [=]|intros b _ [=]].
Qed.

Lemma tar_entry_spec self depth member s :
  recursion_depth self = Some depth →
  ∃ obj s',
    tar_entry rt convert self member s = (Return (JDict obj), s')
    ∧ entry_outcome rt convert self depth (Path.suffix (ti_name member))
        (ti_extractfile member) (tar_file_obj member) obj
    ∧ (ti_isdir member = true → obj = tar_file_obj member)
    ∧ (∀ b v, ti_isdir member = false → yields (ti_extractfile member) b →
         scratch_writable rt (Path.suffix (ti_name member)) (ti_extractfile member) →
         (0 < depth)%Z →
         (∀ t, entry_tag rt t (Path.suffix (ti_name member)) b ≠ u "binary") →
         conversion_returns rt convert self depth (Path.suffix (ti_name member)) b v →
         obj = dict_set (k "converted_content") v (tar_file_obj member))
    ∧ (∀ b, ti_isdir member = false → yields (ti_extractfile member) b → (0 < depth)%Z →
         scratch_writable rt (Path.suffix (ti_name member)) (ti_extractfile member) →
         scratch s' !! tickets s = None).
Proof.
  intros Hdepth. unfold tar_entry. fold (tar_file_obj member).
  destruct (ti_isdir member) eqn:Hdir.
  { exists (tar_file_obj member), s. split; [done|]. split; [by left|]. split; [done|].
    split; intros; done. }
  unfold get_recursion_depth. rewrite Hdepth.
  unfold mbind at 1, ST_bind at 1, lift at 1.
  destruct (0 <? depth)%Z eqn:Hpos.
  2:{ exists (tar_file_obj member), s. split; [done|]. split; [by left|].
      split; [done|]. apply Z.ltb_ge in Hpos. split; intros; lia. }
  destruct (scratch_block_spec self depth (Path.suffix (ti_name member))
             (ti_extractfile member) (tar_file_obj member) s)
    as (d1 & s1 & Hrun & Hout & Hret & Hgone).
  exists d1, s1. split; [|split; [|split; [|split]]].
  - unfold mbind at 1, ST_bind at 1. unfold scratch_block in Hrun. by rewrite Hrun.
  - done.
  - done.
  - intros b v _ Hy Hw Hd Htag Hconv. eapply Hret; eauto.
  - intros b _ Hy _ Hw. eapply Hgone; eauto.
Qed.

(** A loop whose body returns on every element returns, with one result
    per element. *)
Lemma for_each_returns {A B} (body : A → M B) (P : A → B → Prop) (l : list A) s :
  (∀ a s0, a ∈ l → ∃ b s1, body a s0 = (Return b, s1) ∧ P a b) →
  ∃ bs s', for_each body l s = (Return bs, s') ∧ Forall2 P l bs.
Proof.
  revert s. induction l as [|a l IH]; intros s Hbody; simpl.
  - exists [], s. split; [done|]. constructor.
  - destruct (Hbody a s) as (b & s1 & Hb & HP); [left|].
    destruct (IH s1) as (bs & s2 & Hbs & HF).
    { intros a' s0 Ha'. apply Hbody. by right. }
    exists (b :: bs), s2. split; [|by constructor].
    unfold mbind, ST_bind. rewrite Hb, Hbs. done.
Qed.


End ArchiveEntries.

(** ** Archive listings *)

Section ArchiveListings.
Context (rt : Runtime) (convert : Converter → File → M Json).
Import archive_converter.

Lemma no_content_zip info name :
  dict_get (k "converted_content") (zip_file_obj info name) = None
  ∧ dict_get (k "filename") (zip_file_obj info name) = Some (JStr name).
Proof. split; reflexivity. Qed.

Lemma no_content_tar member :
  dict_get (k "converted_content") (tar_file_obj member) = None
  ∧ dict_get (k "filename") (tar_file_obj member) = Some (JStr (ti_name member)).
Proof. split; reflexivity. Qed.



Lemma outcome_gated self depth name data file_obj obj :
  dict_get (k "converted_content") file_obj = None →
  entry_outcome rt convert self depth (Path.suffix name) data file_obj obj →
  entry_gated rt convert self depth name data (JDict obj).
Proof.
  intros Hnone Hout. exists obj. split; [done|].
  destruct Hout as [->|(b & v & t & s & env & s' & Hy & Hd & Htag & Hc & Hi & ->)].
  - split; [done|]. intros v. by rewrite Hnone.
  - split; [lia|]. intros v'. rewrite dict_get_set_eq. intros [= <-].
    split; [done|]. by exists b, t, s, env, s'.
Qed.


(** The ZIP loop: one dictionary per name, in order, whatever the entries do. *)
Lemma extract_zip_entries self depth f infos s :
  recursion_depth self = Some depth →
  zip_open rt f = Return infos →
  ∃ files s',
    _extract_zip rt convert self f s = (Return (listing "zip" files), s')
    ∧ Forall2 (λ name file,
         ∃ info obj, getinfo infos name = Return info ∧ file = JDict obj
           ∧ entry_outcome rt convert self depth (Path.suffix name) (zip_data info)
               (zip_file_obj info name) obj
           ∧ (∀ b v, last name ≠ Some SLASH → zi_read info = Return b →
                scratch_writable rt (Path.suffix name) (zip_data info) → (0 < depth)%Z →
                (∀ t, entry_tag rt t (Path.suffix name) b ≠ u "binary") →
                conversion_returns rt convert self depth (Path.suffix name) b v →
                obj = dict_set (k "converted_content") v (zip_file_obj info name)))
       (namelist infos) files.
Proof.
  intros Hdepth Hopen. unfold _extract_zip.
  unfold mbind at 1, ST_bind at 1, try_except, mbind at 1, ST_bind at 1, lift.
  rewrite Hopen.
  edestruct (for_each_returns (zip_entry rt convert self infos)) as (files & s' & Hrun & HF);
    [|rewrite Hrun; exists files, s'; split; [done|exact HF]].
  intros name s0 Hin. destruct (getinfo_namelist infos name Hin) as (info & Hinfo & _ & _).
  destruct (zip_entry_spec rt convert self depth infos name info s0 Hdepth Hinfo)
    as (obj & s1 & Hrun & Hout & _ & Hret & _).
  exists (JDict obj), s1. split; [done|]. by exists info, obj.
Qed.

Lemma extract_tar_entries self depth f members s :
  recursion_depth self = Some depth →
  tar_open rt (gz_mode (path f)) f = Return members →
  ∃ files s',
    _extract_tar rt convert self f s = (Return (listing "tar" files), s')
    ∧ Forall2 (λ member file,
         ∃ obj, file = JDict obj
           ∧ entry_outcome rt convert self depth (Path.suffix (ti_name member))
               (ti_extractfile member) (tar_file_obj member) obj
           ∧ (∀ b v, ti_isdir member = false → yields (ti_extractfile member) b →
                scratch_writable rt (Path.suffix (ti_name member)) (ti_extractfile member) →
                (0 < depth)%Z →
                (∀ t, entry_tag rt t (Path.suffix (ti_name member)) b ≠ u "binary") →
                conversion_returns rt convert self depth (Path.suffix (ti_name member)) b v →
                obj = dict_set (k "converted_content") v (tar_file_obj member)))
       members files.
Proof.
  intros Hdepth Hopen. unfold _extract_tar.
  unfold mbind at 1, ST_bind at 1, try_except, mbind at 1, ST_bind at 1, lift.
  rewrite Hopen.
  edestruct (for_each_returns (tar_entry rt convert self)) as (files & s' & Hrun & HF);
    [|rewrite Hrun; exists files, s'; split; [done|exact HF]].
  intros member s0 Hin.
  destruct (tar_entry_spec rt convert self depth member s0 Hdepth)
    as (obj & s1 & Hrun & Hout & _ & Hret & _).
  exists (JDict obj), s1. split; [done|]. by exists obj.
Qed.

End ArchiveListings.


(** The handler made for an entry has the class the registry gives for the
    detected type and, when that class has a budget, the parent's budget
    less one. *)
Lemma entry_converter_budget self depth tag :
  cls (archive_converter.entry_converter self depth tag) = get_converter tag
  ∧ recursion_depth (archive_converter.entry_converter self depth tag)
    = (if bool_decide (get_converter tag = ArchiveConverter)
       then Some (depth - 1)%Z else None).
Proof.
  unfold archive_converter.entry_converter, hasattr_recursion_depth,
    set_recursion_depth, construct.
  cbn [cls recursion_depth include_base64 base64_limit].
  destruct (bool_decide (get_converter tag = ArchiveConverter)) eqn:E.
  - rewrite bool_decide_eq_true_2; [done | by eexists].
  - rewrite bool_decide_eq_false_2; [done | by intros [? ?]].
Qed.

(** C3. With a budget of zero or less, no entry of the listing carries
    [converted_content], whatever its type.  An entry carries it only when
    the budget is positive and its scratch file is not detected as binary,
    and then it is the [data] of a conversion, one that returned, by the
    handler the registry gives for the detected type; that handler's budget,
    when its class has one, is the parent's less one. *)
Theorem budget_gates_entry_conversion rt convert self depth f s :
  recursion_depth self = Some depth →
  (∀ infos, zip_open rt f = Return infos →
     ∃ files s',
       archive_converter._extract_zip rt convert self f s
         = (Return (archive_converter.listing "zip" files), s')
       ∧ Forall2 (λ name file,
            ∃ info, archive_converter.getinfo infos name = Return info
              ∧ entry_gated rt convert self depth name (zip_data info) file)
          (archive_converter.namelist infos) files)
  ∧ (∀ members, tar_open rt (archive_converter.gz_mode (path f)) f = Return members →
     ∃ files s',
       archive_converter._extract_tar rt convert self f s
         = (Return (archive_converter.listing "tar" files), s')
       ∧ Forall2 (λ member file,
            entry_gated rt convert self depth (ti_name member) (ti_extractfile member) file)
          members files)
  ∧ (∀ tag,
       cls (archive_converter.entry_converter self depth tag) = get_converter tag
       ∧ recursion_depth (archive_converter.entry_converter self depth tag)
         = (if bool_decide (get_converter tag = ArchiveConverter)
            then Some (depth - 1)%Z else None)).
Proof.
  intros Hdepth. split; [|split].
  - intros infos Hopen.
    destruct (extract_zip_entries rt convert self depth f infos s Hdepth Hopen)
      as (files & s' & Hrun & HF).
    exists files, s'. split; [done|].
    eapply Forall2_impl; [exact HF|]. cbv beta.
    intros name file (info & obj & Hinfo & -> & Hout & _).
    exists info. split; [done|].
    eapply outcome_gated; [|exact Hout]. apply no_content_zip.
  - intros members Hopen.
    destruct (extract_tar_entries rt convert self depth f members s Hdepth Hopen)
      as (files & s' & Hrun & HF).
    exists files, s'. split; [done|].
    eapply Forall2_impl; [exact HF|]. cbv beta.
    intros member file (obj & -> & Hout & _).
    eapply outcome_gated; [|exact Hout]. apply no_content_tar.
  - apply entry_converter_budget.
Qed.

(** X18. The scratch file of an entry whose bytes were written is gone when the
    entry has been processed, whether its conversion returned or raised. *)
Lemma scratch_removed_when_filled rt convert self depth s :
  recursion_depth self = Some depth → (0 < depth)%Z →
  (∀ infos name info b,
     archive_converter.getinfo infos name = Return info →
     last name ≠ Some SLASH → zi_read info = Return b →
     scratch_writable rt (Path.suffix name) (zip_data info) →
     scratch (archive_converter.zip_entry rt convert self infos name s).2 !! tickets s = None)
  ∧ (∀ member b,
     ti_isdir member = false → yields (ti_extractfile member) b →
     scratch_writable rt (Path.suffix (ti_name member)) (ti_extractfile member) →
     scratch (archive_converter.tar_entry rt convert self member s).2 !! tickets s = None).
Proof.
  intros Hdepth Hpos. split.
  - intros infos name info b Hinfo Hdir Hread Hw.
    destruct (zip_entry_spec rt convert self depth infos name info s Hdepth Hinfo)
      as (obj & s1 & Hrun & _ & _ & _ & Hgone).
    rewrite Hrun. simpl. eauto.
  - intros member b Hdir Hy Hw.
    destruct (tar_entry_spec rt convert self depth member s Hdepth)
      as (obj & s1 & Hrun & _ & _ & _ & Hgone).
    rewrite Hrun. simpl. eauto.
Qed.

(** ** The recursion of [convert] *)

Section Knot.
Context (rt : Runtime).
Import archive_converter.

Lemma for_each_ext {A B} (body1 body2 : A → M B) l s :
  (∀ a s0, body1 a s0 = body2 a s0) → for_each body1 l s = for_each body2 l s.
Proof.
  intros H. revert s. induction l as [|a l IH]; intros s; simpl; [done|].
  unfold mbind, ST_bind. rewrite H. destruct (body2 a s) as [[b|e] s1]; [|done].
  by rewrite IH.
Qed.

Lemma try_convert_scratch_ext c1 c2 self depth t tmp ds :
  recursion_depth self = Some depth → agree_on_entries self c1 c2 →
  try_convert_scratch rt c1 self depth t tmp ds = try_convert_scratch rt c2 self depth t tmp ds.
Proof.
  intros Hdepth Hag. unfold try_convert_scratch, try_finally, try_except, convert_scratch.
  destruct (detect_file_type rt tmp) as [tag mime].
  destruct (negb (str_eqb tag (u "binary"))); simpl; [|done].
  destruct (0 <? depth)%Z eqn:Hpos; [|done].
  apply Z.ltb_lt in Hpos.
  unfold mbind, ST_bind, on_fs. simpl. by rewrite (Hag depth tag tmp ds.2 Hdepth Hpos).
Qed.

Lemma zip_entry_ext c1 c2 self infos name s :
  agree_on_entries self c1 c2 →
  zip_entry rt c1 self infos name s = zip_entry rt c2 self infos name s.
Proof.
  intros Hag. unfold zip_entry, with_local, try_except, mbind, ST_bind, lift, on_fs,
    get_recursion_depth. simpl.
  destruct (getinfo infos name) as [info|e]; [|done].
  destruct (bool_decide (last name = Some SLASH)); [done|].
  destruct (recursion_depth self) as [depth|] eqn:Hdepth; [|done].
  destruct (0 <? depth)%Z; [|done].
  destruct (zi_read info) as [b|e]; [|done].
  destruct (named_temporary_file rt _ _ s) as [[[t tmp]|e] s1]; [|done]. simpl.
  by rewrite (try_convert_scratch_ext c1 c2 self depth t tmp _ Hdepth Hag).
Qed.

Lemma tar_entry_ext c1 c2 self member s :
  agree_on_entries self c1 c2 →
  tar_entry rt c1 self member s = tar_entry rt c2 self member s.
Proof.
  intros Hag. unfold tar_entry, with_local, try_except, mbind, ST_bind, lift, on_fs,
    get_recursion_depth. simpl.
  destruct (ti_isdir member); [done|].
  destruct (recursion_depth self) as [depth|] eqn:Hdepth; [|done].
  destruct (0 <? depth)%Z; [|done].
  destruct (named_temporary_file rt _ _ s) as [[[t tmp]|e] s1]; [|done]. simpl.
  by rewrite (try_convert_scratch_ext c1 c2 self depth t tmp _ Hdepth Hag).
Qed.

Lemma archive_extract_data_ext c1 c2 self f s :
  agree_on_entries self c1 c2 →
  archive_converter._extract_data rt c1 self f s
  = archive_converter._extract_data rt c2 self f s.
Proof.
  intros Hag. unfold archive_converter._extract_data.
  destruct (detect_file_type rt f) as [tag mime].
  destruct (str_eqb tag (u "zip")).
  - unfold _extract_zip, try_except, mbind, ST_bind, lift.
    destruct (zip_open rt f) as [infos|e]; [|done].
    by rewrite (for_each_ext _ _ _ _ (λ a s0, zip_entry_ext c1 c2 self infos a s0 Hag)).
  - destruct (str_eqb tag (u "tar") || str_eqb tag (u "gzip")); [|done].
    unfold _extract_tar, try_except, mbind, ST_bind, lift.
    destruct (tar_open rt _ f) as [members|e]; [|done].
    by rewrite (for_each_ext _ _ _ _ (λ a s0, tar_entry_ext c1 c2 self a s0 Hag)).
Qed.

Lemma convert_with_ext c1 c2 self f kw s :
  agree_on_entries self c1 c2 →
  base_converter.convert_with rt c1 self f kw s = base_converter.convert_with rt c2 self f kw s.
Proof.
  intros Hag. unfold base_converter.convert_with.
  destruct (detect_file_type rt f) as [tag mime].
  unfold try_except, mbind, ST_bind.
  match goal with |- context [match ?m s with _ => _ end] => destruct (m s) as [[md|e] s1] end;
    [|done].
  assert (base_converter._extract_data rt c1 self f kw s1
          = base_converter._extract_data rt c2 self f kw s1) as ->; [|done].
  unfold base_converter._extract_data. destruct (cls self); try done.
  by apply archive_extract_data_ext.
Qed.

Lemma levels_entry self depth tag :
  recursion_depth self = Some depth → (0 < depth)%Z →
  (base_converter.levels (entry_converter self depth tag) < base_converter.levels self)%nat.
Proof.
  intros Hdepth Hpos. unfold base_converter.levels.
  destruct (entry_converter_budget self depth tag) as [_ ->]. rewrite Hdepth.
  destruct (bool_decide _); lia.
Qed.

(** Any number of levels that covers the handler's budget gives the same
    conversion: the innermost level's parameter is never called. *)
Lemma convert_at_enough n m self f kw s :
  (base_converter.levels self ≤ n)%nat → (base_converter.levels self ≤ m)%nat →
  base_converter.convert_at rt n self f kw s = base_converter.convert_at rt m self f kw s.
Proof.
  revert m self f kw s. induction n as [|n IH]; intros [|m] self f kw s Hn Hm; simpl.
  - done.
  - apply convert_with_ext. intros depth tag f' s' Hdepth Hpos.
    pose proof (levels_entry self depth tag Hdepth Hpos). lia.
  - apply convert_with_ext. intros depth tag f' s' Hdepth Hpos.
    pose proof (levels_entry self depth tag Hdepth Hpos). lia.
  - apply convert_with_ext. intros depth tag f' s' Hdepth Hpos.
    pose proof (levels_entry self depth tag Hdepth Hpos). apply IH; lia.
Qed.

(** [convert] satisfies the equation of the template method: the entries
    of an archive are converted by [convert] itself. *)
Lemma convert_unfold self f kw s :
  base_converter.convert rt self f kw s
  = base_converter.convert_with rt (λ c f', base_converter.convert rt c f' None) self f kw s.
Proof.
  unfold base_converter.convert at 1.
  destruct (base_converter.levels self) as [|n] eqn:Hl; simpl.
  - apply convert_with_ext. intros depth tag f' s' Hdepth Hpos.
    pose proof (levels_entry self depth tag Hdepth Hpos). lia.
  - apply convert_with_ext. intros depth tag f' s' Hdepth Hpos.
    pose proof (levels_entry self depth tag Hdepth Hpos).
    unfold base_converter.convert. apply convert_at_enough; lia.
Qed.

End Knot.

(** ** The orchestrator *)

Section Orchestrator.
Context (rt : Runtime).
Import processor.

(** [_process_single_file] returns on every file: its [except] clause turns
    every exception into [None]. *)
Lemma process_single_file_returns self file_path s :
  ∃ r s', _process_single_file rt self file_path s = (Return r, s').
Proof.
  unfold _process_single_file, try_except.
  match goal with |- context [match ?m s with _ => _ end] => destruct (m s) as [[r|e] s1] end;
    eauto.
Qed.

(** So the loop over the completed futures never reaches its own [except]
    clause: the failure list stays as it is. *)
Lemma collect_keeps_failed self file_path s :
  ∃ self' s', collect rt self file_path s = (Return self', s')
    ∧ failed_files self' = failed_files self
    ∧ (length (converted_files self') ≤ S (length (converted_files self)))%nat.
Proof.
  unfold collect, try_except, mbind, ST_bind.
  destruct (process_single_file_returns self file_path s) as (r & s' & ->).
  destruct r as [r|]; [destruct (truthy r)|]; eexists _, _; (split; [done|]);
    simpl; rewrite ?length_app; simpl; split; (done || lia).
Qed.

Lemma fold_collect_keeps_failed files self s :
  ∃ self' s', fold_m (collect rt) files self s = (Return self', s')
    ∧ failed_files self' = failed_files self
    ∧ (length (converted_files self') ≤ length (converted_files self) + length files)%nat.
Proof.
  revert self s. induction files as [|f files IH]; intros self s; simpl.
  - exists self, s. split; [done|]. split; [done|lia].
  - destruct (collect_keeps_failed self f s) as (self1 & s1 & Hc & Hf & Hl).
    destruct (IH self1 s1) as (self2 & s2 & Hrun & Hf2 & Hl2).
    exists self2, s2. unfold mbind, ST_bind. rewrite Hc, Hrun.
    split; [done|]. split; [congruence|lia].
Qed.

(** Whatever the input, [process] reports as failed exactly what was in
    the failure list before: zero for a new processor. *)
Lemma process_failed_unchanged self input s r self' s' :
  process rt self input s = (Return (r, self'), s') →
  failed_files self' = failed_files self
  ∧ (failed_files self = [] → item (k "failed") r = Some (JInt 0)).
Proof.
  unfold process. destruct input as [f|found|p]; [| |done].
  - simpl. destruct (fold_collect_keeps_failed (completion_order rt [f]) self s)
      as (self1 & s1 & Hrun & Hf & _).
    unfold mbind, ST_bind. rewrite Hrun. intros [= <- <- <-].
    split; [done|]. intros Hnil. simpl. unfold item, counts. simpl.
    by rewrite Hf, Hnil.
  - destruct (regular_files found) as [|f fs] eqn:Hfs.
    + intros [= <- <- <-]. done.
    + destruct (fold_collect_keeps_failed (completion_order rt (f :: fs)) self s)
        as (self1 & s1 & Hrun & Hf & _).
      unfold mbind, ST_bind. rewrite Hrun. intros [= <- <- <-].
      split; [done|]. intros Hnil. unfold item, counts. simpl.
      by rewrite Hf, Hnil.
Qed.

End Orchestrator.

(** ** The examples, evaluated *)

Section Examples.
Import example.

(** C1. The code against the claim, evaluated: a directory holds one regular
    file, [bad.json] with the contents [{]; no formats filter, nothing in the
    output directory.  Its conversion raises [ValueError], yet [process]
    returns [successful = 0] and [failed = 0], and the failure list of the
    processor is as empty as before: the file is in neither count.
    [process_failed_unchanged] has the general statement. *)
Theorem failing_file_is_not_recorded :
  base_converter.convert rt json_handler bad_json None empty_fs
    = (Raise (mkExc ValueError (u "Invalid JSON: Expecting value")), empty_fs)
  ∧ processor.regular_files [processor.RegularFile bad_json] = [bad_json]
  ∧ processor.process rt new_processor one_bad_file empty_fs
    = (Return (JDict [(k "successful", JInt 0); (k "failed", JInt 0)], new_processor),
       empty_fs).
Proof. vm_compute. done. Qed.

(** C4. The code against the claim, evaluated: for a TAR member that is a
    symbolic link to a name missing from the archive, [extractfile] raises
    inside the [with] block, after the scratch file was made and before the
    inner [try] is entered.  The entry's processing returns its dictionary
    and the scratch file is still there, also after [convert] of the whole
    archive has returned.  [scratch_removed_when_filled] has the part of the
    claim that holds. *)
Theorem scratch_file_left_behind :
  archive_converter.tar_entry rt_archives nested archive_handler dangling_link empty_fs
    = (Return (JDict (tar_file_obj dangling_link)),
       mkFS {[ 0%nat := mkFile (u "/tmp/tmp0.json") [] (time_now rt_archives) ]} 1 ∅)
  ∧ ∃ data s',
      base_converter.convert rt_archives archive_handler tar_file None empty_fs
        = (Return data, s')
      ∧ scratch s' !! 0%nat = Some (mkFile (u "/tmp/tmp0.json") [] (time_now rt_archives)).
Proof.
  split; [by vm_compute|]. eexists _, _. split; [by vm_compute|]. by vm_compute.
Qed.



(** The TAR archive under a handler whose budget is 0: an instance of C3. *)
Lemma budget_gates_entry_conversion_witness :
  recursion_depth exhausted_handler = Some 0%Z
  ∧ tar_open rt_archives (archive_converter.gz_mode (path tar_file)) tar_file = Return tar_members
  ∧ ∃ files s',
      archive_converter._extract_tar rt_archives nested exhausted_handler tar_file empty_fs
        = (Return (archive_converter.listing "tar" files), s')
      ∧ Forall2 (λ member file,
           entry_gated rt_archives nested exhausted_handler 0 (ti_name member)
             (ti_extractfile member) file)
         tar_members files.
Proof.
  split; [reflexivity|]. split; [by vm_compute|].
  apply (proj1 (proj2 (budget_gates_entry_conversion rt_archives nested exhausted_handler 0
                         tar_file empty_fs eq_refl))).
  by vm_compute.
Defined.






(** The file [logs.tar.gz]: an instance of C9 as amended. *)
Lemma detect_by_extension_spec_witness :
  detect_by_magic rt logs_tar_gz = None
  ∧ detect_by_filetype rt logs_tar_gz = None
  ∧ Path.name (path logs_tar_gz) = u "logs" ++ u ".tar.gz"
  ∧ detect_file_type rt logs_tar_gz = (u "tar", u "application/x-gzip").
Proof.
  split; [reflexivity|]. split; [reflexivity|]. split; [by vm_compute|].
  apply (proj1 (proj2 (detect_by_extension_spec rt logs_tar_gz (u "logs") eq_refl eq_refl))).
  - by vm_compute.
  - exists 108. split; [by vm_compute; set_solver | discriminate].
Defined.

(** Against C9 as stated: the name [.tar.gz] ends in [.tar] and [.gz], but
    its only suffix is [.gz], and it resolves to [gzip]. *)
Lemma dot_tar_gz_resolves_to_gzip :
  Path.name (path dot_tar_gz) = u ".tar.gz"
  ∧ Path.suffixes (path dot_tar_gz) = [u ".gz"]
  ∧ detect_by_magic rt dot_tar_gz = None
  ∧ detect_by_filetype rt dot_tar_gz = None
  ∧ detect_file_type rt dot_tar_gz = (u "gzip", u "application/octet-stream").
Proof. by vm_compute. Qed.

(** A file last modified at the epoch: an instance of C10. *)
Lemma convert_mtime_iso_witness :
  ∃ env s' metadata,
    base_converter.convert rt json_handler epoch_json None empty_fs = (Return env, s')
    ∧ item (k "metadata") env = Some (JDict metadata)
    ∧ dict_get (k "mtime") metadata = Some (JFloat 0%float)
    ∧ dict_get (k "mtime_iso") metadata = Some JNone.
Proof.
  assert (E : ∃ env s',
             base_converter.convert rt json_handler epoch_json None empty_fs = (Return env, s'))
    by (vm_compute; eauto).
  destruct E as (env & s' & E).
  destruct (convert_mtime_iso rt json_handler epoch_json None empty_fs env s' E)
    as (metadata & Hm & Hmt & _ & Hz).
  exists env, s', metadata. split; [exact E|]. split; [exact Hm|]. split; [exact Hmt|].
  apply Hz. reflexivity.
Defined.

End Examples.

(** ** What [convert] leaves alone *)

(** Closure of [keeps] under the constructs of the model. *)
Section Frame.
Context {S O : Type} (proj : S → O).

Lemma keeps_ret {A} (a : A) : keeps proj (mret a : ST S A).
Proof. by intros s. Qed.

Lemma keeps_lift {A} (r : result A) : keeps proj (lift r : ST S A).
Proof. by intros s. Qed.

Lemma keeps_raise {A} e : keeps proj (raise e : ST S A).
Proof. by intros s. Qed.

Lemma keeps_bind {A B} (m : ST S A) (f : A → ST S B) :
  keeps proj m → (∀ a, keeps proj (f a)) → keeps proj (m ≫= f).
Proof.
  intros Hm Hf s. unfold mbind, ST_bind. specialize (Hm s).
  destruct (m s) as [[a|e] s1]; simpl in *; [|done].
  by rewrite Hf.
Qed.

Lemma keeps_try_except {A} (m : ST S A) h :
  keeps proj m → (∀ e, keeps proj (h e)) → keeps proj (try_except m h).
Proof.
  intros Hm Hh s. unfold try_except. specialize (Hm s).
  destruct (m s) as [[a|e] s1]; simpl in *; [done|].
  by rewrite Hh.
Qed.

Lemma keeps_try_finally {A} (m : ST S A) fin :
  keeps proj m → keeps proj fin → keeps proj (try_finally m fin).
Proof.
  intros Hm Hf s. unfold try_finally. specialize (Hm s).
  destruct (m s) as [r s1]; simpl in *. specialize (Hf s1).
  destruct (fin s1) as [[[]|e] s2]; simpl in *; congruence.
Qed.

Lemma keeps_for_each {A B} (body : A → ST S B) l :
  (∀ a, keeps proj (body a)) → keeps proj (for_each body l).
Proof.
  intros Hb. induction l as [|a l IH]; simpl; [apply keeps_ret|].
  apply keeps_bind; [done|]. intros b. apply keeps_bind; [done|]. intros bs. apply keeps_ret.
Qed.

End Frame.

Lemma keeps_on_fs {A} (m : M A) : keeps outputs m → keeps block_outputs (on_fs m).
Proof.
  intros Hm [d s]. unfold on_fs, block_outputs. simpl. specialize (Hm s).
  by destruct (m s) as [r s1].
Qed.

Lemma keeps_set_item key v : keeps block_outputs (set_item key v).
Proof. by intros [d s]. Qed.

Lemma keeps_with_local d b : keeps block_outputs b → keeps outputs (with_local d b).
Proof.
  intros Hb s. unfold with_local. specialize (Hb (d, s)). unfold block_outputs in Hb.
  by destruct (b (d, s)) as [[[]|e] [d1 s1]].
Qed.

Section ConvertFrame.
Context (rt : Runtime).
Import archive_converter.

Lemma keeps_unlink t : keeps outputs (unlink t).
Proof. intros s. unfold unlink. by destruct (scratch s !! t). Qed.

Lemma keeps_named_temporary_file suffix data :
  keeps outputs (named_temporary_file rt suffix data).
Proof.
  intros s. unfold named_temporary_file.
  destruct (tmp_create rt suffix); [|done].
  destruct data as [[b|]|e]; try done.
  by destruct (tmp_write rt b).
Qed.

Lemma keeps_try_convert_scratch nested self depth t tmp :
  (∀ c f, keeps outputs (nested c f)) →
  keeps block_outputs (try_convert_scratch rt nested self depth t tmp).
Proof.
  intros Hn. unfold try_convert_scratch.
  apply keeps_try_finally; [|apply keeps_on_fs, keeps_unlink].
  apply keeps_try_except; [|intros; apply keeps_ret].
  unfold convert_scratch. destruct (detect_file_type rt tmp) as [tag mime].
  destruct (negb (str_eqb tag (u "binary")) && (0 <? depth)%Z); [|apply keeps_ret].
  apply keeps_bind; [apply keeps_on_fs, Hn|].
  intros converted. destruct (item (k "data") converted); [apply keeps_set_item|apply keeps_raise].
Qed.

Lemma keeps_zip_entry nested self infos name :
  (∀ c f, keeps outputs (nested c f)) → keeps outputs (zip_entry rt nested self infos name).
Proof.
  intros Hn. unfold zip_entry.
  apply keeps_bind; [apply keeps_lift|]. intros info.
  destruct (bool_decide (last name = Some SLASH)); [apply keeps_ret|].
  apply keeps_bind; [apply keeps_lift|]. intros depth.
  destruct (0 <? depth)%Z; [|apply keeps_ret].
  apply keeps_bind; [|intros; apply keeps_ret].
  apply keeps_with_local, keeps_try_except; [|intros; apply keeps_ret].
  apply keeps_bind; [apply keeps_lift|]. intros b.
  apply keeps_bind; [apply keeps_on_fs, keeps_named_temporary_file|]. intros tmp.
  by apply keeps_try_convert_scratch.
Qed.

Lemma keeps_tar_entry nested self member :
  (∀ c f, keeps outputs (nested c f)) → keeps outputs (tar_entry rt nested self member).
Proof.
  intros Hn. unfold tar_entry.
  destruct (ti_isdir member); [apply keeps_ret|].
  apply keeps_bind; [apply keeps_lift|]. intros depth.
  destruct (0 <? depth)%Z; [|apply keeps_ret].
  apply keeps_bind; [|intros; apply keeps_ret].
  apply keeps_with_local, keeps_try_except; [|intros; apply keeps_ret].
  apply keeps_bind; [apply keeps_on_fs, keeps_named_temporary_file|]. intros tmp.
  by apply keeps_try_convert_scratch.
Qed.

Lemma keeps_archive_extract_data nested self f :
  (∀ c f, keeps outputs (nested c f)) →
  keeps outputs (archive_converter._extract_data rt nested self f).
Proof.
  intros Hn. unfold archive_converter._extract_data.
  destruct (detect_file_type rt f) as [tag mime].
  destruct (str_eqb tag (u "zip")).
  - unfold _extract_zip. apply keeps_bind; [|intros; apply keeps_ret].
    apply keeps_try_except; [|intros; apply keeps_raise].
    apply keeps_bind; [apply keeps_lift|]. intros infos.
    apply keeps_for_each. intros name. by apply keeps_zip_entry.
  - destruct (str_eqb tag (u "tar") || str_eqb tag (u "gzip")); [|apply keeps_raise].
    unfold _extract_tar. apply keeps_bind; [|intros; apply keeps_ret].
    apply keeps_try_except; [|intros; apply keeps_raise].
    apply keeps_bind; [apply keeps_lift|]. intros members.
    apply keeps_for_each. intros member. by apply keeps_tar_entry.
Qed.

Lemma keeps_convert_with nested self f kw :
  (∀ c f, keeps outputs (nested c f)) →
  keeps outputs (base_converter.convert_with rt nested self f kw).
Proof.
  intros Hn. unfold base_converter.convert_with.
  destruct (detect_file_type rt f) as [tag mime].
  apply keeps_try_except; [|intros; apply keeps_raise].
  apply keeps_bind.
  - destruct (dict_get (k "mtime") (extract_metadata rt f true)) as [[]|]; try apply keeps_ret.
    destruct (truthy_float _); [|apply keeps_ret].
    apply keeps_bind; [apply keeps_lift|]. intros; apply keeps_ret.
  - intros metadata. apply keeps_bind; [|intros; apply keeps_ret].
    unfold base_converter._extract_data.
    destruct (cls self); try apply keeps_lift. by apply keeps_archive_extract_data.
Qed.

Lemma keeps_convert_at n self f kw : keeps outputs (base_converter.convert_at rt n self f kw).
Proof.
  revert self f kw. induction n as [|n IH]; intros self f kw; simpl.
  - apply keeps_convert_with. intros; apply keeps_raise.
  - apply keeps_convert_with. intros c f'. apply IH.
Qed.

End ConvertFrame.



(** ** Detection and the registry; the envelope of [convert] *)


Ltac table_cases H :=
  apply elem_of_list_to_map_2 in H; apply list_elem_of_In in H; simpl in H;
  repeat (destruct H as [H|H]; [injection H as <- <-|]); try done.

Ltac registered :=
  match goal with |- ?P => refine (bool_decide_unpack P _); vm_compute; exact I end.

(** Every value of the three tables is one of the thirteen tags. *)
Lemma extension_tag_registered (ext : pystr) :
  default (u "binary") (extension_map !! ext) ∈ registered_tags.
Proof.
  destruct (extension_map !! ext) as [tag|] eqn:He; simpl; [|registered].
  unfold extension_map in He. table_cases He; registered.
Qed.

Lemma registered_lookup tag :
  tag ∈ registered_tags → CONVERTER_REGISTRY !! tag = Some (get_converter tag).
Proof.
  intros H. apply list_elem_of_In in H. simpl in H.
  repeat (destruct H as [H|H]; [subst tag; by vm_compute|]). done.
Qed.

Lemma detect_registered rt f : (detect_file_type rt f).1 ∈ registered_tags.
Proof.
  assert ((detect_by_extension rt (path f)).1 ∈ registered_tags) as Hext.
  { unfold detect_by_extension. destruct (bool_decide _); simpl; [registered|].
    apply extension_tag_registered. }
  assert (∀ r, detect_by_filetype rt f = Some r → r.1 ∈ registered_tags) as Hft.
  { unfold detect_by_filetype. intros r.
    destruct (filetype_guess rt f) as [[[mimetype extension]|]|e]; try done.
    destruct (ext_to_type !! (DOT :: extension)) as [detected|] eqn:Hm; [|done].
    destruct (truthy_str detected); [|done]. intros [= <-]. simpl.
    unfold ext_to_type in Hm. table_cases Hm; registered. }
  assert (∀ r, detect_by_magic rt f = Some r → r.1 ∈ registered_tags) as Hmg.
  { unfold detect_by_magic. intros r.
    destruct (magic_from_file rt f) as [mimetype|e]; [|done].
    destruct (mime_to_type !! mimetype) as [detected|] eqn:Hm; [|done].
    destruct (truthy_str detected); [|done]. intros [= <-]. simpl.
    unfold mime_to_type in Hm. table_cases Hm; registered. }
  unfold detect_file_type.
  destruct (detect_by_magic rt f) as [r|]; [by apply Hmg|].
  destruct (detect_by_filetype rt f) as [r|]; [by apply Hft|done].
Qed.

(** X1. Type detection is closed over the registry: whatever the two sniffing
    libraries report and whatever the file is called, the detected tag is
    one of the thirteen registered tags, so [get_converter] finds it in the
    registry and never takes its default on a detected tag; the Binary
    handler is chosen exactly for the tag [binary]. *)
Theorem detected_type_is_registered rt f :
  (detect_file_type rt f).1 ∈ registered_tags
  ∧ CONVERTER_REGISTRY !! (detect_file_type rt f).1
    = Some (get_converter (detect_file_type rt f).1)
  ∧ ((detect_file_type rt f).1 = u "binary"
     ↔ get_converter (detect_file_type rt f).1 = BinaryConverter).
Proof.
  pose proof (detect_registered rt f) as Hreg.
  split; [done|]. split; [by apply registered_lookup|].
  apply list_elem_of_In in Hreg. simpl in Hreg.
  repeat (destruct Hreg as [Hreg|Hreg]; [rewrite <- Hreg; by vm_compute|]). done.
Qed.


Section Envelope.
Context (rt : Runtime).

(** The result of [convert_with], field by field. *)
Lemma convert_with_envelope nested self f kw s env s' :
  base_converter.convert_with rt nested self f kw s = (Return env, s') →
  ∃ metadata data,
    env = JDict [
       (k "source_filename", JStr (Path.name (path f)));
       (k "source_path", JStr (Path.absolute (cwd rt) (path f)));
       (k "detected_type", JStr (detect_file_type rt f).1);
       (k "mimetype", JStr (detect_file_type rt f).2);
       (k "converted_at", JStr (isoformat (utcnow rt) ++ u "Z"));
       (k "metadata", JDict metadata);
       (k "data", data) ]
    ∧ (metadata = extract_metadata rt f true
       ∨ ∃ dt, fromtimestamp rt (st_mtime f) = Return dt
               ∧ metadata = dict_set (k "mtime_iso") (JStr (isoformat dt))
                              (extract_metadata rt f true))
    ∧ base_converter._extract_data rt nested self f kw s = (Return data, s').
Proof.
  unfold base_converter.convert_with.
  destruct (detect_file_type rt f) as [tag mime].
  destruct (metadata_mtime rt f) as [Hm _]. rewrite Hm.
  unfold try_except, mbind, ST_bind, mret, ST_ret, lift.
  destruct (truthy_float (st_mtime f)).
  - destruct (fromtimestamp rt (st_mtime f)) as [dt|e]; [|done].
    destruct (base_converter._extract_data rt nested self f kw s) as [[data|e] s1]; [|done].
    intros [= <- <-]. eexists _, data. split; [done|]. split; [|done]. right. by exists dt.
  - destruct (base_converter._extract_data rt nested self f kw s) as [[data|e] s1]; [|done].
    intros [= <- <-]. eexists _, data. split; [done|]. split; [|done]. by left.
Qed.

(** X2. The envelope of [convert]: a result has the seven keys
    [source_filename], [source_path], [detected_type], [mimetype],
    [converted_at], [metadata], [data], in this order; the type and the
    mimetype are the ones detection gives for the file (not the handler's
    class), the metadata are those of [extract_metadata] with [mtime_iso]
    filled in if at all, and [data] is what the handler's [_extract_data]
    returned, in the state it left. *)
Theorem convert_envelope self f kw s env s' :
  base_converter.convert rt self f kw s = (Return env, s') →
  ∃ metadata data,
    env = JDict [
       (k "source_filename", JStr (Path.name (path f)));
       (k "source_path", JStr (Path.absolute (cwd rt) (path f)));
       (k "detected_type", JStr (detect_file_type rt f).1);
       (k "mimetype", JStr (detect_file_type rt f).2);
       (k "converted_at", JStr (isoformat (utcnow rt) ++ u "Z"));
       (k "metadata", JDict metadata);
       (k "data", data) ]
    ∧ (metadata = extract_metadata rt f true
       ∨ ∃ dt, fromtimestamp rt (st_mtime f) = Return dt
               ∧ metadata = dict_set (k "mtime_iso") (JStr (isoformat dt))
                              (extract_metadata rt f true))
    ∧ base_converter._extract_data rt (λ c f', base_converter.convert rt c f' None) self f kw s
      = (Return data, s').
Proof. rewrite convert_unfold. apply convert_with_envelope. Qed.

(** X3. A file whose contents cannot be read for hashing still converts:
    [calculate_hashes] swallows the error, the three digests are empty
    strings (as if hashing had been switched off), and the rest of the
    metadata is there. *)
Theorem unreadable_file_has_empty_digests f e :
  hexdigests rt f = Raise e →
  calculate_hashes rt f = [(k "sha256", JStr []); (k "sha1", JStr []); (k "md5", JStr [])]
  ∧ extract_metadata rt f true = extract_metadata rt f false
  ∧ (∀ self kw s env s',
       base_converter.convert rt self f kw s = (Return env, s') →
       ∃ metadata, item (k "metadata") env = Some (JDict metadata)
         ∧ dict_get (k "sha256") metadata = Some (JStr [])
         ∧ dict_get (k "sha1") metadata = Some (JStr [])
         ∧ dict_get (k "md5") metadata = Some (JStr [])
         ∧ dict_get (k "size") metadata = Some (JInt (st_size f))).
Proof.
  intros He.
  assert (calculate_hashes rt f
          = [(k "sha256", JStr []); (k "sha1", JStr []); (k "md5", JStr [])]) as Hc.
  { unfold calculate_hashes. by rewrite He. }
  split; [done|].
  assert (extract_metadata rt f true = extract_metadata rt f false) as Hsame.
  { unfold extract_metadata. by rewrite Hc. }
  split; [done|].
  intros self kw s env s' Hconv.
  rewrite convert_unfold in Hconv.
  destruct (convert_with_envelope _ self f kw s env s' Hconv)
    as (metadata & data & -> & Hmeta & _).
  exists metadata. split; [done|].
  destruct Hmeta as [->|(dt & _ & ->)]; rewrite Hsame;
    rewrite ?dict_get_set_ne by (by intros [= ?]); done.
Qed.

End Envelope.

(** ** The worker, the pool and the command line *)

Section Worker.
Context (rt : Runtime).
Import processor.

(** What one worker does to the output directory. *)
Lemma worker_spec self f s :
  ∃ r s', _process_single_file rt self f s = (Return r, s')
    ∧ match r with
      | Some data =>
          filtered_out self (detect_file_type rt f).1 = false
          ∧ (∃ handler kw s1,
               cls handler = get_converter (detect_file_type rt f).1
               ∧ base_converter.convert rt handler f kw s = (Return data, s1))
          ∧ (overwrite self = true ∨ outputs s !! output_path self f = None)
          ∧ outputs s' = <[output_path self f := data]> (outputs s)
      | None => outputs s' = outputs s
      end.
Proof.
  unfold _process_single_file, try_except, output_path.
  destruct (detect_file_type rt f) as [tag mime]. simpl.
  destruct (filtered_out self tag); [by exists None, s|].
  unfold mbind, ST_bind.
  match goal with |- context [base_converter.convert rt ?c f ?kw s] =>
    pose proof (keeps_convert_at rt (base_converter.levels c) c f kw s) as Hout;
    fold (base_converter.convert rt c f kw) in Hout;
    assert (cls c = get_converter tag) as Hcls
      by (by destruct (bool_decide _ && hasattr_recursion_depth _));
    destruct (base_converter.convert rt c f kw s) as [[data|e] s1] eqn:Hconv end;
    simpl in Hout; [|by exists None, s1].
  unfold path_exists. simpl. rewrite Hout.
  destruct (bool_decide (is_Some (outputs s !! _))) eqn:Hp; simpl.
  - destruct (overwrite self) eqn:Hov; simpl; [|by exists None, s1].
    unfold base_converter.save_json.
    destruct (json_dump_error rt _ data); [by exists None, s1|].
    eexists (Some data), _. split; [done|]. simpl. rewrite Hout. eauto 10.
  - apply bool_decide_eq_false in Hp. rewrite <- eq_None_not_Some in Hp.
    unfold base_converter.save_json.
    destruct (json_dump_error rt _ data); [by exists None, s1|].
    eexists (Some data), _. split; [done|]. simpl. rewrite Hout. eauto 10.
Qed.


(** X7. Two inputs with the same stem share one output path.  Without
    [overwrite], once the document of a file is written, a file with the
    same stem (the file itself, or [a.xml] after [a.json]) is converted and
    then dropped: the worker returns [None] and the output directory stays
    as the first file left it. *)
Theorem same_stem_is_skipped self f g s data s1 :
  overwrite self = false →
  Path.stem (path g) = Path.stem (path f) →
  _process_single_file rt self f s = (Return (Some data), s1) →
  ∃ s2, _process_single_file rt self g s1 = (Return None, s2)
        ∧ outputs s2 = outputs s1
        ∧ outputs s2 !! output_path self f = Some data.
Proof.
  intros Hov Hstem Hf.
  assert (output_path self g = output_path self f) as Hpath
    by (unfold output_path; by rewrite Hstem).
  assert (outputs s1 !! output_path self f = Some data) as Hthere.
  { destruct (worker_spec self f s) as (r & s' & Hrun & H).
    rewrite Hf in Hrun. injection Hrun as <- <-.
    destruct H as (_ & _ & _ & ->). by rewrite lookup_insert_eq. }
  destruct (worker_spec self g s1) as (r & s2 & Hrun & H).
  destruct r as [d|].
  - destruct H as (_ & _ & [Ho|Hnone] & _); [congruence|]. rewrite Hpath in Hnone. congruence.
  - exists s2. split; [done|]. split; [done|]. by rewrite H.
Qed.

Lemma same_settings_refl a : same_settings a a.
Proof. by repeat split. Qed.

Lemma same_settings_trans a b c : same_settings a b → same_settings b c → same_settings a c.
Proof. unfold same_settings. intros; destruct_and!; repeat split; congruence. Qed.

Lemma worker_keeps_outputs self f s :
  overwrite self = false → outputs_kept s (_process_single_file rt self f s).2.
Proof.
  intros Hov. destruct (worker_spec self f s) as (r & s' & -> & H).
  unfold outputs_kept. simpl. destruct r as [data|].
  - destruct H as (_ & _ & [Ho|Hnone] & ->); [congruence|].
    intros p j Hp. rewrite lookup_insert_ne; [done|]. intros <-. congruence.
  - rewrite H. by intros p j.
Qed.

(** One turn of the loop over the completed futures. *)
Lemma collect_spec self f s :
  ∃ self' s', collect rt self f s = (Return self', s')
    ∧ s' = (_process_single_file rt self f s).2
    ∧ same_settings self self'
    ∧ failed_files self' = failed_files self
    ∧ (converted_files self' = converted_files self
       ∨ ∃ r, converted_files self' = converted_files self ++ [r]).
Proof.
  unfold collect, try_except, mbind, ST_bind.
  destruct (process_single_file_returns rt self f s) as (r & s' & E). rewrite E. simpl.
  destruct r as [r|]; [destruct (truthy r)|]; eexists _, _; (split; [done|]);
    (split; [done|]); (split; [apply same_settings_refl || by repeat split|]);
    (split; [done|]); eauto.
Qed.

Lemma fold_collect_spec files self s :
  ∃ self' s', fold_m (collect rt) files self s = (Return self', s')
    ∧ same_settings self self'
    ∧ failed_files self' = failed_files self
    ∧ converted_files self `prefix_of` converted_files self'
    ∧ (length (converted_files self') ≤ length (converted_files self) + length files)%nat
    ∧ (overwrite self = false → outputs_kept s s').
Proof.
  revert self s. induction files as [|f files IH]; intros self s; simpl.
  - exists self, s. split; [done|]. split; [apply same_settings_refl|].
    split; [done|]. split; [done|]. split; [lia|]. by intros _ p j.
  - destruct (collect_spec self f s) as (self1 & s1 & Hc & Hs1 & Hset & Hf & Hconv).
    destruct (IH self1 s1) as (self2 & s2 & Hrun & Hset2 & Hf2 & Hpre & Hlen & Hkept).
    exists self2, s2. unfold mbind, ST_bind. rewrite Hc, Hrun.
    split; [done|]. split; [by eapply same_settings_trans|].
    split; [congruence|]. split; [|split].
    + destruct Hconv as [E|[r E]]; rewrite E in Hpre; [done|].
      etrans; [|exact Hpre]. by apply prefix_app_r.
    + destruct Hconv as [E|[r E]]; rewrite E in Hlen; [lia|].
      rewrite length_app in Hlen. simpl in Hlen. lia.
    + intros Hov p j Hp. apply Hkept.
      * destruct Hset as (_ & <- & _). exact Hov.
      * subst s1. by apply worker_keeps_outputs.
Qed.

(** [process] on a file or a directory, pool included. *)
Lemma process_in_pool_cases self input s :
  (∀ p, input ≠ InputOther p) →
  if bool_decide (files_to_process input = [])
  then process_in_pool rt self input s
       = (Return (JDict [(k "successful", JInt 0); (k "failed", JInt 0)], self), s)
  else if (workers self <=? 0)%Z
  then process_in_pool rt self input s
       = (Raise (mkExc ValueError (u "max_workers must be greater than 0")), s)
  else ∃ self' s',
      process_in_pool rt self input s = (Return (counts self', self'), s')
      ∧ same_settings self self'
      ∧ failed_files self' = failed_files self
      ∧ converted_files self `prefix_of` converted_files self'
      ∧ (length (converted_files self')
         ≤ length (converted_files self)
           + length (completion_order rt (files_to_process input)))%nat.
Proof.
  intros Hin.
  assert (process_in_pool rt self input
          = match files_to_process input with
            | [] => process rt self input
            | _ => lift (thread_pool_executor (workers self));; process rt self input
            end) as ->.
  { unfold process_in_pool. by destruct input. }
  assert (process rt self input
          = match files_to_process input with
            | [] => mret (JDict [(k "successful", JInt 0); (k "failed", JInt 0)], self)
            | _ => self' ← fold_m (collect rt) (completion_order rt (files_to_process input)) self;
                   mret (counts self', self')
            end) as ->.
  { unfold process. destruct input; try done. by destruct (Hin p). }
  destruct (files_to_process input) as [|f fs] eqn:Hfiles.
  - by rewrite bool_decide_eq_true_2.
  - rewrite bool_decide_eq_false_2 by done.
    unfold mbind, ST_bind, lift, thread_pool_executor.
    destruct (workers self <=? 0)%Z; [done|].
    destruct (fold_collect_spec (completion_order rt (f :: fs)) self s)
      as (self' & s' & Hrun & Hset & Hf & Hpre & Hlen & _).
    exists self', s'. rewrite Hrun. done.
Qed.

(** X8. Every way [process] can end.  It raises [ValueError] when the input is
    neither a file nor a directory, and when there are files but the number
    of workers is not positive (the pool cannot be made); both before any
    file is touched.  Without files it returns zero counts, whatever the
    processor has collected before.  Otherwise it returns, whatever the
    files and the handlers do: the counts are the lengths of the two
    collections, the failure list is the one from before the run, the
    converted list is the old one with at most one result per submitted
    file appended, and the settings are untouched. *)
Theorem process_outcomes self input s :
  match input with
  | InputOther p =>
      process_in_pool rt self input s
      = (Raise (mkExc ValueError (u "Input path is neither file nor directory: " ++ p)), s)
  | _ =>
      if bool_decide (files_to_process input = [])
      then process_in_pool rt self input s
           = (Return (JDict [(k "successful", JInt 0); (k "failed", JInt 0)], self), s)
      else if (workers self <=? 0)%Z
      then process_in_pool rt self input s
           = (Raise (mkExc ValueError (u "max_workers must be greater than 0")), s)
      else ∃ self' s',
          process_in_pool rt self input s = (Return (counts self', self'), s')
          ∧ same_settings self self'
          ∧ failed_files self' = failed_files self
          ∧ converted_files self `prefix_of` converted_files self'
          ∧ (length (converted_files self')
             ≤ length (converted_files self)
               + length (completion_order rt (files_to_process input)))%nat
  end.
Proof.
  destruct input as [f|found|p].
  - by apply process_in_pool_cases.
  - by apply process_in_pool_cases.
  - reflexivity.
Qed.

(** X9. Without [overwrite], a run never changes or removes a document that is
    already in the output directory, whatever the input: a file whose
    output exists is converted and then dropped. *)
Theorem existing_outputs_are_kept self input s p j :
  overwrite self = false → outputs s !! p = Some j →
  outputs (process_in_pool rt self input s).2 !! p = Some j.
Proof.
  intros Hov Hp.
  assert (∀ files, outputs (fold_m (collect rt) files self s).2 !! p = Some j) as Hfold.
  { intros files.
    destruct (fold_collect_spec files self s) as (self' & s' & -> & _ & _ & _ & _ & Hk).
    simpl. by apply Hk. }
  unfold process_in_pool, process.
  destruct input as [f|found|q]; [| |done].
  - simpl. unfold mbind, ST_bind, lift, thread_pool_executor.
    destruct (workers self <=? 0)%Z; [done|].
    specialize (Hfold (completion_order rt [f])).
    by destruct (fold_m (collect rt) (completion_order rt [f]) self s) as [[self'|e] s'].
  - simpl. destruct (regular_files found) as [|f fs]; [done|].
    unfold mbind, ST_bind, lift, thread_pool_executor.
    destruct (workers self <=? 0)%Z; [done|].
    specialize (Hfold (completion_order rt (f :: fs))).
    by destruct (fold_m (collect rt) (completion_order rt (f :: fs)) self s) as [[self'|e] s'].
Qed.

Lemma fold_collect_skipped self files s :
  (∀ f, _process_single_file rt self f s = (Return None, s)) →
  fold_m (collect rt) files self s = (Return self, s).
Proof.
  intros H. induction files as [|f files IH]; [done|].
  assert (collect rt self f s = (Return self, s)) as Hc.
  { unfold collect, try_except, mbind, ST_bind. by rewrite H. }
  cbn [fold_m]. unfold mbind, ST_bind. by rewrite Hc.
Qed.

(** X10. A formats filter none of whose tags is a registered tag (a misspelt
    [jsn], an empty item) skips every file: nothing is converted, nothing
    is written, the file system and the processor are as before, and the
    run still returns normally. *)
Theorem unregistered_formats_skip_every_file self input s fs :
  formats_filter self = Some fs → fs ≠ [] → (∀ t, t ∈ fs → t ∉ registered_tags) →
  (0 < workers self)%Z → (∀ p, input ≠ InputOther p) →
  process_in_pool rt self input s
  = (Return (if bool_decide (files_to_process input = [])
             then JDict [(k "successful", JInt 0); (k "failed", JInt 0)]
             else counts self, self), s).
Proof.
  intros Hfs Hne Hun Hw Hin.
  assert (∀ f, _process_single_file rt self f s = (Return None, s)) as Hskip.
  { intros f. unfold _process_single_file, try_except.
    destruct (detect_file_type rt f) as [tag mime] eqn:Hd.
    assert (filtered_out self tag = true) as ->; [|done].
    unfold filtered_out. rewrite Hfs. destruct fs as [|t fs']; [done|].
    apply negb_true_iff, bool_decide_eq_false. intros Hin'.
    apply (Hun tag Hin'). pose proof (detect_registered rt f) as Hr.
    by rewrite Hd in Hr. }
  assert (∀ files, fold_m (collect rt) files self s = (Return self, s)) as Hfold.
  { intros files. by apply fold_collect_skipped. }
  unfold process_in_pool, process.
  destruct input as [f|found|p]; [| |by destruct (Hin p)].
  - simpl. unfold mbind, ST_bind, lift, thread_pool_executor.
    assert ((workers self <=? 0)%Z = false) as -> by (apply Z.leb_gt; lia).
    by rewrite Hfold.
  - simpl. destruct (regular_files found) as [|f fs0]; [done|].
    rewrite bool_decide_eq_false_2 by done.
    unfold mbind, ST_bind, lift, thread_pool_executor.
    assert ((workers self <=? 0)%Z = false) as -> by (apply Z.leb_gt; lia).
    by rewrite Hfold.
Qed.

End Worker.

Section CommandLine.
Context (rt : Runtime).
Import processor cli.



(** X12. With [--combine], a run that exits with 0 has written [master.json]
    into the output directory, replacing whatever a conversion had put
    under that name (the output of an input called [master.*]); the
    document counts and lists the converted files and has no [failed_files]
    key. *)
Theorem master_json_after_main args host s s' :
  main rt args host s = (Return 0%Z, s') → combine args = true →
  ∃ converted,
    outputs s' !! master_path args
    = Some (JDict [(k "total_files", JInt (Z.of_nat (length converted)));
                   (k "converted_files", JList converted)]).
Proof.
  unfold main. intros Hmain Hc. rewrite Hc in Hmain.
  destruct (cli.input_path host) as [input|]; [|done].
  destruct (mkdir_error host); [done|].
  unfold try_except, mbind, ST_bind in Hmain.
  assert (∀ q, input ≠ InputOther q) as Hin.
  { intros q ->. by cbn in Hmain. }
  pose proof (process_in_pool_cases rt
                (init (cli.output_dir args) (cli.overwrite args) (formats_filter rt args)
                   (default_workers (cli.workers args) (cpu_count host))
                   (cli.max_packets args) (cli.include_base64 args)) input s Hin) as H.
  revert Hmain H.
  destruct (process_in_pool rt _ input s) as [[[results p]|e] s0]; intros Hmain H; [|done].
  assert (failed_files p = []) as Hnil.
  { destruct (bool_decide _); [by injection H as _ -> _|].
    destruct (_ <=? 0)%Z; [done|].
    destruct H as (self' & s1 & [= _ -> _] & _ & Hf & _). exact Hf. }
  unfold create_master_json, master_data in Hmain. rewrite Hnil in Hmain.
  fold (master_path args) in Hmain.
  destruct (json_dump_error rt (master_path args) _); [done|].
  exists (converted_files p).
  destruct (item (k "failed") results) as [[]|]; cbn in Hmain; try discriminate Hmain;
    injection Hmain as _ <-; simpl; by rewrite lookup_insert_eq.
Qed.

End CommandLine.

(** ** The lines of a text file *)

Section TextLines.
Context (rt : Runtime).
Import text_converter.






End TextLines.

Section Epoch.
Context (rt : Runtime).
Import text_converter.

(** An ASCII digit is a digit and a word character of the patterns, and not a dot. *)
Lemma ascii_digit_classes c :
  is_ascii_digit c = true → re_digit rt c = true ∧ re_word rt c = true ∧ (c =? DOT) = false.
Proof.
  unfold is_ascii_digit, re_digit, re_word, is_ascii_word, DOT. intros H.
  apply andb_true_iff in H as [H1 H2]. apply N.leb_le in H1, H2.
  assert ((c <? 128) = true) as -> by (apply N.ltb_lt; lia).
  unfold is_ascii_digit.
  assert ((48 <=? c) = true) as -> by (apply N.leb_le; lia).
  assert ((c <=? 57) = true) as -> by (apply N.leb_le; lia).
  split; [done|]. split; [done|]. apply N.eqb_neq. lia.
Qed.

Lemma digits_of_digits n : ∀ s,
  Forall (λ c, is_ascii_digit c = true) s →
  digits rt n s = if bool_decide (n ≤ length s)%nat then Some (take n s, drop n s) else None.
Proof.
  induction n as [|n IH]; intros s Hs; cbn [digits].
  - rewrite bool_decide_eq_true_2 by lia. by rewrite take_0, drop_0.
  - destruct s as [|c s].
    + rewrite bool_decide_eq_false_2; [done|]. simpl. lia.
    + inversion Hs as [|? ? Hc Hs']; subst. cbn [length take drop].
      destruct (ascii_digit_classes c Hc) as (-> & _ & _).
      rewrite (IH s Hs').
      destruct (bool_decide (n ≤ length s)%nat) eqn:E.
      * apply bool_decide_eq_true in E. by rewrite bool_decide_eq_true_2 by lia.
      * apply bool_decide_eq_false in E. by rewrite bool_decide_eq_false_2 by lia.
Qed.

Lemma no_epoch_inside_digits : ∀ s c,
  is_ascii_digit c = true → Forall (λ c, is_ascii_digit c = true) s →
  epoch_search_from rt (Some c) s = None.
Proof.
  induction s as [|d s IH]; intros c Hc Hs.
  - simpl. unfold epoch_at, boundary. simpl.
    destruct (ascii_digit_classes c Hc) as (_ & -> & _). done.
  - inversion Hs as [|? ? Hd Hs']; subst.
    cbn [epoch_search_from]. unfold epoch_at at 1, boundary. simpl head. simpl word_at.
    destruct (ascii_digit_classes c Hc) as (_ & -> & _).
    destruct (ascii_digit_classes d Hd) as (_ & -> & _). simpl.
    by apply IH.
Qed.

Lemma last_of_digits (l : pystr) :
  Forall (λ c, is_ascii_digit c = true) l → l ≠ [] →
  ∃ x, last l = Some x ∧ is_ascii_digit x = true.
Proof.
  intros Hl Hne. destruct (last l) as [x|] eqn:Hx; [|by apply last_None in Hx].
  exists x. split; [done|]. apply last_Some_elem_of in Hx.
  rewrite Forall_forall in Hl. by apply Hl.
Qed.

Lemma epoch_tail_of_digits (l : pystr) :
  Forall (λ c, is_ascii_digit c = true) l → (10 ≤ length l)%nat →
  epoch_tail rt (take 10 l) (drop 10 l)
  = if bool_decide (length l = 10%nat) then Some l else None.
Proof.
  intros Hs E.
  destruct (last_of_digits (take 10 l)) as (x & Hlast & Hx).
  { by apply Forall_take. } { destruct l; [simpl in E; lia|done]. }
  destruct (ascii_digit_classes x Hx) as (_ & Hxw & _).
  unfold epoch_tail, boundary. rewrite Hlast. cbn [word_at]. rewrite Hxw.
  destruct (drop 10 l) as [|d rest] eqn:Hd.
  - assert (length l = 10%nat) as Hlen.
    { apply (f_equal length) in Hd. rewrite length_drop in Hd. cbn [length] in Hd. lia. }
    rewrite bool_decide_eq_true_2 by done. rewrite take_ge by lia. done.
  - assert (length l ≠ 10%nat) as Hlen.
    { apply (f_equal length) in Hd. rewrite length_drop in Hd. cbn [length] in Hd. lia. }
    rewrite bool_decide_eq_false_2 by done.
    assert (is_ascii_digit d = true) as Hdd.
    { pose proof (Forall_drop _ 10 _ Hs) as Hdrop. rewrite Hd in Hdrop.
      by inversion Hdrop. }
    destruct (ascii_digit_classes d Hdd) as (_ & Hdw & ->).
    cbn [head word_at]. by rewrite Hdw.
Qed.

(** X14. The epoch pattern on a bare number: a line that consists of ASCII
    digits only has an epoch match exactly when it has ten digits, and the
    match is then the whole line.  A timestamp in milliseconds (thirteen
    digits) is not recognised, nor is a shorter number. *)
Theorem epoch_needs_exactly_ten_digits (line : pystr) :
  Forall (λ c, is_ascii_digit c = true) line →
  epoch_search rt line = if bool_decide (length line = 10%nat) then Some line else None.
Proof.
  intros Hs. unfold epoch_search. destruct line as [|c s]; [done|].
  inversion Hs as [|? ? Hc Hs']; subst.
  cbn [epoch_search_from]. rewrite (no_epoch_inside_digits s c Hc Hs').
  unfold epoch_at, boundary. cbn [head word_at].
  destruct (ascii_digit_classes c Hc) as (_ & Hw & _). rewrite Hw. cbn [xorb negb].
  rewrite (digits_of_digits 10 (c :: s) Hs).
  destruct (bool_decide (10 ≤ length (c :: s))%nat) eqn:E.
  - apply bool_decide_eq_true in E. rewrite (epoch_tail_of_digits (c :: s) Hs E).
    by destruct (bool_decide (length (c :: s) = 10%nat)).
  - apply bool_decide_eq_false in E. rewrite bool_decide_eq_false_2; [done|]. lia.
Qed.

End Epoch.

(** ** The dictionary of an XML element *)

Section Xml.
Import xml_converter.

(** [strip] leaves no white space at either end. *)
Lemma lstrip_space_suffix s : ∃ p, s = p ++ lstrip_space s ∧ Forall (λ c, is_space c = true) p.
Proof.
  induction s as [|c s (p & Hp & Hall)]; simpl; [by exists []|].
  destruct (is_space c) eqn:E.
  - exists (c :: p). split; [by rewrite Hp at 1|]. by constructor.
  - by exists [].
Qed.

Lemma lstrip_space_head s c : head (lstrip_space s) = Some c → is_space c = false.
Proof.
  induction s as [|x s IH]; simpl; [done|].
  destruct (is_space x) eqn:E; [done|]. by intros [= <-].
Qed.

Lemma lstrip_space_last s c :
  last (lstrip_space s) = Some c → last s = Some c.
Proof.
  destruct (lstrip_space_suffix s) as (p & Hp & _). intros H.
  rewrite Hp. rewrite last_app, H. done.
Qed.

Lemma strip_trimmed s : strip s ≠ [] → trimmed (strip s).
Proof.
  unfold strip, trimmed. intros Hne.
  set (a := lstrip_space s) in *. set (b := lstrip_space (reverse a)) in *.
  assert (b ≠ []) as Hb. { intros E. apply Hne. by rewrite E. }
  split.
  - rewrite head_reverse.
    destruct (last b) as [c|] eqn:Hc; [|by apply last_None in Hc].
    exists c. split; [done|].
    apply lstrip_space_last in Hc. rewrite last_reverse in Hc.
    by apply (lstrip_space_head s).
  - rewrite last_reverse.
    destruct (head b) as [c|] eqn:Hc; [|by apply head_None in Hc].
    exists c. split; [done|]. by apply (lstrip_space_head (reverse a)).
Qed.

Lemma stripped_trimmed x t : stripped x = Some t → trimmed t.
Proof.
  unfold stripped. destruct x as [s|]; [|done].
  destruct (truthy_str s); [|done]. simpl.
  destruct (truthy_str (strip s)) eqn:E; [|done]. intros [= <-].
  apply strip_trimmed. unfold truthy_str in E. apply negb_true_iff in E.
  by apply bool_decide_eq_false in E.
Qed.

Lemma stripped_blank s : Forall (λ c, is_space c = true) s → stripped (Some s) = None.
Proof.
  intros Hs. unfold stripped.
  assert (lstrip_space s = []) as Hl.
  { induction Hs as [|c s Hc _ IH]; simpl; [done|]. by rewrite Hc. }
  destruct (truthy_str s); [|done]. simpl. unfold strip. rewrite Hl. by vm_compute.
Qed.

(** X15. The dictionary of an XML element.  [text] is null or a text that is
    not empty and has no white space at either end, never an empty or blank
    string; a text of white space only becomes null.  [children] is there
    exactly when the element has children, and then holds the dictionaries
    of the children in document order.  [tail] is there only as such a
    trimmed text. *)
Theorem element_to_dict_shape tag attrib text children tail :
  ∃ obj,
    _element_to_dict (mkElement tag attrib text children tail) = JDict obj
    ∧ dict_get (k "tag") obj = Some (JStr tag)
    ∧ (dict_get (k "text") obj = Some JNone
       ∨ ∃ t, dict_get (k "text") obj = Some (JStr t) ∧ trimmed t)
    ∧ dict_get (k "children") obj
      = (if bool_decide (children = []) then None
         else Some (JList (_element_to_dict <$> children)))
    ∧ (dict_get (k "tail") obj = None
       ∨ ∃ t, dict_get (k "tail") obj = Some (JStr t) ∧ trimmed t)
    ∧ (∀ s, text = Some s → Forall (λ c, is_space c = true) s →
         dict_get (k "text") obj = Some JNone).
Proof.
  cbn [_element_to_dict].
  set (base := [(k "tag", JStr tag);
                (k "attributes", JDict (dict_of ((λ kv, (Some kv.1, JStr kv.2)) <$> attrib)));
                (k "text", json_of_option (stripped text))]).
  set (with_children := match map _element_to_dict children with
                        | [] => base
                        | _ => dict_set (k "children") (JList (map _element_to_dict children)) base
                        end).
  assert (dict_get (k "tag") with_children = Some (JStr tag)
          ∧ dict_get (k "text") with_children = Some (json_of_option (stripped text))
          ∧ dict_get (k "tail") with_children = None
          ∧ dict_get (k "children") with_children
            = (if bool_decide (children = []) then None
               else Some (JList (_element_to_dict <$> children)))) as (Htag & Htext & Htail & Hch).
  { unfold with_children. destruct children as [|c cs]; [by vm_compute|].
    cbn [map]. rewrite bool_decide_eq_false_2 by done.
    rewrite !dict_get_set_ne by (by intros [= ?]). rewrite dict_get_set_eq.
    repeat split; by vm_compute. }
  assert (dict_get (k "text") with_children = Some JNone
          ∨ ∃ t, dict_get (k "text") with_children = Some (JStr t) ∧ trimmed t) as Htext'.
  { rewrite Htext. destruct (stripped text) as [t|] eqn:E; [|by left].
    right. exists t. split; [done|]. by eapply stripped_trimmed. }
  assert (∀ s, text = Some s → Forall (λ c, is_space c = true) s →
            dict_get (k "text") with_children = Some JNone) as Hblank.
  { intros s -> Hs. rewrite Htext. by rewrite stripped_blank. }
  destruct (stripped tail) as [t|] eqn:Et.
  - eexists. split; [done|].
    rewrite !dict_get_set_ne by (by intros [= ?]). rewrite dict_get_set_eq.
    split; [done|]. split; [done|]. split; [done|]. split; [|done].
    right. exists t. split; [done|]. by eapply stripped_trimmed.
  - eexists. split; [done|]. split; [done|]. split; [done|]. split; [done|].
    split; [by left|done].
Qed.

End Xml.

(** ** More on archive listings *)

Section Listing.
Context (rt : Runtime) (convert : Converter → File → M Json).
Import archive_converter.

(** Attaching [converted_content] changes no other key. *)
Lemma outcome_keeps_fields self depth suffix data file_obj obj key :
  entry_outcome rt convert self depth suffix data file_obj obj →
  key ≠ k "converted_content" →
  dict_get key obj = dict_get key file_obj.
Proof.
  intros [->|(b & v & t & s & env & s' & _ & _ & _ & _ & _ & ->)] Hkey; [done|].
  by rewrite dict_get_set_ne.
Qed.

(** X16. The listing of an archive is complete, whatever the budget and whatever
    happens to the entries: [file_count] is the number of entries of the
    archive's directory, there is one dictionary per entry, in order, and
    its [filename], [size], [compressed_size] (ZIP), [mode] and [mtime]
    (TAR) and [is_directory] are those of the directory, also when
    [converted_content] was attached.  An entry that is a directory never
    carries [converted_content]. *)
Theorem archive_listing_is_complete self depth f s :
  recursion_depth self = Some depth →
  (∀ infos, zip_open rt f = Return infos →
     ∃ files s',
       _extract_zip rt convert self f s
       = (Return (JDict [(k "archive_type", JStr (u "zip"));
                         (k "file_count", JInt (Z.of_nat (length infos)));
                         (k "files", JList files)]), s')
       ∧ Forall2 (λ name file,
            ∃ info obj, getinfo infos name = Return info ∧ file = JDict obj
              ∧ dict_get (k "filename") obj = Some (JStr name)
              ∧ dict_get (k "size") obj = Some (JInt (file_size info))
              ∧ dict_get (k "compressed_size") obj = Some (JInt (compress_size info))
              ∧ dict_get (k "is_directory") obj
                = Some (JBool (bool_decide (last name = Some SLASH)))
              ∧ (last name = Some SLASH → dict_get (k "converted_content") obj = None))
          (namelist infos) files)
  ∧ (∀ members, tar_open rt (gz_mode (path f)) f = Return members →
     ∃ files s',
       _extract_tar rt convert self f s
       = (Return (JDict [(k "archive_type", JStr (u "tar"));
                         (k "file_count", JInt (Z.of_nat (length members)));
                         (k "files", JList files)]), s')
       ∧ Forall2 (λ member file,
            ∃ obj, file = JDict obj
              ∧ dict_get (k "filename") obj = Some (JStr (ti_name member))
              ∧ dict_get (k "size") obj = Some (JInt (ti_size member))
              ∧ dict_get (k "is_directory") obj = Some (JBool (ti_isdir member))
              ∧ dict_get (k "mode") obj = Some (JStr (oct (ti_mode member)))
              ∧ dict_get (k "mtime") obj = Some (JInt (ti_mtime member))
              ∧ (ti_isdir member = true → dict_get (k "converted_content") obj = None))
          members files).
Proof.
  intros Hdepth. split.
  - intros infos Hopen. unfold _extract_zip, try_except, mbind, ST_bind, lift. rewrite Hopen.
    destruct (for_each_returns (zip_entry rt convert self infos)
                (λ name file,
                   ∃ info obj, getinfo infos name = Return info ∧ file = JDict obj
                     ∧ dict_get (k "filename") obj = Some (JStr name)
                     ∧ dict_get (k "size") obj = Some (JInt (file_size info))
                     ∧ dict_get (k "compressed_size") obj = Some (JInt (compress_size info))
                     ∧ dict_get (k "is_directory") obj
                       = Some (JBool (bool_decide (last name = Some SLASH)))
                     ∧ (last name = Some SLASH → dict_get (k "converted_content") obj = None))
                (namelist infos) s) as (files & s' & Hrun & HF).
    { intros name s0 Hin.
      destruct (getinfo_namelist infos name Hin) as (info & Hinfo & _).
      destruct (zip_entry_spec rt convert self depth infos name info s0 Hdepth Hinfo)
        as (obj & s1 & Hrun & Hout & Hdir & _).
      exists (JDict obj), s1. split; [done|]. exists info, obj.
      split; [done|]. split; [done|].
      rewrite !(outcome_keeps_fields _ _ _ _ _ _ _ Hout) by (by intros [= ?]).
      repeat split; try done. intros Hd. by rewrite (Hdir Hd). }
    exists files, s'. rewrite Hrun. split; [|done].
    unfold listing. apply Forall2_length in HF. unfold namelist in HF.
    rewrite length_fmap in HF. by rewrite HF.
  - intros members Hopen. unfold _extract_tar, try_except, mbind, ST_bind, lift. rewrite Hopen.
    destruct (for_each_returns (tar_entry rt convert self)
                (λ member file,
                   ∃ obj, file = JDict obj
                     ∧ dict_get (k "filename") obj = Some (JStr (ti_name member))
                     ∧ dict_get (k "size") obj = Some (JInt (ti_size member))
                     ∧ dict_get (k "is_directory") obj = Some (JBool (ti_isdir member))
                     ∧ dict_get (k "mode") obj = Some (JStr (oct (ti_mode member)))
                     ∧ dict_get (k "mtime") obj = Some (JInt (ti_mtime member))
                     ∧ (ti_isdir member = true → dict_get (k "converted_content") obj = None))
                members s) as (files & s' & Hrun & HF).
    { intros member s0 _.
      destruct (tar_entry_spec rt convert self depth member s0 Hdepth)
        as (obj & s1 & Hrun & Hout & Hdir & _).
      exists (JDict obj), s1. split; [done|]. exists obj. split; [done|].
      rewrite !(outcome_keeps_fields _ _ _ _ _ _ _ Hout) by (by intros [= ?]).
      repeat split; try done. intros Hd. by rewrite (Hdir Hd). }
    exists files, s'. rewrite Hrun. split; [|done].
    unfold listing. apply Forall2_length in HF. by rewrite HF.
Qed.

(** A loop whose body does nothing to the state. *)
Lemma for_each_pure {A B} (body : A → M B) (g : A → B) (l : list A) s :
  (∀ a, a ∈ l → body a s = (Return (g a), s)) →
  for_each body l s = (Return (g <$> l), s).
Proof.
  induction l as [|a l IH]; intros H; simpl; [done|].
  unfold mbind, ST_bind. rewrite H by left.
  rewrite IH; [done|]. intros b Hb. apply H. by right.
Qed.

(** X17. With a budget of zero or less the archive handler only reads the
    directory: no entry is read, no scratch file is made, the file system is
    exactly as before, and every entry's dictionary is the plain one. *)
Theorem exhausted_budget_reads_nothing self depth f s :
  recursion_depth self = Some depth → (depth ≤ 0)%Z →
  (∀ infos, zip_open rt f = Return infos →
     ∃ files,
       _extract_zip rt convert self f s = (Return (listing "zip" files), s)
       ∧ Forall2 (λ name file,
            ∃ info, getinfo infos name = Return info
                    ∧ file = JDict (zip_file_obj info name))
           (namelist infos) files)
  ∧ (∀ members, tar_open rt (gz_mode (path f)) f = Return members →
       _extract_tar rt convert self f s
       = (Return (listing "tar" ((λ member, JDict (tar_file_obj member)) <$> members)), s)).
Proof.
  intros Hdepth Hle. split.
  - intros infos Hopen. unfold _extract_zip, try_except, mbind, ST_bind, lift. rewrite Hopen.
    set (g := λ name, match getinfo infos name with
                      | Return info => JDict (zip_file_obj info name)
                      | Raise _ => JNone
                      end).
    rewrite (for_each_pure (zip_entry rt convert self infos) g).
    + exists (g <$> namelist infos). split; [done|].
      apply Forall2_fmap_r, Forall_Forall2_diag, Forall_forall. intros name Hin.
      destruct (getinfo_namelist infos name Hin) as (info & Hinfo & _).
      exists info. split; [done|]. unfold g. by rewrite Hinfo.
    + intros name Hin. destruct (getinfo_namelist infos name Hin) as (info & Hinfo & _).
      unfold zip_entry, g, mbind, ST_bind, lift, get_recursion_depth.
      rewrite Hinfo, Hdepth. unfold zip_file_obj.
      destruct (bool_decide (last name = Some SLASH)) eqn:E; [done|].
      by assert ((0 <? depth)%Z = false) as -> by (apply Z.ltb_ge; lia).
  - intros members Hopen. unfold _extract_tar, try_except, mbind, ST_bind, lift. rewrite Hopen.
    rewrite (for_each_pure (tar_entry rt convert self) (λ member, JDict (tar_file_obj member)));
      [done|].
    intros member _. unfold tar_entry, mbind, ST_bind, lift, get_recursion_depth.
    rewrite Hdepth. unfold tar_file_obj. destruct (ti_isdir member); [done|].
    by assert ((0 <? depth)%Z = false) as -> by (apply Z.ltb_ge; lia).
Qed.

End Listing.

(** ** The handlers that drive a parsing library *)

Section Docx.
Import docx_converter.

(** The paragraphs that are listed, by position. *)
Lemma paragraph_objects_spec doc : ∀ n o,
  o ∈ paragraph_objects (S n) doc
  ↔ ∃ i p, doc !! i = Some p ∧ strip (para_text p) ≠ [] ∧ o = paragraph_at (n + i) p.
Proof.
  induction doc as [|q doc IH]; intros n o; cbn [paragraph_objects].
  - split; [by intros H%elem_of_nil|]. intros (i & p & Hi & _). by rewrite lookup_nil in Hi.
  - assert (o ∈ paragraph_objects (S (S n)) doc
            ↔ ∃ i p, (q :: doc) !! S i = Some p ∧ strip (para_text p) ≠ []
                     ∧ o = paragraph_at (n + S i) p) as Hrest.
    { rewrite IH. split; intros (i & p & Hi & Hne & ->); exists i, p;
        (split; [done|]); (split; [done|]); f_equal; by rewrite Nat.add_succ_r. }
    unfold truthy_str. destruct (bool_decide (strip (para_text q) = [])) eqn:E; simpl.
    + apply bool_decide_eq_true in E. rewrite Hrest. split.
      * intros (i & p & H). by exists (S i), p.
      * intros ([|i] & p & Hi & Hne & Ho); [|by exists i, p].
        simpl in Hi. injection Hi as <-. done.
    + apply bool_decide_eq_false in E. rewrite elem_of_cons, Hrest. split.
      * intros [->|(i & p & H)]; [|by exists (S i), p].
        exists 0%nat, q. split; [done|]. split; [done|]. unfold paragraph_at.
        by rewrite Nat.add_0_r.
      * intros ([|i] & p & Hi & Hne & Ho); [|right; by exists i, p].
        simpl in Hi. injection Hi as <-. left. rewrite Ho. unfold paragraph_at.
        by rewrite Nat.add_0_r.
Qed.

Lemma paragraph_objects_length doc : ∀ n,
  (length (paragraph_objects n doc) ≤ length doc)%nat.
Proof.
  induction doc as [|q doc IH]; intros n; cbn [paragraph_objects]; [done|].
  destruct (truthy_str _); simpl; specialize (IH (S n)); lia.
Qed.

(** X19. The DOCX handler lists exactly the paragraphs whose stripped text is
    not empty, each under the number of its position in the document
    (counted from 1, empty paragraphs included, so the numbers can have
    gaps) and with its text trimmed; [paragraph_count] counts the listed
    paragraphs and is at most the number of paragraphs of the document. *)
Theorem docx_paragraphs_keep_their_numbers doc :
  ∃ paragraphs,
    _extract_data true (Return doc)
    = Return (JDict [(k "paragraph_count", JInt (Z.of_nat (length paragraphs)));
                     (k "paragraphs", JList paragraphs)])
    ∧ (length paragraphs ≤ length doc)%nat
    ∧ (∀ o, o ∈ paragraphs
            ↔ ∃ i p, doc !! i = Some p ∧ strip (para_text p) ≠ [] ∧ o = paragraph_at i p)
    ∧ (∀ i p, doc !! i = Some p → paragraph_at i p ∈ paragraphs → trimmed (strip (para_text p))).
Proof.
  exists (paragraph_objects 1 doc). split; [done|].
  split; [apply paragraph_objects_length|]. split; [apply (paragraph_objects_spec doc 0)|].
  intros i p Hi Hin. apply strip_trimmed.
  apply (paragraph_objects_spec doc 0) in Hin as (j & q & Hj & Hne & Heq).
  unfold paragraph_at in Heq. injection Heq as Hnum Htext _.
  by rewrite Htext.
Qed.

End Docx.

Section Pcap.
Import pcap.

(** The loop stops at the limit. *)
Lemma read_packets_bound cap : ∀ i max_packets packets,
  read_packets i max_packets cap = Return packets →
  (Z.of_nat (length packets) ≤ Z.max 0 (max_packets - Z.of_nat i))%Z.
Proof.
  induction cap as [|[p|e] cap IH]; intros i max_packets packets; cbn [read_packets].
  - intros [= <-]. simpl. lia.
  - destruct (max_packets <=? Z.of_nat i)%Z eqn:E.
    + intros [= <-]. simpl. lia.
    + apply Z.leb_gt in E.
      destruct (read_packets (S i) max_packets cap) as [ps|e] eqn:Hr; [|done].
      specialize (IH _ _ _ Hr). intros [= <-]. destruct p; simpl; lia.
  - done.
Qed.

Lemma extract_with_shape method lib max_packets data :
  extract_with method lib max_packets = Return data →
  ∃ packets,
    data = JDict [(k "packet_count", JInt (Z.of_nat (length packets)));
                  (k "packets", JList (JDict <$> packets));
                  (k "extraction_method", JStr (u method))]
    ∧ (Z.of_nat (length packets) ≤ Z.max 0 max_packets)%Z.
Proof.
  unfold extract_with. destruct lib as [lib|]; [|done].
  destruct (capture lib) as [cap|e]; [|done].
  destruct (read_packets 0 max_packets cap) as [packets|e] eqn:Hr; [|done].
  destruct (close lib); [|done]. intros [= <-]. exists packets. split; [done|].
  apply read_packets_bound in Hr. lia.
Qed.

(** X21. The packet limit.  Whenever the PCAP handler returns, [packet_count] is
    the number of listed packets and at most [max_packets] (none for a limit
    of zero or less), and [extraction_method] names the library that
    produced them: [pyshark], or [scapy] after pyshark failed in whatever
    way. *)
Theorem pcap_packet_limit pyshark scapy max_packets data :
  _extract_data pyshark scapy max_packets = Return data →
  ∃ packets method,
    data = JDict [(k "packet_count", JInt (Z.of_nat (length packets)));
                  (k "packets", JList (JDict <$> packets));
                  (k "extraction_method", JStr (u method))]
    ∧ (Z.of_nat (length packets) ≤ Z.max 0 max_packets)%Z
    ∧ (method = "pyshark"%string
       ∨ method = "scapy"%string
         ∧ ∃ e, extract_with "pyshark" pyshark max_packets = Raise e).
Proof.
  unfold _extract_data.
  destruct (extract_with "pyshark" pyshark max_packets) as [d|e] eqn:Hp.
  - intros [= <-]. destruct (extract_with_shape _ _ _ _ Hp) as (packets & -> & Hlen).
    exists packets, "pyshark"%string. eauto.
  - destruct (extract_with "scapy" scapy max_packets) as [d|e'] eqn:Hs.
    + intros [= <-]. destruct (extract_with_shape _ _ _ _ Hs) as (packets & -> & Hlen).
      exists packets, "scapy"%string. eauto 10.
    + by destruct (isinstance e' ImportError).
Qed.

End Pcap.

Section Evtx.
Import evtx.

(** The step of the loop over the [Data] elements. *)
Lemma data_fold_lookup (name : pystr) (l : list Element) : ∀ d,
  name ≠ [] →
  dict_get (Some name)
    (fold_left
       (λ d data_elem,
          match get (u "Name") data_elem with
          | Some ((_ :: _) as name) =>
              dict_set (Some name) (xml_converter.json_of_option (text_of data_elem)) d
          | _ => d
          end) l d)
  = match last (filter (λ e, get (u "Name") e = Some name) l) with
    | Some e => Some (xml_converter.json_of_option (text_of e))
    | None => dict_get (Some name) d
    end.
Proof.
  induction l as [|e l IH]; intros d Hne; [done|].
  cbn [fold_left]. rewrite IH by done.
  destruct (decide (get (u "Name") e = Some name)) as [Heq|Hneq].
  - rewrite filter_cons_True by done. rewrite last_cons.
    destruct (last (filter _ l)); [done|]. rewrite Heq.
    destruct name as [|c name]; [done|]. by rewrite dict_get_set_eq.
  - rewrite filter_cons_False by done.
    destruct (last (filter _ l)); [done|].
    destruct (get (u "Name") e) as [[|c n]|] eqn:E; try done.
    rewrite dict_get_set_ne; [done|]. intros [= ?]. apply Hneq. congruence.
Qed.

Lemma data_fold_no_other_key (key : option pystr) (l : list Element) : ∀ d,
  (key = None ∨ key = Some []) →
  dict_get key
    (fold_left
       (λ d data_elem,
          match get (u "Name") data_elem with
          | Some ((_ :: _) as name) =>
              dict_set (Some name) (xml_converter.json_of_option (text_of data_elem)) d
          | _ => d
          end) l d)
  = dict_get key d.
Proof.
  induction l as [|e l IH]; intros d Hk; [done|].
  cbn [fold_left]. rewrite IH by done.
  destruct (get (u "Name") e) as [[|c n]|]; try done.
  rewrite dict_get_set_ne; [done|]. by destruct Hk as [->| ->].
Qed.

Lemma record_objects_length fromstring views :
  (length (record_objects fromstring views) ≤ length views)%nat.
Proof.
  induction views as [|[event|e] views IH]; simpl; [done| |lia].
  destruct (fromstring event); simpl; lia.
Qed.

(** X20. The [data] of an event record.  Under a name that is not empty, [data]
    holds the text of the last [Data] element of the record that has this
    [Name]: when a name occurs twice, the earlier value is lost.  [Data]
    elements without a [Name], or with an empty one, are left out: [data]
    has no empty and no null key.  The record keeps its XML in full. *)
Theorem evtx_data_last_value_wins root :
  (∀ name, name ≠ [] →
     dict_get (Some name) (data_dict root)
     = (λ e, xml_converter.json_of_option (text_of e))
         <$> last (filter (λ e, get (u "Name") e = Some name)
                     (findall (EVENT_NS ++ u "Data") root)))
  ∧ dict_get (Some []) (data_dict root) = None
  ∧ dict_get None (data_dict root) = None
  ∧ (∀ event, item (k "data") (record_obj event root) = Some (JDict (data_dict root))
              ∧ item (k "xml") (record_obj event root) = Some (JStr event)).
Proof.
  split; [|split; [|split]].
  - intros name Hne. unfold data_dict. rewrite data_fold_lookup by done.
    by destruct (last _).
  - unfold data_dict. rewrite data_fold_no_other_key; [done|by right].
  - unfold data_dict. rewrite data_fold_no_other_key; [done|by left].
  - intros event. split; by vm_compute.
Qed.

End Evtx.


(** ** The PDF handler *)

Section Pdf.
Import pdf_converter.

(** The pages that are listed, by position. *)
Lemma page_objects_spec texts : ∀ n,
  length (page_objects n texts) = length texts
  ∧ ∀ i text, texts !! i = Some text →
      page_objects n texts !! i
      = Some (JDict [(k "page_number", JInt (Z.of_nat (n + i))); (k "text", JStr (strip text))]).
Proof.
  induction texts as [|t texts IH]; intros n; cbn [page_objects].
  - split; [done|]. intros i text Hi. by rewrite lookup_nil in Hi.
  - destruct (IH (S n)) as [Hlen Hnth]. split; [cbn [length]; by f_equal|].
    intros [|i] text Hi.
    + injection Hi as <-. by rewrite Nat.add_0_r.
    + change (page_objects (S n) texts !! i
              = Some (JDict [(k "page_number", JInt (Z.of_nat (n + S i)));
                             (k "text", JStr (strip text))])).
      rewrite (Hnth i text Hi). by replace (S n + i)%nat with (n + S i)%nat by lia.
Qed.

(** X23. The pages of a PDF.  Whenever the PDF handler returns, its result lists
    one dictionary per page that the library read, in order, the page at
    position [i] (from 0) under [page_number] [i + 1] and with its text
    stripped, [page_count] is their number, and [extraction_method] names the
    library the pages come from.  PyPDF2 is tried only after an
    [ImportError] of pdfminer: any other error of pdfminer is the error of
    the handler, whether or not PyPDF2 could read the file. *)
Theorem pdf_pages_are_numbered pdfminer pypdf2 :
  (∀ data, _extract_data pdfminer pypdf2 = Return data →
     ∃ texts method,
       data = pages_result (length texts) (page_objects 1 texts) method
       ∧ ((∃ lib layouts, pdfminer = Some lib ∧ extract_pages lib = Return layouts
             ∧ texts = page_text <$> layouts ∧ method = "pdfminer.six"%string)
          ∨ (pypdf2 = Some (Return texts) ∧ method = "PyPDF2"%string))
       ∧ length (page_objects 1 texts) = length texts
       ∧ ∀ i text, texts !! i = Some text →
           page_objects 1 texts !! i
           = Some (JDict [(k "page_number", JInt (Z.of_nat (S i)));
                          (k "text", JStr (strip text))]))
  ∧ (∀ e, _extract_with_pdfminer pdfminer = Raise e → isinstance e ImportError = false →
       _extract_data pdfminer pypdf2 = Raise e)
  ∧ (∀ e data, _extract_with_pdfminer pdfminer = Raise e → isinstance e ImportError = true →
       _extract_with_pypdf2 pypdf2 = Return data →
       _extract_data pdfminer pypdf2 = Return data).
Proof.
  split; [|split].
  - intros data. unfold _extract_data.
    destruct (_extract_with_pdfminer pdfminer) as [d|e] eqn:Hp.
    + intros [= <-]. unfold _extract_with_pdfminer in Hp.
      destruct pdfminer as [lib|]; [|done].
      destruct (extract_pages lib) as [layouts|] eqn:Hl; [|done].
      destruct (extract_text lib); [|done]. injection Hp as <-.
      destruct (page_objects_spec (page_text <$> layouts) 1) as [Hlen Hnth].
      exists (page_text <$> layouts), "pdfminer.six"%string. rewrite Hlen.
      split; [done|]. split; [left; by exists lib, layouts|]. done.
    + destruct (isinstance e ImportError); [|done].
      destruct (_extract_with_pypdf2 pypdf2) as [d|e'] eqn:Hq.
      * intros [= <-]. unfold _extract_with_pypdf2 in Hq.
        destruct pypdf2 as [[texts|]|]; try done. injection Hq as <-.
        destruct (page_objects_spec texts 1) as [Hlen Hnth].
        exists texts, "PyPDF2"%string. split; [done|]. split; [by right|]. done.
      * by destruct (isinstance e' ImportError).
  - intros e He Hi. unfold _extract_data. by rewrite He, Hi.
  - intros e data He Hi Hd. unfold _extract_data. by rewrite He, Hi, Hd.
Qed.

End Pdf.

(** ** The archive handler and the registry *)

Section Dispatch.
Context (rt : Runtime) (nested : Converter → File → M Json).

(** The tags that the registry gives to the archive handler. *)
Lemma archive_tags tag :
  get_converter tag = ArchiveConverter → tag = u "zip" ∨ tag = u "tar" ∨ tag = u "gzip".
Proof.
  unfold get_converter. destruct (CONVERTER_REGISTRY !! tag) as [c|] eqn:Hc; [|done].
  simpl. intros ->. unfold CONVERTER_REGISTRY in Hc.
  apply elem_of_list_to_map_2, list_elem_of_In in Hc. simpl in Hc.
  repeat (destruct Hc as [Hc|Hc]; [injection Hc as <-; try discriminate; eauto|]). done.
Qed.

Lemma archive_tags_convert tag :
  tag = u "zip" ∨ tag = u "tar" ∨ tag = u "gzip" → get_converter tag = ArchiveConverter.
Proof. intros [-> | [-> | ->]]; by vm_compute. Qed.

(** X22. The archive handler and the registry agree.  On a file whose detected
    type the registry gives to the archive handler, the handler reads the
    file as a ZIP archive when the type is [zip] and as a TAR archive
    otherwise; on any other file it raises the [ValueError]
    [Unsupported archive type] with the detected type and leaves the file
    system as it is.  So the error cannot come up for a handler that was
    chosen through the registry by the type of the file it is applied to. *)
Theorem archive_dispatch_follows_registry self f s :
  let tag := (detect_file_type rt f).1 in
  (get_converter tag = ArchiveConverter →
     archive_converter._extract_data rt nested self f s
     = if bool_decide (tag = u "zip")
       then archive_converter._extract_zip rt nested self f s
       else archive_converter._extract_tar rt nested self f s)
  ∧ (get_converter tag ≠ ArchiveConverter →
     archive_converter._extract_data rt nested self f s
     = (Raise (mkExc ValueError (u "Unsupported archive type: " ++ tag)), s)).
Proof.
  intros tag. subst tag. unfold archive_converter._extract_data.
  destruct (detect_file_type rt f) as [tag mimetype]. cbn [fst].
  unfold str_eqb. split.
  - intros Hc. apply archive_tags in Hc.
    destruct Hc as [-> | [-> | ->]]; by vm_compute.
  - intros Hc.
    rewrite !bool_decide_eq_false_2; [done | | |];
      intros ->; apply Hc, archive_tags_convert; auto.
Qed.

End Dispatch.

(** ** More examples, evaluated *)

Section MoreExamples.
Import example.


(** The envelope of [good.json]. *)
Lemma convert_envelope_witness :
  ∃ env s' metadata data,
    base_converter.convert rt json_handler good_json None empty_fs = (Return env, s')
    ∧ env = JDict [
       (k "source_filename", JStr (u "good.json"));
       (k "source_path", JStr (u "/in/good.json"));
       (k "detected_type", JStr (u "json"));
       (k "mimetype", JStr (u "application/octet-stream"));
       (k "converted_at", JStr (u "2024-01-01T00:00:00Z"));
       (k "metadata", JDict metadata);
       (k "data", data) ].
Proof.
  assert (E : ∃ env s',
             base_converter.convert rt json_handler good_json None empty_fs = (Return env, s'))
    by (vm_compute; eauto).
  destruct E as (env & s' & E).
  destruct (convert_envelope rt json_handler good_json None empty_fs env s' E)
    as (metadata & data & Henv & _).
  exists env, s', metadata, data. split; [exact E|]. exact Henv.
Defined.

(** [good.json] where hashing fails. *)
Lemma unreadable_file_has_empty_digests_witness :
  hexdigests rt_unreadable good_json
  = Raise (mkExc OSError (u "[Errno 5] Input/output error"))
  ∧ ∃ env s' metadata,
      base_converter.convert rt_unreadable json_handler good_json None empty_fs
      = (Return env, s')
      ∧ item (k "metadata") env = Some (JDict metadata)
      ∧ dict_get (k "sha256") metadata = Some (JStr [])
      ∧ dict_get (k "size") metadata = Some (JInt 8).
Proof.
  split; [reflexivity|].
  assert (E : ∃ env s',
             base_converter.convert rt_unreadable json_handler good_json None empty_fs
             = (Return env, s'))
    by (vm_compute; eauto).
  destruct E as (env & s' & E).
  destruct (proj2 (proj2 (unreadable_file_has_empty_digests rt_unreadable good_json _ eq_refl))
              json_handler None empty_fs env s' E)
    as (metadata & Hm & Hsha & _ & _ & Hsize).
  exists env, s', metadata. split; [exact E|]. split; [exact Hm|]. split; [exact Hsha|].
  exact Hsize.
Defined.

(** [good.xml] after [good.json]. *)
Lemma same_stem_is_skipped_witness :
  ∃ data s1 s2,
    processor._process_single_file rt new_processor good_json empty_fs
    = (Return (Some data), s1)
    ∧ processor._process_single_file rt new_processor good_xml s1 = (Return None, s2)
    ∧ outputs s2 = outputs s1
    ∧ outputs s2 !! u "/out/good.json" = Some data.
Proof.
  assert (E : ∃ data s1,
             processor._process_single_file rt new_processor good_json empty_fs
             = (Return (Some data), s1))
    by (vm_compute; eauto).
  destruct E as (data & s1 & E).
  destruct (same_stem_is_skipped rt new_processor good_json good_xml empty_fs data s1
              eq_refl ltac:(by vm_compute) E) as (s2 & Hrun & Hsame & Hthere).
  exists data, s1, s2. split; [exact E|]. split; [exact Hrun|]. split; [exact Hsame|].
  exact Hthere.
Defined.

(** A run on [good.json] when [/out/good.json] exists. *)
Lemma existing_outputs_are_kept_witness :
  outputs fs_with_output !! u "/out/good.json" = Some old_document
  ∧ outputs (processor.process_in_pool rt new_processor (processor.InputFile good_json)
               fs_with_output).2 !! u "/out/good.json" = Some old_document.
Proof.
  assert (H : outputs fs_with_output !! u "/out/good.json" = Some old_document)
    by (by vm_compute).
  split; [exact H|].
  exact (existing_outputs_are_kept rt new_processor (processor.InputFile good_json)
           fs_with_output _ _ eq_refl H).
Defined.

(** [--formats jsn] on the directory with [bad.json]. *)
Lemma unregistered_formats_skip_every_file_witness :
  processor.process_in_pool rt jsn_processor one_bad_file empty_fs
  = (Return (processor.counts jsn_processor, jsn_processor), empty_fs).
Proof.
  apply (unregistered_formats_skip_every_file rt jsn_processor one_bad_file empty_fs
           [u "jsn"]).
  - reflexivity.
  - discriminate.
  - intros t Ht. apply list_elem_of_singleton in Ht. subst t.
    refine (bool_decide_unpack (_ ∉ _) _). vm_compute. exact I.
  - reflexivity.
  - discriminate.
Defined.


(** [main --combine] on [good.json]. *)
Lemma master_json_after_main_witness :
  ∃ s' converted,
    cli.main rt combine_args host_good empty_fs = (Return 0%Z, s')
    ∧ outputs s' !! u "/out/master.json"
      = Some (JDict [(k "total_files", JInt (Z.of_nat (length converted)));
                     (k "converted_files", JList converted)]).
Proof.
  assert (E : ∃ s', cli.main rt combine_args host_good empty_fs = (Return 0%Z, s'))
    by (vm_compute; eauto).
  destruct E as (s' & E).
  destruct (master_json_after_main rt combine_args host_good empty_fs s' E eq_refl)
    as (converted & H).
  exists s', converted. split; [exact E|]. exact H.
Defined.

(** A time in milliseconds. *)
Lemma epoch_needs_exactly_ten_digits_witness :
  text_converter.epoch_search rt millis_line = None.
Proof.
  apply (epoch_needs_exactly_ten_digits rt millis_line).
  unfold millis_line. by repeat constructor.
Defined.

(** The ZIP archive, budget 3. *)
Lemma archive_listing_is_complete_witness :
  ∃ files s',
    archive_converter._extract_zip rt_archives nested archive_handler zip_file empty_fs
    = (Return (JDict [(k "archive_type", JStr (u "zip"));
                      (k "file_count", JInt 2);
                      (k "files", JList files)]), s').
Proof.
  destruct (proj1 (archive_listing_is_complete rt_archives nested archive_handler 3 zip_file
                     empty_fs eq_refl) zip_infos ltac:(by vm_compute))
    as (files & s' & H & _).
  exists files, s'. exact H.
Defined.

(** The TAR archive, budget 0. *)
Lemma exhausted_budget_reads_nothing_witness :
  archive_converter._extract_tar rt_archives nested exhausted_handler tar_file empty_fs
  = (Return (archive_converter.listing "tar"
               ((λ member, JDict (tar_file_obj member)) <$> tar_members)), empty_fs).
Proof.
  apply (proj2 (exhausted_budget_reads_nothing rt_archives nested exhausted_handler 0 tar_file
                  empty_fs eq_refl ltac:(done))).
  by vm_compute.
Defined.

(** The entry [good.json] of the ZIP archive. *)
Lemma scratch_removed_when_filled_witness :
  scratch (archive_converter.zip_entry rt_archives nested archive_handler zip_infos
             (u "good.json") empty_fs).2 !! 0%nat = None.
Proof.
  apply (proj1 (scratch_removed_when_filled rt_archives nested archive_handler 3 empty_fs
                  eq_refl eq_refl)
           zip_infos (u "good.json")
           (mkZipInfo (u "good.json") 8 8 (Return good_json_bytes)) good_json_bytes).
  - by vm_compute.
  - intros H. by vm_compute in H.
  - reflexivity.
  - split; [reflexivity|]. intros b _. reflexivity.
Defined.

(** Scapy with a limit of two packets. *)
Lemma pcap_packet_limit_witness :
  ∃ data packets method,
    pcap._extract_data None (Some scapy) 2 = Return data
    ∧ data = JDict [(k "packet_count", JInt (Z.of_nat (length packets)));
                    (k "packets", JList (JDict <$> packets));
                    (k "extraction_method", JStr (u method))]
    ∧ (Z.of_nat (length packets) ≤ 2)%Z.
Proof.
  assert (E : ∃ data, pcap._extract_data None (Some scapy) 2 = Return data)
    by (vm_compute; eauto).
  destruct E as (data & E).
  destruct (pcap_packet_limit None (Some scapy) 2 data E) as (packets & method & H1 & H2 & _).
  exists data, packets, method. split; [exact E|]. split; [exact H1|]. exact H2.
Defined.

End MoreExamples.
